(** * Self-healing test framework: the healing path, verified

    A shallow embedding of the healing path of the repository:

    - [src/healing/HealingEngine.js]   (the Healing Orchestrator),
    - [src/ai/AIIntegration.js]        (strategy generation),
    - [src/healing/strategies/UIFealingStrategies.js] (UI executors),
    - [src/core/BaseFramework.js]      (the Execution Wrapper).

    Conventions of the embedding.

    - A JavaScript string is a [string] of bytes; [toLowerCase] folds the
      ASCII letters, which is all that the ASCII patterns of the source can
      observe.
    - A JavaScript number is an exact rational [Q]; the constants of the
      source (0.5, 0.3, 0.8, 30, 20, 100, ...) are exact, and equality of
      numbers is [Qeq].  Integer counters are [Z].
    - A [Map] keyed by strategy name is a [gmap string _]; the iteration
      order of a [Map] is not observed by the code studied here.
    - An object field that may be [undefined] is an [option].
    - A call that may throw returns a [Completion]; the collaborators that
      live outside the repository (the language model, Playwright pages, the
      JSON reader of the model's answers, the file system, [eval]) are
      parameters, and they thread an abstract [World].  What writing the
      persisted record as JSON and reading it back makes of the record is
      modelled ([JSON_roundtrip]).
    - Logging is left out.  The calls that the statements speak about
      ([analyzeError], [applyHealing], each strategy execution and what it
      returned, each call to the language model) are recorded in a trace. *)

From Stdlib Require Import String Ascii List ZArith QArith Lia Lqa Bool.
From Stdlib Require Import Permutation Sorted.
From stdpp Require Import base option list gmap strings.

Import ListNotations.
Local Open Scope Q_scope.
Local Open Scope string_scope.
Local Open Scope list_scope.

(** ** JavaScript strings *)

Module JsString.

(** ['A' <= c <= 'Z'] *)
Definition is_upper (c : ascii) : bool :=
  let n := nat_of_ascii c in (65 <=? n)%nat && (n <=? 90)%nat.

Definition lower_char (c : ascii) : ascii :=
  if is_upper c then ascii_of_nat (nat_of_ascii c + 32) else c.

(** [String.prototype.toLowerCase] *)
Fixpoint toLowerCase (s : string) : string :=
  match s with
  | EmptyString => EmptyString
  | String c s' => String (lower_char c) (toLowerCase s')
  end.

(** [s.startsWith(p)] *)
Fixpoint startsWith (s p : string) {struct p} : bool :=
  match p, s with
  | EmptyString, _ => true
  | String _ _, EmptyString => false
  | String a p', String b s' => Ascii.eqb a b && startsWith s' p'
  end.

(** [s.includes(p)]: [p] occurs in [s] at some position. *)
Fixpoint includes (s p : string) : bool :=
  startsWith s p ||
  match s with
  | EmptyString => false
  | String _ s' => includes s' p
  end.

(** [s.substring(1)] *)
Definition substring1 (s : string) : string :=
  match s with
  | EmptyString => EmptyString
  | String _ s' => s'
  end.

(** [s.substring(n)] *)
Fixpoint string_drop (n : nat) (s : string) : string :=
  match n, s with
  | O, _ => s
  | S n', String _ s' => string_drop n' s'
  | S _, EmptyString => EmptyString
  end.

(** [s.replace(a, b)] for string arguments: the first occurrence only. *)
Fixpoint replace_first (s a b : string) : string :=
  if startsWith s a then b +:+ string_drop (String.length a) s
  else match s with
       | EmptyString => EmptyString
       | String c s' => String c (replace_first s' a b)
       end.

(** Case-insensitive containment, stated on the message itself: some
    substring of [s] folds to the same text as [p]. *)
Definition contains_ci (s p : string) : Prop :=
  exists pre mid post : string,
    s = pre +:+ mid +:+ post /\ toLowerCase mid = toLowerCase p.

End JsString.
Import JsString.

(** ** Error classification ([HealingEngine.classifyError]) *)

Record JsError := mkError {
  err_name : string;
  message  : string;
  stack    : option string
}.

(** [new Error(msg)] *)
Definition Error (msg : string) : JsError := mkError "Error" msg None.

Inductive ErrorClassification :=
| locator_failure
| wait_failure
| element_state_failure
| navigation_failure
| api_failure
| assertion_failure
| network_failure
| unknown_failure.

Definition classifyError (error : JsError) : ErrorClassification :=
  let errorMessage := toLowerCase (message error) in
  if includes errorMessage "element not found" || includes errorMessage "selector"
  then locator_failure
  else if includes errorMessage "timeout" || includes errorMessage "wait"
  then wait_failure
  else if includes errorMessage "not visible" || includes errorMessage "not clickable"
  then element_state_failure
  else if includes errorMessage "navigation" || includes errorMessage "page not found"
  then navigation_failure
  else if includes errorMessage "api" || includes errorMessage "endpoint"
  then api_failure
  else if includes errorMessage "assertion" || includes errorMessage "expect"
  then assertion_failure
  else if includes errorMessage "network" || includes errorMessage "connection"
  then network_failure
  else unknown_failure.

(** The classification as the specification words it: a priority table of
    (patterns, class) rows scanned from the top, the first row with a
    matching pattern wins, [unknown_failure] when no row matches. *)
Definition priority_table : list (list string * ErrorClassification) :=
  [ (["element not found"; "selector"],   locator_failure);
    (["timeout"; "wait"],                 wait_failure);
    (["not visible"; "not clickable"],    element_state_failure);
    (["navigation"; "page not found"],    navigation_failure);
    (["api"; "endpoint"],                 api_failure);
    (["assertion"; "expect"],             assertion_failure);
    (["network"; "connection"],           network_failure) ].

Fixpoint first_match (table : list (list string * ErrorClassification))
         (folded : string) : ErrorClassification :=
  match table with
  | [] => unknown_failure
  | (pats, cls) :: rest =>
      if existsb (includes folded) pats then cls else first_match rest folded
  end.

Definition classify_spec (error : JsError) : ErrorClassification :=
  first_match priority_table (toLowerCase (message error)).


(** The eight strings the source returns. *)
Definition classification_name (c : ErrorClassification) : string :=
  match c with
  | locator_failure       => "locator_failure"
  | wait_failure          => "wait_failure"
  | element_state_failure => "element_state_failure"
  | navigation_failure    => "navigation_failure"
  | api_failure           => "api_failure"
  | assertion_failure     => "assertion_failure"
  | network_failure       => "network_failure"
  | unknown_failure       => "unknown_failure"
  end.

(** ** Values *)

(** A call either returns or throws. *)
Inductive Completion (A : Type) : Type :=
| Return (a : A)
| Throw  (e : JsError).
Arguments Return {A} a.
Arguments Throw {A} e.

(** [x || d] on a number: [undefined] and [0] are falsy. *)
Definition num_or (x : option Q) (d : Q) : Q :=
  match x with
  | Some q => if Qeq_bool q 0 then d else q
  | None => d
  end.

(** [x || d] on a string: [undefined] and the empty string are falsy. *)
Definition str_or (x : option string) (d : string) : string :=
  match x with
  | Some EmptyString => d
  | Some s => s
  | None => d
  end.

(** [x || y] where both sides may be [undefined]. *)
Definition str_or_undefined (x y : option string) : option string :=
  match x with
  | Some EmptyString => y
  | Some s => Some s
  | None => y
  end.

(** Truthiness of a string that may be [undefined]. *)
Definition str_truthy (x : option string) : bool :=
  match x with
  | Some EmptyString => false
  | Some _ => true
  | None => false
  end.

(** Strict equality [===] of two fields that may be [undefined]. *)
Definition strict_eq (x y : option string) : bool :=
  match x, y with
  | Some a, Some b => String.eqb a b
  | None, None => true
  | _, _ => false
  end.

Record Viewport := mkViewport {
  width  : option Z;
  height : option Z
}.

(** The context object handed to the engine; every field may be missing. *)
Record Context := mkContext {
  testType  : option string;
  pageUrl   : option string;
  element   : option string;
  action    : option string;
  userAgent : option string;
  viewport  : option Viewport
}.

(** [{}] *)
Definition empty_context : Context := mkContext None None None None None None.

(** What [extractContextData] returns. *)
Record ContextData := mkContextData {
  cd_testType  : string;
  cd_pageUrl   : string;
  cd_element   : string;
  cd_action    : string;
  cd_timestamp : Z;
  cd_userAgent : string;
  cd_viewport  : Viewport
}.

(** A strategy's [implementation]: a function object (by reference), a
    string of code, or anything else (missing included). *)
Inductive Implementation :=
| ImplFunction (ref : nat)
| ImplString (code : string)
| ImplOther.

(** A strategy candidate; [score] is set by ranking. *)
Record Strategy := mkStrategy {
  strategy       : string;
  description    : option string;
  implementation : Implementation;
  confidence     : option Q;
  source         : option string;
  score          : option Q;
  changes        : option (list string)
}.

(** [{...s, score: x}] *)
Definition with_score (s : Strategy) (x : Q) : Strategy :=
  mkStrategy (strategy s) (description s) (implementation s)
             (confidence s) (source s) (Some x) (changes s).

Record Element := mkElement {
  locator        : option string;
  selector       : option string;
  el_description : option string;
  el_text        : option string
}.

(** The test data; [page] is the live Playwright page, by reference. *)
Record TestData := mkTestData {
  td_element : option Element;
  td_page    : option nat;
  td_url     : option string
}.

Record WaitOptions := mkWaitOptions {
  timeout : Z;
  retries : Z;
  delay   : Z
}.

(** The result object of a healing step.  One record covers the shapes the
    source builds; a field a shape does not carry is [None]. *)
Record HealResult := mkHealResult {
  success        : bool;
  res_error      : option string;
  res_strategy   : option string;
  res_changes    : option (list string);
  healedData     : option TestData;
  res_locator    : option string;
  res_confidence : option Q;
  res_options    : option WaitOptions;
  res_strategies : option (list string);
  res_context    : option Context
}.

(** [{ success: false, error, strategy }] *)
Definition failure (err : string) (name : string) : HealResult :=
  mkHealResult false (Some err) (Some name) None None None None None None None.

(** [{ success: true, strategy, changes }] *)
Definition basic_success (name : string) (chg : list string) : HealResult :=
  mkHealResult true None (Some name) (Some chg) None None None None None None.

(** ** The engine's learning state *)

Record Pattern := mkPattern {
  name            : string;
  pat_description : option string;
  pat_implementation : Implementation;
  successCount    : Z;
  totalCount      : Z;
  successRate     : Q
}.

Record HistoryEntry := mkHistoryEntry {
  h_timestamp : Z;
  h_strategy  : string;
  h_success   : bool;
  h_result    : option HealResult;
  h_context   : option Context
}.

(** An entry of [AIIntegration.learningData]. *)
Record LearningEntry := mkLearningEntry {
  l_testContext : option Context;
  l_patterns    : option (list string);
  l_success     : bool
}.

(** The state of a [HealingEngine]: its three learning structures and the
    learning data of its own [AIIntegration] instance. *)
Record HealingEngine := mkEngine {
  healingHistory : list HistoryEntry;
  patterns       : gmap string Pattern;
  successRates   : gmap string Q;
  learningData   : list LearningEntry
}.

(** [new HealingEngine()] before [initialize]. *)
Definition new_engine : HealingEngine := mkEngine [] ∅ ∅ [].

(** The record written to [data/patterns.json]. *)
Record PersistedRecord := mkPersisted {
  p_patterns       : option (list (string * Pattern));
  p_successRates   : option (list (string * Q));
  p_healingHistory : option (list HistoryEntry);
  lastUpdated      : Z
}.

(** What [analyzeError] returns. *)
Record Analysis := mkAnalysis {
  errorType    : ErrorClassification;
  an_context   : ContextData;
  an_strategies : list Strategy;
  an_timestamp : Z
}.

(** ** The execution wrapper's state *)

Record Options := mkOptions {
  enableHealing : bool;
  enableAI : bool;
  maxHealingAttempts : nat;
  enableAILocatorGeneration : bool
}.

Record Metrics := mkMetrics {
  totalTests : Z;
  healedTests : Z;
  healingSuccessRate : Q;
  averageHealingTime : Z
}.

Record AttemptRecord := mkAttempt {
  attempt : nat;
  at_strategy : option Analysis;
  at_error : option string
}.

(** An entry of the wrapper's own, shorter history. *)
Inductive WrapperEntry :=
| HealedEntry (timestamp : Z) (err : string) (analysis : Analysis) (attempt : nat)
| FailedEntry (timestamp : Z) (err : string) (attempts : list AttemptRecord).

Record BaseFramework := mkFramework {
  options : Options;
  metrics : Metrics;
  fw_healingHistory : list WrapperEntry;
  testContext : Context
}.

(** What [attemptHealing] returns: the successful result of [applyHealing],
    or [{ success: false, attempts }]. *)
Inductive HealingOutcome :=
| HealingSucceeded (r : HealResult)
| HealingGaveUp (attempts : list AttemptRecord).

(** What the test function returns.  The wrapper reads it once more as a
    strategy object in [postTestAnalysis]; [tr_as_strategy] is that reading
    when the result carries a string [strategy] field. *)
Record TestResult := mkTestResult {
  tr_success : bool;
  tr_as_strategy : option Strategy
}.

(** What [executeTest] returns. *)
Inductive ExecResult :=
| Passed (r : TestResult)
| Healed (r : HealResult).

(** ** Collaborators outside the repository *)

(** The prompt sent to the language model is a template filled with these
    data; the model's answer can depend on nothing else. *)
Inductive Prompt :=
| HealingPrompt (error : JsError) (context : Context)
| TestDataPrompt (testData : TestData) (s : Strategy).

(** [JSON.parse(response)] as [parseHealingStrategies] reads it: an array,
    another JSON value, or a [SyntaxError]. *)
Inductive ParsedJson :=
| JsonArray (l : list Strategy)
| JsonOther
| JsonSyntaxError.

Record AiLocator := mkAiLocator {
  ai_selector   : option string;
  ai_confidence : option Q
}.

Inductive UiMethod := LocatorIssue | WaitIssue | ElementStateIssue | NavigationIssue.
Inductive ApiMethod := EndpointIssue | SchemaIssue | ResponseIssue.

(** Calls traced for the statements about who invokes whom. *)
Inductive Event :=
| CallAnalyzeError (error : JsError)
| CallApplyHealing (analysis : Analysis)
| CallExecuteStrategy (s : Strategy)
| StrategyReturned (s : Strategy) (result : option HealResult)
| CallAI (p : Prompt).

(** The strategies whose execution was started, in order. *)
Definition executed (evs : list Event) : list Strategy :=
  flat_map (fun ev => match ev with CallExecuteStrategy s => [s] | _ => [] end) evs.

(** The executions that came back, each with what it returned. *)
Definition executions (evs : list Event) : list (Strategy * option HealResult) :=
  flat_map (fun ev => match ev with StrategyReturned s r => [(s, r)] | _ => [] end) evs.

(** The calls into the orchestrator ([analyzeError], [applyHealing]). *)
Definition orchestrator_calls (evs : list Event) : list Event :=
  List.filter (fun ev => match ev with
                         | CallAnalyzeError _ | CallApplyHealing _ => true
                         | _ => false
                         end) evs.

(** An execution that did not heal: the result is [undefined], or its
    [success] is falsy. *)
Definition not_healed (r : option HealResult) : Prop :=
  match r with
  | Some res => success res = false
  | None => True
  end.

Record Collaborators (World : Type) := mkCollaborators {
  (** [Date.now()] *)
  Date_now : World -> Z;
  (** [AIIntegration.callAI]: the OpenAI or Anthropic client. *)
  callAI : Prompt -> World -> Completion string * World;
  JSON_parse : string -> ParsedJson;
  JSON_parse_testData : string -> option TestData;
  (** [JSON.stringify(testData, null, 2)] in the prompt of [healTestData]:
      the error it throws, if it throws (a [TypeError] on a circular structure
      or on a [BigInt]).  The text itself only fills the prompt, which is kept
      symbolic. *)
  JSON_stringify_error : TestData -> option JsError;
  (** [new URL(url).hostname]; [None] when the constructor throws. *)
  URL_hostname : string -> option string;
  (** [aiIntegration.generateLocators(...)] as called by
      [tryBasicLocatorStrategies]; [AIIntegration] defines no method of that
      name (it defines [generateAlternativeLocators]), so in the repository
      the call throws a [TypeError]. *)
  generateLocators : string -> option string -> World -> Completion (list AiLocator) * World;
  (** The part of a UI method that drives the live Playwright page: the loop
      over its sub-techniques and the result it builds. *)
  with_page : UiMethod -> Strategy -> TestData -> nat -> World -> Completion HealResult * World;
  (** [APIHealingStrategies]: HTTP-bound. *)
  apiHealing : ApiMethod -> Strategy -> TestData -> Context -> World -> Completion (option HealResult) * World;
  (** Calling a function-valued implementation, and [eval] of a string one.
      Either may return [undefined] ([None]). *)
  call_function : nat -> TestData -> World -> Completion (option HealResult) * World;
  eval_implementation : string -> TestData -> World -> Completion (option HealResult) * World;
  (** The wrapper's own [AIIntegration] instance. *)
  analyzeTest : TestData -> World -> Completion unit * World;
  learnFromTest : TestResult -> Context -> World -> Completion unit * World;
  (** [fs-extra]: [pathExists] then [readJson]; [ensureDir] then [writeJson]. *)
  fs_read : World -> Completion (option PersistedRecord) * World;
  fs_write : PersistedRecord -> World -> Completion unit * World
}.
Arguments Date_now {World} _ _.
Arguments callAI {World} _ _ _.
Arguments JSON_parse {World} _ _.
Arguments JSON_parse_testData {World} _ _.
Arguments JSON_stringify_error {World} _ _.
Arguments URL_hostname {World} _ _.
Arguments generateLocators {World} _ _ _ _.
Arguments with_page {World} _ _ _ _ _ _.
Arguments apiHealing {World} _ _ _ _ _ _.
Arguments call_function {World} _ _ _ _.
Arguments eval_implementation {World} _ _ _ _.
Arguments analyzeTest {World} _ _ _.
Arguments learnFromTest {World} _ _ _ _.
Arguments fs_read {World} _ _.
Arguments fs_write {World} _ _ _.

(** ** The state threaded through the code, and its monad *)

Record Sys (World : Type) := mkSys {
  eng   : HealingEngine;
  fwk   : BaseFramework;
  world : World;
  calls : list Event
}.
Arguments mkSys {World} _ _ _ _.
Arguments eng {World} _.
Arguments fwk {World} _.
Arguments world {World} _.
Arguments calls {World} _.

Definition M (World A : Type) : Type := Sys World -> A * Sys World.

Definition ret {World A} (a : A) : M World A := fun s => (a, s).

Definition bind {World A B} (m : M World A) (k : A -> M World B) : M World B :=
  fun s => let (a, s') := m s in k a s'.

Notation "'let*' x ':=' m 'in' k" := (bind m (fun x => k))
  (at level 10, x name, m at level 100, k at level 200).

Definition get_engine {World} : M World HealingEngine := fun s => (eng s, s).

Definition put_engine {World} (e : HealingEngine) : M World unit :=
  fun s => (tt, mkSys e (fwk s) (world s) (calls s)).

Definition get_framework {World} : M World BaseFramework := fun s => (fwk s, s).

Definition put_framework {World} (f : BaseFramework) : M World unit :=
  fun s => (tt, mkSys (eng s) f (world s) (calls s)).

(** Record a call in the trace. *)
Definition trace {World} (ev : Event) : M World unit :=
  fun s => (tt, mkSys (eng s) (fwk s) (world s) (calls s ++ [ev])).

(** Run a collaborator on the world. *)
Definition extern {World A} (f : World -> A * World) : M World A :=
  fun s => let (a, w) := f (world s) in (a, mkSys (eng s) (fwk s) w (calls s)).

Definition now {World} (C : Collaborators World) : M World Z :=
  fun s => (Date_now C (world s), s).

(** ** Numbers and sorting *)

(** [Math.min(a, b)] *)
Definition Math_min (a b : Q) : Q := if Qle_bool a b then a else b.

(** [Array.prototype.sort(cmp)]: a stable sort; [a] stays in front of [b]
    unless [cmp a b > 0].  For a consistent comparator the result of a
    stable sort is unique, so insertion sort stands for the engine's. *)
Fixpoint sort_insert {A} (cmp : A -> A -> Q) (x : A) (l : list A) : list A :=
  match l with
  | [] => [x]
  | y :: l' => if Qle_bool (cmp x y) 0 then x :: y :: l'
               else y :: sort_insert cmp x l'
  end.

Fixpoint Array_sort {A} (cmp : A -> A -> Q) (l : list A) : list A :=
  match l with
  | [] => []
  | x :: l' => sort_insert cmp x (Array_sort cmp l')
  end.

(** The [score] of a ranked strategy (every element carries one after the
    [map] of [rankStrategies]). *)
Definition score_num (s : Strategy) : Q :=
  match score s with Some q => q | None => 0 end.

(** [(a, b) => b.score - a.score] *)
Definition by_score_desc (a b : Strategy) : Q := score_num b - score_num a.

(** Descending order of scores: [a] may stand in front of [b]. *)
Definition score_ge (a b : Strategy) : Prop := score_num b <= score_num a.

(** The candidates of one score, for stating stability. *)
Definition has_score (q : Q) (s : Strategy) : bool := Qeq_bool (score_num s) q.

(** ** Regular expressions of [parseHealingStrategies]

    Each pattern is [/a.*b/i] for two lower-case words [a] and [b]: [a], then
    any run of characters other than line terminators, then [b]. *)

Definition newline : ascii := ascii_of_nat 10.
Definition carriage_return : ascii := ascii_of_nat 13.

Definition is_line_terminator (c : ascii) : bool :=
  Ascii.eqb c newline || Ascii.eqb c carriage_return.

(** The text up to the first line terminator. *)
Fixpoint rest_of_line (s : string) : string :=
  match s with
  | EmptyString => EmptyString
  | String c s' => if is_line_terminator c then EmptyString
                   else String c (rest_of_line s')
  end.

Fixpoint dotstar_from (s a b : string) : bool :=
  (startsWith s a && includes (rest_of_line (string_drop (String.length a) s)) b) ||
  match s with
  | EmptyString => false
  | String _ s' => dotstar_from s' a b
  end.

(** [/a.*b/i.test(text)] *)
Definition regex_test (pattern : string * string) (text : string) : bool :=
  dotstar_from (toLowerCase text) (fst pattern) (snd pattern).

Definition strategyPatterns : list (string * string) :=
  [ ("locator", "healing");
    ("wait", "strategy");
    ("element", "state");
    ("navigation", "healing");
    ("data", "adjustment") ].

(** [text.split('\n')] *)
Fixpoint split_lines_aux (cur : string) (s : string) : list string :=
  match s with
  | EmptyString => [cur]
  | String c s' =>
      if Ascii.eqb c newline then cur :: split_lines_aux EmptyString s'
      else split_lines_aux (cur +:+ String c EmptyString) s'
  end.

Definition split_lines (s : string) : list string := split_lines_aux EmptyString s.

Definition is_whitespace (c : ascii) : bool :=
  let n := nat_of_ascii c in
  (n =? 32)%nat || ((9 <=? n)%nat && (n <=? 13)%nat).

Fixpoint trim_start (s : string) : string :=
  match s with
  | EmptyString => EmptyString
  | String c s' => if is_whitespace c then trim_start s' else s
  end.

Fixpoint trim_end (s : string) : string :=
  match s with
  | EmptyString => EmptyString
  | String c s' =>
      match trim_end s' with
      | EmptyString => if is_whitespace c then EmptyString else String c EmptyString
      | t => String c t
      end
  end.

(** [s.trim()] *)
Definition trim (s : string) : string := trim_end (trim_start s).

(** ** Strategy generation ([AIIntegration]) *)

Definition double_quote : string := String (ascii_of_nat 34) EmptyString.

(** The code string whose selector is written between double quotes. *)
Definition alternative_selector_code : string :=
  "return { success: true, locator: " +:+ double_quote +:+ "#alternative-selector"
  +:+ double_quote +:+ " };".

Definition extractStrategyName (response : string) (pattern : string * string) : string :=
  if regex_test pattern "locator" then "locator_healing"
  else if regex_test pattern "wait" then "wait_healing"
  else if regex_test pattern "element" then "element_state_healing"
  else if regex_test pattern "navigation" then "navigation_healing"
  else if regex_test pattern "data" then "data_healing"
  else "generic_healing".

Definition extractDescription (response : string) (pattern : string * string) : string :=
  match List.find (regex_test pattern) (split_lines response) with
  | Some line => trim line
  | None => "AI-generated healing strategy"
  end.

Definition generateBasicImplementation (pattern : string * string) : string :=
  if regex_test pattern "locator"
  then alternative_selector_code
  else if regex_test pattern "wait"
  then "await page.waitForTimeout(2000); return { success: true };"
  else if regex_test pattern "element"
  then "await element.scrollIntoViewIfNeeded(); return { success: true };"
  else if regex_test pattern "navigation"
  then "await page.reload(); return { success: true };"
  else if regex_test pattern "data"
  then "return { success: true, healedData: testData };"
  else "return { success: true };".

(** The two basic strategies returned when nothing else was recognised. *)
Definition basic_strategies : list Strategy :=
  [ mkStrategy "locator_healing" (Some "Try alternative locators")
      (ImplString alternative_selector_code)
      (Some 60) None None None;
    mkStrategy "wait_healing" (Some "Add explicit wait")
      (ImplString "await page.waitForTimeout(2000); return { success: true };")
      (Some 60) None None None ].

Section Generation.
Context {World : Type} (C : Collaborators World).

Definition parseHealingStrategies (response : string) : list Strategy :=
  match JSON_parse C response with
  | JsonArray parsed => parsed
  | JsonOther => []
  | JsonSyntaxError =>
      let strategies :=
        flat_map (fun pattern =>
                    if regex_test pattern response
                    then [ mkStrategy (extractStrategyName response pattern)
                             (Some (extractDescription response pattern))
                             (ImplString (generateBasicImplementation pattern))
                             (Some 70) None None None ]
                    else [])
                 strategyPatterns in
      if (length strategies =? 0)%nat then basic_strategies else strategies
  end.

(** [AIIntegration.getHistoricalSuccessRate] *)
Definition includes_name (l : option (list string)) (x : string) : bool :=
  match l with
  | Some names => existsb (String.eqb x) names
  | None => false
  end.

Definition getHistoricalSuccessRate (data : list LearningEntry) (strategyType : string) : Q :=
  let relevantEntries := List.filter (fun entry => includes_name (l_patterns entry) strategyType) data in
  if (length relevantEntries =? 0)%nat then 1 # 2
  else
    let successfulEntries := List.filter l_success relevantEntries in
    inject_Z (Z.of_nat (length successfulEntries)) / inject_Z (Z.of_nat (length relevantEntries)).

(** [entry.ctx?.testType === context.testType && entry.ctx?.pageUrl === context.pageUrl] *)
Definition same_context (entry_context : option Context) (context : Context) : bool :=
  strict_eq (entry_context ≫= testType) (testType context) &&
  strict_eq (entry_context ≫= pageUrl) (pageUrl context).

(** [AIIntegration.calculateContextSimilarity] *)
Definition ai_calculateContextSimilarity (data : list LearningEntry) (currentContext : Context) : Q :=
  let similarEntries := List.filter (fun entry => same_context (l_testContext entry) currentContext) data in
  if (0 <? length similarEntries)%nat then 8 # 10 else 3 # 10.

(** [AIIntegration.calculateStrategyScore] *)
Definition ai_calculateStrategyScore (data : list LearningEntry) (s : Strategy) (context : Context) : Q :=
  let score := num_or (confidence s) 50 in
  let historicalSuccess := getHistoricalSuccessRate data (strategy s) in
  let score := score + historicalSuccess * 20 in
  let contextSimilarity := ai_calculateContextSimilarity data context in
  let score := score + contextSimilarity * 10 in
  Math_min 100 score.

(** [AIIntegration.rankStrategies] *)
Definition ai_rankStrategies (data : list LearningEntry) (strategies : list Strategy) (context : Context) : list Strategy :=
  Array_sort by_score_desc
    (List.map (fun s => with_score s (ai_calculateStrategyScore data s context)) strategies).

(** [AIIntegration.generateHealingStrategies]: the [catch] returns [[]]. *)
Definition generateHealingStrategies (error : JsError) (context : Context) : M World (list Strategy) :=
  let prompt := HealingPrompt error context in
  let* _ := trace (CallAI prompt) in
  let* completion := extern (callAI C prompt) in
  match completion with
  | Return response =>
      let strategies := parseHealingStrategies response in
      let* engine := get_engine in
      ret (ai_rankStrategies (learningData engine) strategies context)
  | Throw _ => ret []
  end.

(** [AIIntegration.healTestData]: the original data when the call or the
    parse fails.  The prompt is built before the [try]: when
    [JSON.stringify(testData)] throws, so does the method. *)
Definition healTestData (testData : TestData) (s : Strategy)
  : M World (Completion TestData) :=
  match JSON_stringify_error C testData with
  | Some e => ret (Throw e)
  | None =>
      let prompt := TestDataPrompt testData s in
      let* _ := trace (CallAI prompt) in
      let* completion := extern (callAI C prompt) in
      match completion with
      | Return response =>
          match JSON_parse_testData C response with
          | Some parsed => ret (Return parsed)
          | None => ret (Return testData)
          end
      | Throw _ => ret (Return testData)
      end
  end.

End Generation.

(** ** UI strategy executors ([UIFealingStrategies]) *)

(** [generateAlternativeSelectors] *)
Definition generateAlternativeSelectors (originalLocator : option string) : list string :=
  match originalLocator with
  | Some loc =>
      if str_truthy originalLocator then
        if startsWith loc "#" then
          let id := substring1 loc in
          [ "[id=" +:+ double_quote +:+ id +:+ double_quote +:+ "]";
            "[data-testid=" +:+ double_quote +:+ id +:+ double_quote +:+ "]";
            "." +:+ id ]
        else if startsWith loc "." then
          let className := substring1 loc in
          [ "[class*=" +:+ double_quote +:+ className +:+ double_quote +:+ "]";
            "[data-class=" +:+ double_quote +:+ className +:+ double_quote +:+ "]" ]
        else if startsWith loc "[" then
          [ replace_first loc "=" "*=" ]
        else []
      else []
  | None => []
  end.

(** [tryBasicWaitStrategies] *)
Definition tryBasicWaitStrategies : HealResult :=
  mkHealResult true None (Some "basic_wait")
    (Some ["Applied basic wait strategy with 5s timeout"])
    None None None (Some (mkWaitOptions 5000 3 1000)) None None.

Section Executors.
Context {World : Type} (C : Collaborators World).

(** [tryBasicLocatorStrategies] *)
Definition tryBasicLocatorStrategies (originalLocator : option string) (context : Context)
  : M World HealResult :=
  let alternatives := generateAlternativeSelectors originalLocator in
  let from_alternatives :=
    match alternatives with
    | first :: _ =>
        mkHealResult true None (Some "alternative_selector") None None
                     (Some first) (Some 60) None None None
    | [] => failure "No alternative locators found" "locator_healing"
    end in
  let* framework := get_framework in
  if enableAILocatorGeneration (options framework) then
    let* completion :=
      extern (generateLocators C
                ("Element with selector: " +:+ default "undefined" originalLocator)
                originalLocator) in
    match completion with
    | Return (first :: _) =>
        ret (mkHealResult true None (Some "ai_generated") None None
                          (ai_selector first) (Some (num_or (ai_confidence first) 70))
                          None None None)
    | Return [] => ret from_alternatives
    | Throw _ => ret from_alternatives
    end
  else ret from_alternatives.

(** The page-driven part of a method, under the method's outer [catch]. *)
Definition run_with_page (m : UiMethod) (label : string) (s : Strategy)
           (testData : TestData) (page : nat) : M World HealResult :=
  let* completion := extern (with_page C m s testData page) in
  match completion with
  | Return r => ret r
  | Throw e => ret (failure (message e) label)
  end.

(** [healLocatorIssue] *)
Definition healLocatorIssue (s : Strategy) (testData : TestData) (context : Context)
  : M World HealResult :=
  let element := td_element testData in
  let page := td_page testData in
  let originalLocator := str_or_undefined (element ≫= locator) (element ≫= selector) in
  match page with
  | None => tryBasicLocatorStrategies originalLocator context
  | Some p => run_with_page LocatorIssue "locator_healing" s testData p
  end.

(** [healWaitIssue] *)
Definition healWaitIssue (s : Strategy) (testData : TestData) (context : Context)
  : M World HealResult :=
  match td_page testData with
  | None => ret tryBasicWaitStrategies
  | Some p => run_with_page WaitIssue "wait_healing" s testData p
  end.

(** [healElementStateIssue] *)
Definition healElementStateIssue (s : Strategy) (testData : TestData) (context : Context)
  : M World HealResult :=
  match td_page testData with
  | None => ret (basic_success "element_state_healing" ["Applied basic element state healing"])
  | Some p => run_with_page ElementStateIssue "element_state_healing" s testData p
  end.

(** [healNavigationIssue] *)
Definition healNavigationIssue (s : Strategy) (testData : TestData) (context : Context)
  : M World HealResult :=
  match td_page testData with
  | None => ret (basic_success "navigation_healing" ["Applied basic navigation healing"])
  | Some p => run_with_page NavigationIssue "navigation_healing" s testData p
  end.

(** One entry point for the four methods. *)
Definition ui_heal (m : UiMethod) : Strategy -> TestData -> Context -> M World HealResult :=
  match m with
  | LocatorIssue => healLocatorIssue
  | WaitIssue => healWaitIssue
  | ElementStateIssue => healElementStateIssue
  | NavigationIssue => healNavigationIssue
  end.

End Executors.

(** ** The healing engine ([HealingEngine]) *)

(** [extractContextData]; the clock is read by the caller. *)
Definition extractContextData (context : Context) (timestamp : Z) : ContextData :=
  mkContextData (str_or (testType context) "ui")
                (str_or (pageUrl context) "")
                (str_or (element context) "")
                (str_or (action context) "")
                timestamp
                (str_or (userAgent context) "")
                (default (mkViewport None None) (viewport context)).

(** [calculateContextSimilarity] *)
Definition calculateContextSimilarity (engine : HealingEngine) (context : Context) : Q :=
  let similarContexts :=
    List.filter (fun entry => same_context (h_context entry) context) (healingHistory engine) in
  if (0 <? length similarContexts)%nat then 8 # 10 else 3 # 10.

(** [calculateStrategyScore] *)
Definition calculateStrategyScore (engine : HealingEngine) (s : Strategy) (context : Context) : Q :=
  let score := num_or (confidence s) 50 in
  let historicalRate := num_or (successRates engine !! strategy s) (1 # 2) in
  let score := score + historicalRate * 30 in
  let contextSimilarity := calculateContextSimilarity engine context in
  let score := score + contextSimilarity * 20 in
  Math_min 100 score.

(** [rankStrategies] *)
Definition rankStrategies (engine : HealingEngine) (strategies : list Strategy) (context : Context)
  : list Strategy :=
  Array_sort by_score_desc
    (List.map (fun s => with_score s (calculateStrategyScore engine s context)) strategies).

(** [updatePatterns] *)
Definition updatePatterns (s : Strategy) (succeeded : bool) (engine : HealingEngine)
  : HealingEngine :=
  let patternKey := strategy s in
  let table :=
    match patterns engine !! patternKey with
    | Some _ => patterns engine
    | None => <[patternKey := mkPattern (strategy s) (description s) (implementation s)
                                        0 0 (1 # 2)]> (patterns engine)
    end in
  match table !! patternKey with
  | Some pattern =>
      let total := (totalCount pattern + 1)%Z in
      let succ := if succeeded then (successCount pattern + 1)%Z else successCount pattern in
      let updated := mkPattern (name pattern) (pat_description pattern)
                               (pat_implementation pattern)
                               succ total (inject_Z succ / inject_Z total) in
      mkEngine (healingHistory engine) (<[patternKey := updated]> table)
               (successRates engine) (learningData engine)
  | None => engine
  end.

(** [recordSuccessfulHealing]; the clock is read by the caller. *)
Definition recordSuccessfulHealing (s : Strategy) (result : HealResult) (timestamp : Z)
           (engine : HealingEngine) : HealingEngine :=
  let healingRecord :=
    mkHistoryEntry timestamp (strategy s) true (Some result)
                   (Some (default empty_context (res_context result))) in
  let history := healingHistory engine ++ [healingRecord] in
  let currentRate := num_or (successRates engine !! strategy s) (1 # 2) in
  let newRate := (currentRate + 1) / 2 in
  let rates := <[strategy s := newRate]> (successRates engine) in
  updatePatterns s true (mkEngine history (patterns engine) rates (learningData engine)).

(** [new Map(entries)]: a later entry replaces an earlier one. *)
Definition new_Map {V} (entries : list (string * V)) : gmap string V :=
  foldl (fun m kv => <[kv.1 := kv.2]> m) ∅ entries.

(** [Array.from(map.entries())] *)
Definition Map_entries {V} (m : gmap string V) : list (string * V) := map_to_list m.

(** [array.slice(-n)]: the last [n] elements. *)
Definition slice_last {A} (n : nat) (l : list A) : list A :=
  skipn (length l - n) l.

(** ** The persisted record as JSON

    [fs.writeJson] writes [JSON.stringify(data)] and [fs.readJson] returns
    [JSON.parse] of the text.  On the values of the record, strings, numbers,
    booleans, arrays and objects of these come back as they were, and a
    missing field stays missing; a field whose value is a function is left
    out of the text, so it comes back missing.  (Any other implementation
    value is taken to be JSON data itself.) *)
Definition JSON_implementation (i : Implementation) : Implementation :=
  match i with
  | ImplFunction _ => ImplOther
  | ImplString code => ImplString code
  | ImplOther => ImplOther
  end.

Definition JSON_pattern (p : Pattern) : Pattern :=
  mkPattern (name p) (pat_description p) (JSON_implementation (pat_implementation p))
            (successCount p) (totalCount p) (successRate p).

(** What the text of [data] is read back as. *)
Definition JSON_roundtrip (data : PersistedRecord) : PersistedRecord :=
  mkPersisted (List.map (fun kv => (kv.1, JSON_pattern kv.2)) <$> p_patterns data)
              (p_successRates data)
              (p_healingHistory data)
              (lastUpdated data).

(** A history entry is JSON data when its result carries no live page (the
    page of the test data that a data or API strategy hands back): the page
    is an object of Playwright, and what becomes of it in the text is not the
    repository's. *)
Definition JSON_entry (h : HistoryEntry) : bool :=
  match (h_result h ≫= healedData) ≫= td_page with
  | Some _ => false
  | None => true
  end.

Definition JSON_data (data : PersistedRecord) : bool :=
  forallb JSON_entry (default [] (p_healingHistory data)).

Section Engine.
Context {World : Type} (C : Collaborators World).

(** [extractDomain] *)
Definition extractDomain (url : string) : string :=
  match URL_hostname C url with
  | Some hostname => hostname
  | None => "unknown"
  end.

(** [findMatchingPatterns] *)
Definition findMatchingPatterns (errorType : string) (context : ContextData) : list string :=
  [errorType]
  ++ (if String.eqb (cd_testType context) "ui" then ["ui_" +:+ errorType]
      else if String.eqb (cd_testType context) "api" then ["api_" +:+ errorType]
      else [])
  ++ (if str_truthy (Some (cd_pageUrl context))
      then [extractDomain (cd_pageUrl context) +:+ "_" +:+ errorType]
      else []).

(** [getPatternBasedStrategies] *)
Definition getPatternBasedStrategies (engine : HealingEngine) (errorType : string)
           (context : ContextData) : list Strategy :=
  flat_map (fun key =>
              match patterns engine !! key with
              | Some p => [ mkStrategy (name p) (pat_description p) (pat_implementation p)
                                       (Some (successRate p * 100)) (Some "pattern") None None ]
              | None => []
              end)
           (findMatchingPatterns errorType context).

(** [analyzeError] *)
Definition analyzeError (error : JsError) (context : Context) : M World Analysis :=
  let* _ := trace (CallAnalyzeError error) in
  let errorType := classifyError error in
  let* t0 := now C in
  let contextData := extractContextData context t0 in
  let* aiStrategies := generateHealingStrategies C error context in
  let* engine := get_engine in
  let patternStrategies :=
    getPatternBasedStrategies engine (classification_name errorType) contextData in
  let allStrategies := aiStrategies ++ patternStrategies in
  let rankedStrategies := rankStrategies engine allStrategies context in
  let* t1 := now C in
  ret (mkAnalysis errorType contextData rankedStrategies t1).

(** [healDataIssue]: the [catch] turns a throwing [healTestData] into a
    failure result. *)
Definition healDataIssue (s : Strategy) (testData : TestData) : M World HealResult :=
  let* completion := healTestData C testData s in
  match completion with
  | Return healed =>
      ret (mkHealResult true None (Some (strategy s)) (Some (default [] (changes s)))
                        (Some healed) None None None None None)
  | Throw e => ret (failure (message e) (strategy s))
  end.

(** What a [try { return await f() } catch (e) { return failure }] yields. *)
Definition or_failure (s : Strategy) (completion : Completion (option HealResult))
  : option HealResult :=
  match completion with
  | Return r => r
  | Throw e => Some (failure (message e) (strategy s))
  end.

(** [executeCustomStrategy] *)
Definition executeCustomStrategy (s : Strategy) (testData : TestData)
  : M World (option HealResult) :=
  match implementation s with
  | ImplFunction ref =>
      let* completion := extern (call_function C ref testData) in
      ret (or_failure s completion)
  | ImplString code =>
      let* completion := extern (eval_implementation C code testData) in
      ret (or_failure s completion)
  | ImplOther => ret (Some (failure "Invalid strategy implementation" (strategy s)))
  end.

Definition run_api (m : ApiMethod) (s : Strategy) (testData : TestData) (context : Context)
  : M World (option HealResult) :=
  let* completion := extern (apiHealing C m s testData context) in
  ret (or_failure s completion).

(** The [switch] of [executeHealingStrategy]. *)
Definition dispatchStrategy (strategyType : string) (s : Strategy) (testData : TestData)
           (context : Context) : M World (option HealResult) :=
  if String.eqb strategyType "locator_healing" then
    let* r := healLocatorIssue C s testData context in ret (Some r)
  else if String.eqb strategyType "wait_healing" then
    let* r := healWaitIssue C s testData context in ret (Some r)
  else if String.eqb strategyType "element_state_healing" then
    let* r := healElementStateIssue C s testData context in ret (Some r)
  else if String.eqb strategyType "navigation_healing" then
    let* r := healNavigationIssue C s testData context in ret (Some r)
  else if String.eqb strategyType "api_endpoint_healing" then
    run_api EndpointIssue s testData context
  else if String.eqb strategyType "api_schema_healing" then
    run_api SchemaIssue s testData context
  else if String.eqb strategyType "api_response_healing" then
    run_api ResponseIssue s testData context
  else if String.eqb strategyType "data_healing" then
    let* r := healDataIssue s testData in ret (Some r)
  else executeCustomStrategy s testData.

(** [executeHealingStrategy]: [None] is a result that is [undefined].  The
    call and what it returned are traced. *)
Definition executeHealingStrategy (s : Strategy) (testData : TestData) (context : Context)
  : M World (option HealResult) :=
  let* _ := trace (CallExecuteStrategy s) in
  let strategyType := toLowerCase (strategy s) in
  let* result := dispatchStrategy strategyType s testData context in
  let* _ := trace (StrategyReturned s result) in
  ret result.

(** The [for] loop of [applyHealing]: [Some r] when it left through the
    [return result] of a successful strategy, [None] when it ran out.  Reading
    [result.success] on an [undefined] result throws inside the [try]; the
    [catch] logs and the loop goes on. *)
Fixpoint applyHealing_loop (strategies : list Strategy) (testData : TestData)
         (context : Context) : M World (option HealResult) :=
  match strategies with
  | [] => ret None
  | s :: rest =>
      let* result := executeHealingStrategy s testData context in
      match result with
      | Some r =>
          if success r then
            let* t := now C in
            let* engine := get_engine in
            let* _ := put_engine (recordSuccessfulHealing s r t engine) in
            ret (Some r)
          else applyHealing_loop rest testData context
      | None => applyHealing_loop rest testData context
      end
  end.

Definition all_failed (strategies : list Strategy) : HealResult :=
  mkHealResult false (Some "All healing strategies failed") None None None None None None
               (Some (List.map strategy strategies)) None.

(** [applyHealing] *)
Definition applyHealing (analysis : Analysis) (testData : TestData) (context : Context)
  : M World HealResult :=
  let* _ := trace (CallApplyHealing analysis) in
  let strategies := an_strategies analysis in
  let* found := applyHealing_loop strategies testData context in
  match found with
  | Some result => ret result
  | None => ret (all_failed strategies)
  end.

(** [saveHealingPatterns]: a failed write is logged and dropped. *)
Definition saveHealingPatterns : M World unit :=
  let* engine := get_engine in
  let* t := now C in
  let data := mkPersisted (Some (Map_entries (patterns engine)))
                          (Some (Map_entries (successRates engine)))
                          (Some (slice_last 1000 (healingHistory engine)))
                          t in
  let* _ := extern (fs_write C data) in
  ret tt.

(** The three guarded assignments of [loadHealingPatterns]. *)
Definition load_record (data : PersistedRecord) (engine : HealingEngine) : HealingEngine :=
  mkEngine
    (match p_healingHistory data with Some h => h | None => healingHistory engine end)
    (match p_patterns data with Some l => new_Map l | None => patterns engine end)
    (match p_successRates data with Some l => new_Map l | None => successRates engine end)
    (learningData engine).

(** [loadHealingPatterns]: a missing file is normal, a failed read is logged. *)
Definition loadHealingPatterns : M World unit :=
  let* completion := extern (fs_read C) in
  match completion with
  | Return (Some data) =>
      let* engine := get_engine in
      put_engine (load_record data engine)
  | Return None => ret tt
  | Throw _ => ret tt
  end.

(** The file system as the persistence round trip needs it: a record of JSON
    data can be written, and reading the file afterwards returns what the
    JSON text of that record is read back as. *)
Definition JSON_file_store : Prop :=
  forall (data : PersistedRecord) (w : World),
    JSON_data data = true ->
    fst (fs_write C data w) = Return tt /\
    fst (fs_read C (snd (fs_write C data w))) = Return (Some (JSON_roundtrip data)).

End Engine.

(** ** The execution wrapper ([BaseFramework]) *)

Definition healablePatterns : list string :=
  [ "element not found";
    "timeout";
    "selector not found";
    "network error";
    "assertion failed";
    "element not visible";
    "element not clickable" ].

(** [isHealableError] *)
Definition isHealableError (error : JsError) : bool :=
  existsb (fun pattern => includes (toLowerCase (message error)) pattern) healablePatterns.

(** [new HealableError(originalError)]: same message and stack, its own name
    (the back reference [originalError], which nothing reads, is dropped). *)
Definition HealableError (originalError : JsError) : JsError :=
  mkError "HealableError" (message originalError) (stack originalError).

(** [{ ...a, ...b }] on contexts. *)
Definition merge_context (a b : Context) : Context :=
  mkContext (from_option Some (testType a) (testType b))
            (from_option Some (pageUrl a) (pageUrl b))
            (from_option Some (element a) (element b))
            (from_option Some (action a) (action b))
            (from_option Some (userAgent a) (userAgent b))
            (from_option Some (viewport a) (viewport b)).

Definition set_metrics (f : BaseFramework) (m : Metrics) : BaseFramework :=
  mkFramework (options f) m (fw_healingHistory f) (testContext f).

Definition push_history (f : BaseFramework) (e : WrapperEntry) : BaseFramework :=
  mkFramework (options f) (metrics f) (fw_healingHistory f ++ [e]) (testContext f).

(** [updateMetrics] *)
Definition updateMetrics (testDuration : Z) (f : BaseFramework) : BaseFramework :=
  let m := metrics f in
  set_metrics f (mkMetrics (totalTests m) (healedTests m)
                           (inject_Z (healedTests m) / inject_Z (totalTests m) * 100)
                           testDuration).

Section Wrapper.
Context {World : Type} (C : Collaborators World).

Definition TestFunction : Type := TestData -> World -> Completion TestResult * World.

(** [executeWithHealing] *)
Definition executeWithHealing (testFunction : TestFunction) (testData : TestData)
  : M World (Completion TestResult) :=
  let* completion := extern (testFunction testData) in
  match completion with
  | Return r => ret (Return r)
  | Throw error =>
      if isHealableError error then ret (Throw (HealableError error))
      else ret (Throw error)
  end.

(** The [for] loop of [attemptHealing], counting [attempt] up to
    [maxHealingAttempts]; [todo] is the number of cycles left. *)
Fixpoint attemptHealing_loop (todo : nat) (attempt : nat) (error : JsError)
         (testData : TestData) (healingContext : Context)
         (healingAttempts : list AttemptRecord) : M World HealingOutcome :=
  match todo with
  | O =>
      let* t := now C in
      let* framework := get_framework in
      let* _ := put_framework
                  (push_history framework (FailedEntry t (message error) healingAttempts)) in
      ret (HealingGaveUp healingAttempts)
  | S todo' =>
      let* healingStrategy := analyzeError C error healingContext in
      let* healingResult := applyHealing C healingStrategy testData healingContext in
      if success healingResult then
        let* t := now C in
        let* framework := get_framework in
        let* _ := put_framework
                    (push_history framework
                       (HealedEntry t (message error) healingStrategy attempt)) in
        ret (HealingSucceeded healingResult)
      else
        attemptHealing_loop todo' (S attempt) error testData healingContext
          (healingAttempts ++ [mkAttempt attempt (Some healingStrategy) (res_error healingResult)])
  end.

(** [attemptHealing] *)
Definition attemptHealing (error : JsError) (testData : TestData) (context : Context)
  : M World HealingOutcome :=
  let* framework := get_framework in
  let healingContext := merge_context (testContext framework) context in
  attemptHealing_loop (maxHealingAttempts (options framework)) 1 error testData
                      healingContext [].

(** [preTestAnalysis]: best effort. *)
Definition preTestAnalysis (testData : TestData) : M World unit :=
  let* framework := get_framework in
  if enableAI (options framework) then
    let* _ := extern (analyzeTest C testData) in ret tt
  else ret tt.

(** [postTestAnalysis]: best effort; the pattern update is skipped when the
    learning call throws.  (A result without a string [strategy] field would
    be filed under the key [undefined], which no lookup by name reads; that
    entry is not represented.) *)
Definition postTestAnalysis (result : TestResult) : M World unit :=
  let* framework := get_framework in
  if enableAI (options framework) then
    let* completion := extern (learnFromTest C result (testContext framework)) in
    match completion, tr_as_strategy result with
    | Return _, Some s =>
        let* engine := get_engine in
        put_engine (updatePatterns s true engine)
    | _, _ => ret tt
    end
  else ret tt.

(** The [finally] block of [executeTest]. *)
Definition finally_updateMetrics {A} (testStartTime : Z) (a : A) : M World A :=
  let* t := now C in
  let* framework := get_framework in
  let* _ := put_framework (updateMetrics (t - testStartTime) framework) in
  ret a.

(** [executeTest] *)
Definition executeTest (testFunction : TestFunction) (testData : TestData)
  : M World (Completion ExecResult) :=
  let* testStartTime := now C in
  let* framework := get_framework in
  let m := metrics framework in
  let* _ := put_framework
              (set_metrics framework
                 (mkMetrics (totalTests m + 1) (healedTests m)
                            (healingSuccessRate m) (averageHealingTime m))) in
  let* _ := preTestAnalysis testData in
  let* completion := executeWithHealing testFunction testData in
  match completion with
  | Return result =>
      let* _ := postTestAnalysis result in
      finally_updateMetrics testStartTime (Return (Passed result))
  | Throw error =>
      let* framework := get_framework in
      if enableHealing (options framework) then
        let* healingResult := attemptHealing error testData empty_context in
        match healingResult with
        | HealingSucceeded r =>
            let* framework := get_framework in
            let m := metrics framework in
            let* _ := put_framework
                        (set_metrics framework
                           (mkMetrics (totalTests m) (healedTests m + 1)
                                      (healingSuccessRate m) (averageHealingTime m))) in
            finally_updateMetrics testStartTime (Return (Healed r))
        | HealingGaveUp _ =>
            finally_updateMetrics testStartTime (Throw error)
        end
      else finally_updateMetrics testStartTime (Throw error)
  end.

End Wrapper.

(** ** Computations that leave the learning state alone *)

Definition is_ai_call (ev : Event) : Prop :=
  match ev with
  | CallAI _ => True
  | _ => False
  end.

(** A computation is quiet when it changes neither the engine nor the
    wrapper and adds nothing to the trace but calls to the language model. *)
Definition quiet {World A} (m : M World A) : Prop :=
  forall s, eng (snd (m s)) = eng s /\
            fwk (snd (m s)) = fwk s /\
            exists evs, calls (snd (m s)) = calls s ++ evs /\ Forall is_ai_call evs.

(** A computation only ever adds to the trace. *)
Definition appends {World A} (m : M World A) : Prop :=
  forall s, exists evs, calls (snd (m s)) = calls s ++ evs.

(** ** The ranking score as the specification words it *)

(** Clamping to the interval [[0, 100]]. *)
Definition clamp_0_100 (x : Q) : Q :=
  if Qle_bool x 0 then 0 else if Qle_bool 100 x then 100 else x.

(** The stored rate, [0.5] for a name the table does not have. *)
Definition historicalSuccessRate_spec (engine : HealingEngine) (n : string) : Q :=
  match successRates engine !! n with
  | Some r => r
  | None => 1 # 2
  end.

(** Some history entry has the test type and the page URL of [context]. *)
Definition shares_context (engine : HealingEngine) (context : Context) : Prop :=
  exists entry, In entry (healingHistory engine) /\
                (h_context entry ≫= testType) = testType context /\
                (h_context entry ≫= pageUrl) = pageUrl context.

(** [confidence + rate × 30 + similarity × 20], clamped. *)
Definition score_spec (engine : HealingEngine) (c : Q) (n : string) (similarity : Q) : Q :=
  clamp_0_100 (c + historicalSuccessRate_spec engine n * 30 + similarity * 20).

(** ** Concrete collaborators, for running the model *)

Module Demo.

(** The world of the examples is the content of [data/patterns.json]. *)
Definition World : Type := option PersistedRecord.

(** The error of [JSON.stringify] on a circular structure. *)
Definition circular : JsError :=
  mkError "TypeError" "Converting circular structure to JSON" None.

(** What an API strategy returns when the test data has no endpoint, schema
    or response to work on. *)
Definition basic_api (m : ApiMethod) : HealResult :=
  match m with
  | EndpointIssue =>
      basic_success "api_endpoint_healing" ["Applied basic API endpoint healing"]
  | SchemaIssue =>
      basic_success "api_schema_healing" ["Applied basic API schema healing"]
  | ResponseIssue =>
      basic_success "api_response_healing" ["Applied basic API response healing"]
  end.

(** Collaborators built from a language model [ai] and a JSON reader
    [parse]: the clock stands still, the file system keeps the JSON of what
    is written, test data with a live page does not serialise, a page that is
    driven throws, the API strategies find no endpoint, schema or response in
    the test data (and return their basic success), and there is no locator
    generator. *)
Definition collaborators (ai : Prompt -> Completion string) (parse : string -> ParsedJson)
  : Collaborators World :=
  mkCollaborators World
    (fun _ => 0%Z)
    (fun p w => (ai p, w))
    parse
    (fun _ => None)
    (fun d => match td_page d with Some _ => Some circular | None => None end)
    (fun _ => None)
    (fun _ _ w => (Throw (mkError "TypeError" "this.aiIntegration.generateLocators is not a function" None), w))
    (fun _ _ _ _ w => (Throw (Error "page closed"), w))
    (fun m _ _ _ w => (Return (Some (basic_api m)), w))
    (fun _ _ w => (Return None, w))
    (fun _ _ w => (Return None, w))
    (fun _ w => (Return tt, w))
    (fun _ _ w => (Return tt, w))
    (fun w => (Return w, w))
    (fun d w => if JSON_data d then (Return tt, Some (JSON_roundtrip d))
                else (Throw circular, w)).

(** A language model that is unreachable. *)
Definition ai_down : Prompt -> Completion string :=
  fun _ => Throw (Error "OpenAI client not initialized. Check your API key.").

(** A language model that answers in prose. *)
Definition ai_prose (text : string) : Prompt -> Completion string :=
  fun _ => Return text.

(** A JSON reader for answers that are not JSON. *)
Definition not_json : string -> ParsedJson := fun _ => JsonSyntaxError.

Definition default_options : Options := mkOptions true true 3 true.

Definition new_framework : BaseFramework :=
  mkFramework default_options (mkMetrics 0 0 0 0) []
              (mkContext (Some "ui") None None None None None).

Definition start (w : World) : Sys World := mkSys new_engine new_framework w [].

Definition no_page : TestData := mkTestData None None None.

Definition candidate (n : string) (c : Q) : Strategy :=
  mkStrategy n None ImplOther (Some c) None None None.

(** A ranked list in which nothing can heal without a page: a custom
    function (it returns [undefined]), a custom strategy without
    implementation, and a locator strategy with no locator to start from. *)
Definition hopeless_strategies : list Strategy :=
  [ mkStrategy "custom_retry" None (ImplFunction 0) (Some 80) None None None;
    candidate "custom_retry" 75;
    candidate "locator_healing" 70 ].

Definition analysis_of (l : list Strategy) : Analysis :=
  mkAnalysis locator_failure (extractContextData empty_context 0) l 0.

(** A test function that always throws [msg]. *)
Definition failing_test (msg : string) : TestData -> World -> Completion TestResult * World :=
  fun _ w => (Throw (Error msg), w).

End Demo.

(** ** Statistics and reports *)

(** What [HealingEngine.getStatistics] returns; [strategyStats] holds, per
    strategy name of the success-rate table, the rate in percent and the
    number of history entries of that name.  It is a plain object, and the
    map stands for its own properties: the assignment
    [strategyStats['__proto__'] = {...}] sets the prototype of the object and
    creates no property. *)
Record Statistics := mkStatistics {
  st_totalAttempts      : nat;
  st_successfulHealings : nat;
  st_successRate        : Q;
  st_strategyStats      : gmap string (Q * nat);
  st_patternsCount      : nat
}.

(** [HealingEngine.getStatistics] *)
Definition getStatistics (engine : HealingEngine) : Statistics :=
  let totalAttempts := length (healingHistory engine) in
  let successfulHealings := length (List.filter h_success (healingHistory engine)) in
  let successRate :=
    if (0 <? totalAttempts)%nat
    then inject_Z (Z.of_nat successfulHealings) / inject_Z (Z.of_nat totalAttempts) * 100
    else 0 in
  let strategyStats :=
    map_imap (fun n rate =>
                if String.eqb n "__proto__" then None
                else Some (rate * 100,
                           length (List.filter (fun h => String.eqb (h_strategy h) n)
                                               (healingHistory engine))))
             (successRates engine) in
  mkStatistics totalAttempts successfulHealings successRate strategyStats
               (size (patterns engine)).

(** The [success] field of an entry of the wrapper's history. *)
Definition entry_success (e : WrapperEntry) : bool :=
  match e with
  | HealedEntry _ _ _ _ => true
  | FailedEntry _ _ _ => false
  end.

(** What [BaseFramework.getMetrics] adds to the metrics. *)
Record MetricsReport := mkMetricsReport {
  rep_metrics : Metrics;
  rep_healingHistory : list WrapperEntry;
  rep_totalHealingAttempts : nat;
  rep_successfulHealings : nat
}.

(** [BaseFramework.getMetrics] *)
Definition getMetrics (f : BaseFramework) : MetricsReport :=
  mkMetricsReport (metrics f) (fw_healingHistory f)
                  (length (fw_healingHistory f))
                  (length (List.filter entry_success (fw_healingHistory f))).

(** ** Invariants of the learning state and of the metrics *)

(** A stored pattern is filed under its own name, has counted at least one
    outcome, no more successes than outcomes, and carries their ratio. *)
Definition pattern_ok (key : string) (p : Pattern) : Prop :=
  name p = key /\
  (0 <= successCount p <= totalCount p)%Z /\
  (0 < totalCount p)%Z /\
  successRate p == inject_Z (successCount p) / inject_Z (totalCount p).

Definition learned_ok (engine : HealingEngine) : Prop :=
  (forall key p, patterns engine !! key = Some p -> pattern_ok key p) /\
  (forall key r, successRates engine !! key = Some r -> 0 < r /\ r <= 1) /\
  Forall (fun h => h_success h = true) (healingHistory engine).

(** The healed tests are the healed entries of the wrapper's history, and
    there are no more of them than tests. *)
Definition wrapper_ok (f : BaseFramework) : Prop :=
  healedTests (metrics f) =
    Z.of_nat (length (List.filter entry_success (fw_healingHistory f))) /\
  (healedTests (metrics f) <= totalTests (metrics f))%Z.

(** The UI strategies that report success whenever the page is missing. *)
Definition heals_without_page (s : Strategy) : bool :=
  let strategyType := toLowerCase (strategy s) in
  String.eqb strategyType "wait_healing" ||
  String.eqb strategyType "element_state_healing" ||
  String.eqb strategyType "navigation_healing".

(** [key] ends with [suffix]. *)
Definition ends_with (key suffix : string) : Prop :=
  exists front, key = front +:+ suffix.

(** ** More concrete inputs *)

Module Samples.

Definition collaborators := Demo.collaborators Demo.ai_down Demo.not_json.

Definition healed_once : HealingEngine :=
  recordSuccessfulHealing (Demo.candidate "wait_healing" 70) tryBasicWaitStrategies 5
                          new_engine.

(** A test function that passes. *)
Definition passing_test : TestData -> Demo.World -> Completion TestResult * Demo.World :=
  fun _ w => (Return (mkTestResult true None), w).

Definition healing_off : Sys Demo.World :=
  mkSys new_engine
        (mkFramework (mkOptions false true 3 true) (mkMetrics 0 0 0 0) []
                     (mkContext (Some "ui") None None None None None))
        None [].

End Samples.

(** * Theorems *)

(** ** Strings *)

Section StringFacts.

Lemma startsWith_spec (s p : string) :
  startsWith s p = true <-> exists t, s = p +:+ t.
Proof.
  revert s; induction p as [|a p IH]; intros s; simpl.
  - split; [intros _; exists s; reflexivity | reflexivity].
  - destruct s as [|b s]; simpl.
    + split; [discriminate | intros [t Ht]; discriminate].
    + rewrite andb_true_iff, Ascii.eqb_eq, IH. split.
      * intros [-> [t ->]]. exists t. reflexivity.
      * intros [t Ht]. injection Ht as -> ->. split; [reflexivity | exists t; reflexivity].
Qed.

Lemma includes_spec (s p : string) :
  includes s p = true <-> exists pre post, s = pre +:+ p +:+ post.
Proof.
  induction s as [|c s IH].
  - cbn [includes]. rewrite orb_false_r, startsWith_spec. split.
    + intros [t Ht]. exists EmptyString, t. exact Ht.
    + intros [pre [post H]]. destruct pre; [exists post; exact H | discriminate].
  - cbn [includes]. rewrite orb_true_iff, startsWith_spec, IH. split.
    + intros [[t Ht] | [pre [post H]]].
      * exists EmptyString, t. exact Ht.
      * exists (String c pre), post. simpl. now rewrite H.
    + intros [pre [post H]]. destruct pre as [|d pre].
      * left. exists post. exact H.
      * right. simpl in H. injection H as _ H. exists pre, post. exact H.
Qed.

Lemma toLowerCase_app (a b : string) :
  toLowerCase (a +:+ b) = toLowerCase a +:+ toLowerCase b.
Proof. induction a as [|c a IH]; simpl; [reflexivity | now rewrite IH]. Qed.

Lemma toLowerCase_split (s x y : string) :
  toLowerCase s = x +:+ y ->
  exists s1 s2, s = s1 +:+ s2 /\ toLowerCase s1 = x /\ toLowerCase s2 = y.
Proof.
  revert s; induction x as [|c x IH]; intros s H.
  - exists EmptyString, s. auto.
  - destruct s as [|d s]; [discriminate|]. simpl in H. injection H as Hc H.
    destruct (IH s H) as (s1 & s2 & -> & H1 & H2).
    exists (String d s1), s2. simpl. now rewrite Hc, H1.
Qed.

Lemma lower_char_idem (c : ascii) : lower_char (lower_char c) = lower_char c.
Proof. destruct c as [[] [] [] [] [] [] [] []]; reflexivity. Qed.

Lemma toLowerCase_idem (s : string) : toLowerCase (toLowerCase s) = toLowerCase s.
Proof. induction s as [|c s IH]; simpl; [reflexivity | now rewrite lower_char_idem, IH]. Qed.

(** Looking for a folded pattern in the folded message is case-insensitive
    containment. *)
Lemma includes_fold (s p : string) :
  includes (toLowerCase s) (toLowerCase p) = true <-> contains_ci s p.
Proof.
  rewrite includes_spec. unfold contains_ci. split.
  - intros (pre & post & H).
    apply toLowerCase_split in H as (s1 & s2 & -> & _ & H).
    apply toLowerCase_split in H as (mid & s3 & -> & H & _).
    exists s1, mid, s3. auto.
  - intros (pre & mid & post & -> & H).
    exists (toLowerCase pre), (toLowerCase post).
    now rewrite !toLowerCase_app, H.
Qed.

Lemma includes_fold_false (s p : string) :
  ~ contains_ci s p -> includes (toLowerCase s) (toLowerCase p) = false.
Proof.
  intros H. destruct (includes _ _) eqn:E; [|reflexivity].
  exfalso. apply H, includes_fold, E.
Qed.

End StringFacts.

(** ** Classification *)

(** C5.  [classifyError] is the first-match scan of the priority table
    locator, wait, element state, navigation, api, assertion, network,
    unknown over the case-folded message; hence a message that contains
    "timeout" in any letter case, and neither of the locator patterns,
    is a [wait_failure].  The function is total and reads nothing but the
    message. *)
Theorem classifyError_first_match (error : JsError) :
  classifyError error = classify_spec error /\
  (contains_ci (message error) "timeout" ->
   ~ contains_ci (message error) "element not found" ->
   ~ contains_ci (message error) "selector" ->
   classifyError error = wait_failure) /\
  (forall other, message other = message error ->
                 classifyError other = classifyError error).
Proof.
  split; [|split].
  - unfold classifyError, classify_spec, priority_table. cbn [first_match existsb].
    repeat rewrite orb_false_r.
    repeat match goal with
           | |- (if ?b then _ else _) = (if ?b then _ else _) => destruct b; [reflexivity|]
           end.
    reflexivity.
  - intros Ht Hl Hs.
    apply includes_fold in Ht.
    apply includes_fold_false in Hl, Hs.
    unfold classifyError.
    change (toLowerCase "timeout") with "timeout" in Ht.
    change (toLowerCase "element not found") with "element not found" in Hl.
    change (toLowerCase "selector") with "selector" in Hs.
    now rewrite Hl, Hs, Ht.
  - intros other H. unfold classifyError. now rewrite H.
Qed.

Lemma classifyError_first_match_witness :
  classifyError (Error "TimeOut after 30000ms") = wait_failure.
Proof.
  apply (proj1 (proj2 (classifyError_first_match (Error "TimeOut after 30000ms")))).
  - exists "", "TimeOut", " after 30000ms". split; reflexivity.
  - intros H. apply includes_fold in H. vm_compute in H. discriminate.
  - intros H. apply includes_fold in H. vm_compute in H. discriminate.
Defined.

(** ** Sorting *)

Section SortFacts.
Context {A : Type} (cmp : A -> A -> Q).

Lemma sort_insert_Permutation (x : A) (l : list A) :
  Permutation (sort_insert cmp x l) (x :: l).
Proof.
  induction l as [|y l IH]; simpl; [reflexivity|].
  destruct (Qle_bool (cmp x y) 0); [reflexivity|].
  rewrite IH. apply perm_swap.
Qed.

Lemma Array_sort_Permutation (l : list A) : Permutation (Array_sort cmp l) l.
Proof.
  induction l as [|x l IH]; simpl; [reflexivity|].
  rewrite sort_insert_Permutation. now constructor.
Qed.

Lemma Array_sort_length (l : list A) : length (Array_sort cmp l) = length l.
Proof. apply Permutation_length, Array_sort_Permutation. Qed.

End SortFacts.

Lemma by_score_desc_le (x y : Strategy) :
  Qle_bool (by_score_desc x y) 0 = true <-> score_num y <= score_num x.
Proof. rewrite Qle_bool_iff. unfold by_score_desc. split; intros; lra. Qed.

Lemma sort_insert_sorted (x : Strategy) (l : list Strategy) :
  StronglySorted score_ge l -> StronglySorted score_ge (sort_insert by_score_desc x l).
Proof.
  induction 1 as [|y l Hl IH Hy]; simpl.
  - repeat constructor.
  - destruct (Qle_bool (by_score_desc x y) 0) eqn:E.
    + apply by_score_desc_le in E. constructor; [now constructor|].
      constructor; [exact E|].
      eapply Forall_impl; [exact Hy|]. intros z Hz. unfold score_ge in *. lra.
    + constructor; [exact IH|].
      assert (Hlt : score_num x < score_num y).
      { destruct (Qlt_le_dec (score_num x) (score_num y)) as [H|H]; [exact H|].
        apply by_score_desc_le in H. congruence. }
      eapply Permutation_Forall; [symmetry; apply sort_insert_Permutation|].
      constructor; [unfold score_ge; lra | exact Hy].
Qed.

Lemma Array_sort_sorted (l : list Strategy) :
  StronglySorted score_ge (Array_sort by_score_desc l).
Proof.
  induction l as [|x l IH]; simpl; [constructor | now apply sort_insert_sorted].
Qed.

(** Inserting [x] puts it in front of every element of its own score. *)
Lemma sort_insert_stable (q : Q) (x : Strategy) (l : list Strategy) :
  List.filter (has_score q) (sort_insert by_score_desc x l) =
  List.filter (has_score q) (x :: l).
Proof.
  induction l as [|y l IH]; [reflexivity|].
  cbn [sort_insert]. destruct (Qle_bool (by_score_desc x y) 0) eqn:E; [reflexivity|].
  cbn [List.filter] in *. rewrite IH.
  destruct (has_score q x) eqn:Hx; [|reflexivity].
  destruct (has_score q y) eqn:Hy; [|reflexivity].
  exfalso. unfold has_score in *. apply Qeq_bool_iff in Hx, Hy.
  assert (H : Qle_bool (by_score_desc x y) 0 = true)
    by (apply by_score_desc_le; lra).
  congruence.
Qed.

Lemma Array_sort_stable (q : Q) (l : list Strategy) :
  List.filter (has_score q) (Array_sort by_score_desc l) = List.filter (has_score q) l.
Proof.
  induction l as [|x l IH]; [reflexivity|].
  cbn [Array_sort]. rewrite sort_insert_stable. cbn [List.filter]. now rewrite IH.
Qed.

(** ** Ranking *)

Lemma strict_eq_spec (x y : option string) : strict_eq x y = true <-> x = y.
Proof.
  destruct x as [a|], y as [b|]; simpl; try (split; congruence).
  rewrite String.eqb_eq. split; congruence.
Qed.

Lemma same_context_spec (ec : option Context) (context : Context) :
  same_context ec context = true <->
  (ec ≫= testType) = testType context /\ (ec ≫= pageUrl) = pageUrl context.
Proof. unfold same_context. now rewrite andb_true_iff, !strict_eq_spec. Qed.

Lemma calculateContextSimilarity_shared (engine : HealingEngine) (context : Context) :
  shares_context engine context -> calculateContextSimilarity engine context = 8 # 10.
Proof.
  intros (entry & Hin & H1 & H2). unfold calculateContextSimilarity.
  assert (Hf : In entry (List.filter (fun e => same_context (h_context e) context)
                                     (healingHistory engine))).
  { apply filter_In. split; [exact Hin|]. now apply same_context_spec. }
  destruct (List.filter _ _); [destruct Hf | reflexivity].
Qed.

Lemma calculateContextSimilarity_fresh (engine : HealingEngine) (context : Context) :
  ~ shares_context engine context -> calculateContextSimilarity engine context = 3 # 10.
Proof.
  intros Hno. unfold calculateContextSimilarity.
  destruct (List.filter _ _) as [|entry rest] eqn:E; [reflexivity|].
  exfalso. apply Hno.
  assert (Hf : In entry (List.filter (fun e => same_context (h_context e) context)
                                     (healingHistory engine)))
    by (rewrite E; now left).
  apply filter_In in Hf as [Hin Hs]. apply same_context_spec in Hs.
  exists entry. tauto.
Qed.

Lemma calculateContextSimilarity_pos (engine : HealingEngine) (context : Context) :
  0 < calculateContextSimilarity engine context.
Proof.
  unfold calculateContextSimilarity. destruct (0 <? _)%nat; reflexivity.
Qed.

Lemma num_or_pos (c : Q) (d : Q) : 0 < c -> num_or (Some c) d = c.
Proof.
  intros H. unfold num_or. destruct (Qeq_bool c 0) eqn:E; [|reflexivity].
  apply Qeq_bool_iff in E. lra.
Qed.

Lemma Math_min_clamp (x : Q) : 0 < x -> Math_min 100 x == clamp_0_100 x.
Proof.
  intros H. unfold Math_min, clamp_0_100.
  destruct (Qle_bool x 0) eqn:E.
  - apply Qle_bool_iff in E. lra.
  - destruct (Qle_bool 100 x); reflexivity.
Qed.

(** With a usable confidence [c] (what [confidence || 50] evaluates to) and a
    stored rate that is absent or positive, the code's score is the formula. *)
Lemma calculateStrategyScore_formula (engine : HealingEngine) (s : Strategy)
      (context : Context) (c : Q) :
  num_or (confidence s) 50 = c -> 0 < c ->
  (forall r, successRates engine !! strategy s = Some r -> 0 < r) ->
  calculateStrategyScore engine s context ==
  score_spec engine c (strategy s) (calculateContextSimilarity engine context).
Proof.
  intros Hc Hpos Hr. unfold calculateStrategyScore, score_spec, historicalSuccessRate_spec.
  rewrite Hc.
  pose proof (calculateContextSimilarity_pos engine context) as Hsim.
  destruct (successRates engine !! strategy s) as [r|] eqn:E.
  - specialize (Hr r eq_refl). rewrite (num_or_pos r _ Hr).
    apply Math_min_clamp. nra.
  - simpl. apply Math_min_clamp. lra.
Qed.

(** [x || d], by cases. *)
Lemma num_or_cases (x : option Q) (d : Q) :
  ((x = None \/ exists q, x = Some q /\ q == 0) -> num_or x d = d) /\
  (forall q, x = Some q -> ~ q == 0 -> num_or x d = q).
Proof.
  split.
  - intros [-> | (q & -> & Hz)]; [reflexivity|].
    unfold num_or. apply Qeq_bool_iff in Hz. now rewrite Hz.
  - intros q -> Hq. unfold num_or. destruct (Qeq_bool q 0) eqn:E; [|reflexivity].
    apply Qeq_bool_iff in E. contradiction.
Qed.

(** [Math.min(100, x)], by cases: only the upper bound is enforced. *)
Lemma Math_min_cases (x : Q) :
  (x <= 100 -> Math_min 100 x == x) /\
  (100 <= x -> Math_min 100 x == 100) /\
  (0 <= x -> Math_min 100 x == clamp_0_100 x) /\
  (x < 0 -> Math_min 100 x < 0 /\ clamp_0_100 x = 0).
Proof.
  unfold Math_min, clamp_0_100.
  destruct (Qle_bool 100 x) eqn:E100; destruct (Qle_bool x 0) eqn:E0;
    try (apply Qle_bool_iff in E100); try (apply Qle_bool_iff in E0);
    repeat split; intros; try lra; try reflexivity.
  - apply Qle_bool_iff in H. congruence.
  - assert (Hle : x <= 0) by lra. apply Qle_bool_iff in Hle. congruence.
Qed.

(** C3 (as amended).  For every candidate the score is
    [min(100, c + h * 30 + sim * 20)]: [c] is the confidence, or 50 when the
    confidence is missing or zero; [h] is the stored rate of the candidate's
    name, or 0.5 when the table has no rate for the name or the stored rate
    is zero; [sim] is 0.8 when a history entry has the test type and page URL
    of the context and 0.3 otherwise.  Only the upper bound is enforced: a
    total that is not negative gives the total clamped to [[0, 100]], a
    negative total stays as it is.  In particular, for a positive confidence
    (or a missing or zero one, read as 50) and positive stored rates the
    score is the stated formula.  The ranked list is a permutation of the
    scored candidates, sorted by descending score, and candidates of equal
    score keep their order. *)
Theorem rankStrategies_score_and_order
        (engine : HealingEngine) (strategies : list Strategy) (context : Context) :
  let similarity := calculateContextSimilarity engine context in
  let scored :=
    List.map (fun s => with_score s (calculateStrategyScore engine s context)) strategies in
  let ranked := rankStrategies engine strategies context in
  (shares_context engine context -> similarity = 8 # 10) /\
  (~ shares_context engine context -> similarity = 3 # 10) /\
  (forall s, exists c h,
      ((confidence s = None \/ exists q, confidence s = Some q /\ q == 0) -> c = 50) /\
      (forall q, confidence s = Some q -> ~ q == 0 -> c = q) /\
      ((successRates engine !! strategy s = None \/
        exists r, successRates engine !! strategy s = Some r /\ r == 0) -> h = 1 # 2) /\
      (forall r, successRates engine !! strategy s = Some r -> ~ r == 0 -> h = r) /\
      let total := c + h * 30 + similarity * 20 in
      (total <= 100 -> calculateStrategyScore engine s context == total) /\
      (100 <= total -> calculateStrategyScore engine s context == 100) /\
      (0 <= total -> calculateStrategyScore engine s context == clamp_0_100 total) /\
      (total < 0 -> calculateStrategyScore engine s context < 0 /\ clamp_0_100 total = 0)) /\
  (forall s c,
      confidence s = Some c -> 0 < c ->
      (forall r, successRates engine !! strategy s = Some r -> 0 < r) ->
      calculateStrategyScore engine s context ==
      score_spec engine c (strategy s) similarity) /\
  (forall s,
      (confidence s = None \/ exists c, confidence s = Some c /\ c == 0) ->
      (forall r, successRates engine !! strategy s = Some r -> 0 < r) ->
      calculateStrategyScore engine s context ==
      score_spec engine 50 (strategy s) similarity) /\
  Permutation ranked scored /\
  StronglySorted score_ge ranked /\
  (forall q, List.filter (has_score q) ranked = List.filter (has_score q) scored).
Proof.
  cbv zeta.
  split; [apply calculateContextSimilarity_shared|].
  split; [apply calculateContextSimilarity_fresh|].
  split; [|split; [|split; [|split; [|split]]]].
  - intros s.
    exists (num_or (confidence s) 50), (num_or (successRates engine !! strategy s) (1 # 2)).
    destruct (num_or_cases (confidence s) 50) as [Hc0 Hc1].
    destruct (num_or_cases (successRates engine !! strategy s) (1 # 2)) as [Hr0 Hr1].
    split; [exact Hc0|]. split; [exact Hc1|]. split; [exact Hr0|]. split; [exact Hr1|].
    unfold calculateStrategyScore. cbv zeta. apply Math_min_cases.
  - intros s c Hc Hpos Hr. apply calculateStrategyScore_formula; [|exact Hpos|exact Hr].
    rewrite Hc. now apply num_or_pos.
  - intros s Hc Hr. apply calculateStrategyScore_formula; [|reflexivity|exact Hr].
    destruct Hc as [-> | (c & -> & Hz)]; [reflexivity|].
    unfold num_or. apply Qeq_bool_iff in Hz. now rewrite Hz.
  - apply Array_sort_Permutation.
  - apply Array_sort_sorted.
  - intros q. apply Array_sort_stable.
Qed.

Lemma rankStrategies_score_and_order_witness :
  calculateStrategyScore new_engine (Demo.candidate "locator_healing" 80) empty_context ==
  score_spec new_engine 80 "locator_healing" (3 # 10) /\
  calculateStrategyScore new_engine (Demo.candidate "wait_healing" 0) empty_context ==
  score_spec new_engine 50 "wait_healing" (3 # 10) /\
  List.map strategy
    (rankStrategies new_engine
       [Demo.candidate "a" 30; Demo.candidate "b" 70; Demo.candidate "c" 30] empty_context)
  = ["b"; "a"; "c"].
Proof.
  destruct (rankStrategies_score_and_order new_engine
              [Demo.candidate "locator_healing" 80] empty_context)
    as (_ & Hsim & _ & Hpos & Hzero & _).
  assert (Hfresh : ~ shares_context new_engine empty_context)
    by (intros (entry & Hin & _); destruct Hin).
  rewrite <- (Hsim Hfresh).
  split; [|split].
  - apply (Hpos (Demo.candidate "locator_healing" 80) 80); [reflexivity | reflexivity |].
    intros r Hr. vm_compute in Hr. discriminate.
  - apply (Hzero (Demo.candidate "wait_healing" 0)).
    + right. exists 0. split; reflexivity.
    + intros r Hr. vm_compute in Hr. discriminate.
  - reflexivity.
Defined.

(** C3 (as stated) fails in three ways.  A candidate of confidence 0, a
    value of the 0-100 range: the formula gives 0 + 0.5 * 30 + 0.3 * 20 = 21,
    the code reads the zero as a missing confidence and gives 71.  A stored
    rate of 0: the formula gives 60 + 0 * 30 + 6 = 66, the code reads the zero
    as a missing rate and gives 81.  A negative confidence: the formula
    clamped to [[0, 100]] gives 0, the code gives -50 + 15 + 6 = -29. *)
Lemma score_of_zero_confidence_counterexample :
  let never_healed := mkEngine [] ∅ (<["wait_healing" := 0]> ∅) [] in
  calculateStrategyScore new_engine (Demo.candidate "wait_healing" 0) empty_context == 71 /\
  score_spec new_engine 0 "wait_healing" (calculateContextSimilarity new_engine empty_context) == 21 /\
  ~ calculateStrategyScore new_engine (Demo.candidate "wait_healing" 0) empty_context ==
    score_spec new_engine 0 "wait_healing" (calculateContextSimilarity new_engine empty_context) /\
  calculateStrategyScore never_healed (Demo.candidate "wait_healing" 60) empty_context == 81 /\
  score_spec never_healed 60 "wait_healing"
    (calculateContextSimilarity never_healed empty_context) == 66 /\
  calculateStrategyScore new_engine (Demo.candidate "wait_healing" (-50)) empty_context
    == -29 /\
  score_spec new_engine (-50) "wait_healing"
    (calculateContextSimilarity new_engine empty_context) == 0.
Proof.
  cbv zeta.
  split; [reflexivity|]. split; [reflexivity|].
  split; [intros H; vm_compute in H; discriminate|].
  repeat split.
Qed.

(** ** Quiet computations *)

Section Quiet.
Context {World : Type} (C : Collaborators World).

Lemma quiet_ret {A} (a : A) : quiet (World := World) (ret a).
Proof. intros s. simpl. repeat split. exists []. now rewrite app_nil_r. Qed.

Lemma quiet_bind {A B} (m : M World A) (k : A -> M World B) :
  quiet m -> (forall a, quiet (k a)) -> quiet (bind m k).
Proof.
  intros Hm Hk s. unfold bind.
  destruct (Hm s) as (He & Hf & evs & Hc & Hall).
  destruct (m s) as [a s1]. simpl in *.
  destruct (Hk a s1) as (He' & Hf' & evs' & Hc' & Hall').
  repeat split; [congruence | congruence |].
  exists (evs ++ evs'). split.
  - rewrite Hc', Hc. now rewrite <- app_assoc.
  - now apply Forall_app.
Qed.

Lemma quiet_extern {A} (f : World -> A * World) : quiet (extern f).
Proof.
  intros s. unfold extern. destruct (f (world s)). simpl.
  repeat split. exists []. now rewrite app_nil_r.
Qed.

Lemma quiet_trace_ai (p : Prompt) : quiet (World := World) (trace (CallAI p)).
Proof.
  intros s. simpl. repeat split. exists [CallAI p]. split; [reflexivity|].
  repeat constructor.
Qed.

Lemma quiet_get_engine : quiet (World := World) get_engine.
Proof. intros s. simpl. repeat split. exists []. now rewrite app_nil_r. Qed.

Lemma quiet_get_framework : quiet (World := World) get_framework.
Proof. intros s. simpl. repeat split. exists []. now rewrite app_nil_r. Qed.

Lemma quiet_now : quiet (now C).
Proof. intros s. simpl. repeat split. exists []. now rewrite app_nil_r. Qed.

End Quiet.

Ltac quiet_step :=
  first [ apply quiet_ret
        | apply quiet_extern
        | apply quiet_trace_ai
        | apply quiet_get_engine
        | apply quiet_get_framework
        | apply quiet_now
        | apply quiet_bind; [|intros ?]
        | match goal with
          | |- quiet (match ?x with _ => _ end) => destruct x
          | |- quiet (let _ := _ in _) => cbv zeta
          end ].

Ltac quiet_auto := repeat quiet_step.

Section Orchestrator.
Context {World : Type} (C : Collaborators World).

Lemma quiet_generateHealingStrategies (error : JsError) (context : Context) :
  quiet (generateHealingStrategies C error context).
Proof. unfold generateHealingStrategies. quiet_auto. Qed.

Lemma quiet_healTestData (testData : TestData) (s : Strategy) :
  quiet (healTestData C testData s).
Proof. unfold healTestData. quiet_auto. Qed.

Lemma quiet_ui_heal (m : UiMethod) (s : Strategy) (testData : TestData) (context : Context) :
  quiet (ui_heal C m s testData context).
Proof.
  destruct m; unfold ui_heal, healLocatorIssue, healWaitIssue, healElementStateIssue,
    healNavigationIssue, tryBasicLocatorStrategies, run_with_page; quiet_auto.
Qed.

Lemma quiet_executeCustomStrategy (s : Strategy) (testData : TestData) :
  quiet (executeCustomStrategy C s testData).
Proof. unfold executeCustomStrategy. quiet_auto. Qed.

Lemma quiet_run_api (m : ApiMethod) (s : Strategy) (testData : TestData) (context : Context) :
  quiet (run_api C m s testData context).
Proof. unfold run_api. quiet_auto. Qed.

Lemma quiet_healDataIssue (s : Strategy) (testData : TestData) :
  quiet (healDataIssue C s testData).
Proof.
  unfold healDataIssue. apply quiet_bind; [apply quiet_healTestData | intros; quiet_auto].
Qed.

Lemma executed_app (a b : list Event) : executed (a ++ b) = executed a ++ executed b.
Proof. apply flat_map_app. Qed.

Lemma executions_app (a b : list Event) : executions (a ++ b) = executions a ++ executions b.
Proof. apply flat_map_app. Qed.

Lemma orchestrator_calls_app (a b : list Event) :
  orchestrator_calls (a ++ b) = orchestrator_calls a ++ orchestrator_calls b.
Proof. apply List.filter_app. Qed.

Lemma ai_calls_invisible (evs : list Event) :
  Forall is_ai_call evs ->
  executed evs = [] /\ executions evs = [] /\ orchestrator_calls evs = [].
Proof.
  induction 1 as [|ev evs Hev _ (IH1 & IH2 & IH3)]; [auto|].
  destruct ev; try destruct Hev. simpl. auto.
Qed.

(** One execution: the learning state is untouched, the trace gains the
    call and what it returned. *)
Lemma executeHealingStrategy_spec (s : Strategy) (testData : TestData)
      (context : Context) (sys : Sys World) :
  let result := fst (executeHealingStrategy C s testData context sys) in
  let sys' := snd (executeHealingStrategy C s testData context sys) in
  eng sys' = eng sys /\ fwk sys' = fwk sys /\
  executed (calls sys') = executed (calls sys) ++ [s] /\
  executions (calls sys') = executions (calls sys) ++ [(s, result)] /\
  orchestrator_calls (calls sys') = orchestrator_calls (calls sys).
Proof.
  assert (Hq : quiet (dispatchStrategy C (toLowerCase (strategy s)) s testData context)).
  { unfold dispatchStrategy.
    repeat match goal with
           | |- quiet (if ?b then _ else _) => destruct b
           end;
      first [ apply quiet_run_api
            | apply quiet_executeCustomStrategy
            | apply quiet_bind;
              [ first [ exact (quiet_ui_heal LocatorIssue s testData context)
                      | exact (quiet_ui_heal WaitIssue s testData context)
                      | exact (quiet_ui_heal ElementStateIssue s testData context)
                      | exact (quiet_ui_heal NavigationIssue s testData context)
                      | apply quiet_healDataIssue ]
              | intros; apply quiet_ret ] ]. }
  unfold executeHealingStrategy, bind, trace, ret. cbv zeta.
  match goal with
  | |- context [dispatchStrategy _ _ _ _ _ ?s0] => set (sys0 := s0)
  end.
  destruct (Hq sys0) as (He & Hf & evs & Hc & Hall).
  destruct (dispatchStrategy _ _ _ _ _ sys0) as [result sys1]. simpl in *.
  destruct (ai_calls_invisible evs Hall) as (E1 & E2 & E3).
  rewrite Hc. subst sys0. simpl.
  rewrite !executed_app, !executions_app, !orchestrator_calls_app, E1, E2, E3.
  simpl. rewrite !app_nil_r. repeat split; auto.
Qed.

End Orchestrator.


Section ApplyHealing.
Context {World : Type} (C : Collaborators World).

Lemma applyHealing_loop_cons (s : Strategy) (rest : list Strategy) (testData : TestData)
      (context : Context) (sys : Sys World) :
  applyHealing_loop C (s :: rest) testData context sys =
  let (result, sys1) := executeHealingStrategy C s testData context sys in
  match result with
  | Some r =>
      if success r
      then (Some r, mkSys (recordSuccessfulHealing s r (Date_now C (world sys1)) (eng sys1))
                          (fwk sys1) (world sys1) (calls sys1))
      else applyHealing_loop C rest testData context sys1
  | None => applyHealing_loop C rest testData context sys1
  end.
Proof.
  cbn [applyHealing_loop]. unfold bind at 1.
  destruct (executeHealingStrategy C s testData context sys) as [[r|] sys1];
    [destruct (success r)|]; reflexivity.
Qed.

Lemma applyHealing_unfold (analysis : Analysis) (testData : TestData)
      (context : Context) (sys : Sys World) :
  applyHealing C analysis testData context sys =
  let (found, sys') :=
    applyHealing_loop C (an_strategies analysis) testData context
      (mkSys (eng sys) (fwk sys) (world sys) (calls sys ++ [CallApplyHealing analysis])) in
  match found with
  | Some result => (result, sys')
  | None => (all_failed (an_strategies analysis), sys')
  end.
Proof.
  unfold applyHealing, bind, trace.
  destruct (applyHealing_loop C _ testData context _) as [[r|] sys']; reflexivity.
Qed.

(** What the loop of [applyHealing] does, in one statement: it executes a
    prefix of the list in order; it leaves through the first execution that
    heals, after recording it; otherwise it runs to the end and the learning
    state is as before. *)
Lemma applyHealing_loop_spec (strategies : list Strategy) (testData : TestData)
      (context : Context) (sys : Sys World) :
  let found := fst (applyHealing_loop C strategies testData context sys) in
  let sys' := snd (applyHealing_loop C strategies testData context sys) in
  fwk sys' = fwk sys /\
  orchestrator_calls (calls sys') = orchestrator_calls (calls sys) /\
  match found with
  | Some r =>
      success r = true /\
      exists pre sk post results,
        strategies = pre ++ sk :: post /\
        length results = length pre /\
        Forall not_healed results /\
        executed (calls sys') = executed (calls sys) ++ pre ++ [sk] /\
        executions (calls sys') =
          executions (calls sys) ++ combine pre results ++ [(sk, Some r)] /\
        exists t, eng sys' = recordSuccessfulHealing sk r t (eng sys)
  | None =>
      exists results,
        length results = length strategies /\
        Forall not_healed results /\
        executed (calls sys') = executed (calls sys) ++ strategies /\
        executions (calls sys') = executions (calls sys) ++ combine strategies results /\
        eng sys' = eng sys
  end.
Proof.
  revert sys. induction strategies as [|s rest IH]; intros sys.
  - simpl. repeat split. exists []. simpl. rewrite !app_nil_r. auto.
  - rewrite applyHealing_loop_cons.
    pose proof (executeHealingStrategy_spec C s testData context sys) as Hx.
    cbv zeta in Hx.
    destruct (executeHealingStrategy C s testData context sys) as [result sys1].
    simpl in Hx. destruct Hx as (He & Hf & Hex & Hexs & Hoc).
    assert (Hnext : not_healed result ->
      let found := fst (applyHealing_loop C rest testData context sys1) in
      let sys' := snd (applyHealing_loop C rest testData context sys1) in
      fwk sys' = fwk sys /\
      orchestrator_calls (calls sys') = orchestrator_calls (calls sys) /\
      match found with
      | Some r =>
          success r = true /\
          exists pre sk post results,
            s :: rest = pre ++ sk :: post /\
            length results = length pre /\
            Forall not_healed results /\
            executed (calls sys') = executed (calls sys) ++ pre ++ [sk] /\
            executions (calls sys') =
              executions (calls sys) ++ combine pre results ++ [(sk, Some r)] /\
            exists t, eng sys' = recordSuccessfulHealing sk r t (eng sys)
      | None =>
          exists results,
            length results = length (s :: rest) /\
            Forall not_healed results /\
            executed (calls sys') = executed (calls sys) ++ s :: rest /\
            executions (calls sys') =
              executions (calls sys) ++ combine (s :: rest) results /\
            eng sys' = eng sys
      end).
    { intros Hbad. specialize (IH sys1). cbv zeta in *.
      destruct (applyHealing_loop C rest testData context sys1) as [found sys2].
      simpl in *. destruct IH as (Hf2 & Hoc2 & IH).
      split; [congruence|]. split; [congruence|].
      destruct found as [r2|].
      - destruct IH as (Hs2 & pre & sk & post & results & -> & Hlen & Hall & E1 & E2 & t & E3).
        split; [exact Hs2|].
        exists (s :: pre), sk, post, (result :: results).
        repeat split.
        + simpl. now rewrite Hlen.
        + now constructor.
        + rewrite E1, Hex. now rewrite <- app_assoc.
        + rewrite E2, Hexs. simpl. now rewrite <- app_assoc.
        + exists t. now rewrite E3, He.
      - destruct IH as (results & Hlen & Hall & E1 & E2 & E3).
        exists (result :: results). repeat split.
        + simpl. now rewrite Hlen.
        + now constructor.
        + rewrite E1, Hex. now rewrite <- app_assoc.
        + rewrite E2, Hexs. simpl. now rewrite <- app_assoc.
        + congruence. }
    destruct result as [r|]; [|apply Hnext; exact I].
    destruct (success r) eqn:Hs; [|apply Hnext; exact Hs].
    clear Hnext IH. simpl. repeat split; [exact Hf | exact Hoc | exact Hs |].
    exists [], s, rest, []. simpl. repeat split.
    + constructor.
    + exact Hex.
    + exact Hexs.
    + exists (Date_now C (world sys1)). now rewrite He.
Qed.


(** A call that reports failure ran the whole list and changed nothing. *)
Lemma applyHealing_failure (analysis : Analysis) (testData : TestData)
      (context : Context) (sys : Sys World) :
  let result := fst (applyHealing C analysis testData context sys) in
  let sys' := snd (applyHealing C analysis testData context sys) in
  success result = false ->
  result = all_failed (an_strategies analysis) /\
  eng sys' = eng sys /\ fwk sys' = fwk sys /\
  exists results,
    length results = length (an_strategies analysis) /\
    Forall not_healed results /\
    executed (calls sys') = executed (calls sys) ++ an_strategies analysis /\
    executions (calls sys') =
      executions (calls sys) ++ combine (an_strategies analysis) results.
Proof.
  cbv zeta. rewrite applyHealing_unfold.
  match goal with
  | |- context [applyHealing_loop C ?l testData context ?s0] =>
      pose proof (applyHealing_loop_spec l testData context s0) as H
  end.
  cbv zeta in H.
  destruct (applyHealing_loop C _ testData context _) as [[r|] sys1]; simpl in H;
    destruct H as (Hf & _ & H); cbn [fst snd].
  - destruct H as (Hs & _). congruence.
  - intros _. destruct H as (results & Hlen & Hall & E1 & E2 & E3).
    repeat split; auto. exists results. repeat split; auto.
    + rewrite E1, executed_app. simpl. now rewrite app_nil_r.
    + rewrite E2, executions_app. simpl. now rewrite app_nil_r.
Qed.


Lemma map_fst_combine {A B} (l : list A) (k : list B) :
  length k = length l -> List.map fst (combine l k) = l.
Proof.
  revert k; induction l as [|x l IH]; intros [|y k] H; try discriminate; simpl.
  - reflexivity.
  - f_equal. apply IH. now injection H.
Qed.


(** A call that reports success recorded exactly one successful healing. *)
Lemma applyHealing_success (analysis : Analysis) (testData : TestData)
      (context : Context) (sys : Sys World) :
  let result := fst (applyHealing C analysis testData context sys) in
  let sys' := snd (applyHealing C analysis testData context sys) in
  success result = true ->
  exists sk t, In sk (an_strategies analysis) /\
               eng sys' = recordSuccessfulHealing sk result t (eng sys).
Proof.
  cbv zeta. rewrite applyHealing_unfold.
  match goal with
  | |- context [applyHealing_loop C ?l testData context ?s0] =>
      pose proof (applyHealing_loop_spec l testData context s0) as H
  end.
  cbv zeta in H.
  destruct (applyHealing_loop C _ testData context _) as [[r|] sys1]; simpl in H;
    destruct H as (_ & _ & H); cbn [fst snd].
  - intros _. destruct H as (_ & pre & sk & post & results & Hsplit & _ & _ & _ & _ & t & E).
    exists sk, t. split; [|exact E].
    rewrite Hsplit. apply in_or_app. right. now left.
  - cbn [all_failed success]. discriminate.
Qed.

(** C10.  A call to [applyHealing] that returns an overall failure leaves the
    patterns, the success rates and the healing history exactly as they
    were; the only other way out of the call is a success result, and then
    the learning state is the old one with that one success recorded by
    [recordSuccessfulHealing]. *)
Theorem applyHealing_failure_keeps_learning_state
        (analysis : Analysis) (testData : TestData) (context : Context) (sys : Sys World) :
  let result := fst (applyHealing C analysis testData context sys) in
  let sys' := snd (applyHealing C analysis testData context sys) in
  (success result = false ->
   patterns (eng sys') = patterns (eng sys) /\
   successRates (eng sys') = successRates (eng sys) /\
   healingHistory (eng sys') = healingHistory (eng sys)) /\
  (success result = true ->
   exists sk t, In sk (an_strategies analysis) /\
                eng sys' = recordSuccessfulHealing sk result t (eng sys)).
Proof.
  cbv zeta. split.
  - intros Hs.
    destruct (applyHealing_failure analysis testData context sys Hs) as (_ & He & _).
    now rewrite He.
  - apply applyHealing_success.
Qed.

End ApplyHealing.


Lemma applyHealing_failure_keeps_learning_state_witness :
  let run := applyHealing (Demo.collaborators Demo.ai_down Demo.not_json)
               (Demo.analysis_of Demo.hopeless_strategies) Demo.no_page empty_context
               (Demo.start None) in
  patterns (eng (snd run)) = ∅ /\
  successRates (eng (snd run)) = ∅ /\
  healingHistory (eng (snd run)) = [].
Proof.
  apply (proj1 (applyHealing_failure_keeps_learning_state
                  (Demo.collaborators Demo.ai_down Demo.not_json)
                  (Demo.analysis_of Demo.hopeless_strategies) Demo.no_page empty_context
                  (Demo.start None))).
  reflexivity.
Defined.

(** ** Learning *)

Lemma updatePatterns_successRates (s : Strategy) (b : bool) (engine : HealingEngine) :
  successRates (updatePatterns s b engine) = successRates engine.
Proof.
  unfold updatePatterns.
  destruct (patterns engine !! strategy s) as [p|] eqn:E; cbv zeta.
  - rewrite E. reflexivity.
  - rewrite lookup_insert_eq. reflexivity.
Qed.

Lemma updatePatterns_healingHistory (s : Strategy) (b : bool) (engine : HealingEngine) :
  healingHistory (updatePatterns s b engine) = healingHistory engine.
Proof.
  unfold updatePatterns.
  destruct (patterns engine !! strategy s) as [p|] eqn:E; cbv zeta.
  - rewrite E. reflexivity.
  - rewrite lookup_insert_eq. reflexivity.
Qed.

(** The pattern entry after an update, from the counters before it. *)
Lemma updatePatterns_lookup (s : Strategy) (b : bool) (engine : HealingEngine) :
  exists p1,
    patterns (updatePatterns s b engine) !! strategy s = Some p1 /\
    totalCount p1 = (from_option totalCount 0 (patterns engine !! strategy s) + 1)%Z /\
    successCount p1 =
      (from_option successCount 0 (patterns engine !! strategy s) + (if b then 1 else 0))%Z /\
    successRate p1 = inject_Z (successCount p1) / inject_Z (totalCount p1).
Proof.
  unfold updatePatterns.
  destruct (patterns engine !! strategy s) as [p|] eqn:E; cbv zeta.
  - rewrite E. cbn [patterns]. rewrite lookup_insert_eq.
    eexists. split; [reflexivity|]. cbn. destruct b; repeat split; lia.
  - rewrite lookup_insert_eq. cbn [patterns]. rewrite lookup_insert_eq.
    eexists. split; [reflexivity|]. cbn. destruct b; repeat split.
Qed.

Lemma updatePatterns_other (s : Strategy) (b : bool) (engine : HealingEngine) (m : string) :
  m <> strategy s ->
  patterns (updatePatterns s b engine) !! m = patterns engine !! m.
Proof.
  intros Hm. unfold updatePatterns.
  destruct (patterns engine !! strategy s) as [p|] eqn:E; cbv zeta.
  - rewrite E. cbn [patterns]. now rewrite lookup_insert_ne.
  - rewrite lookup_insert_eq. cbn [patterns]. now rewrite !lookup_insert_ne.
Qed.

Lemma num_or_nonzero (r d : Q) : ~ r == 0 -> num_or (Some r) d = r.
Proof.
  intros H. unfold num_or. destruct (Qeq_bool r 0) eqn:E; [|reflexivity].
  apply Qeq_bool_iff in E. contradiction.
Qed.

(** One recorded success: both tables, each by its own rule. *)
Lemma recordSuccessfulHealing_once (s : Strategy) (result : HealResult) (t : Z)
      (engine : HealingEngine) :
  (forall r, successRates engine !! strategy s = Some r -> ~ r == 0) ->
  let engine1 := recordSuccessfulHealing s result t engine in
  (exists p1,
      patterns engine1 !! strategy s = Some p1 /\
      successCount p1 = (from_option successCount 0 (patterns engine !! strategy s) + 1)%Z /\
      totalCount p1 = (from_option totalCount 0 (patterns engine !! strategy s) + 1)%Z /\
      successRate p1 = inject_Z (successCount p1) / inject_Z (totalCount p1)) /\
  successRates engine1 !! strategy s =
    Some ((historicalSuccessRate_spec engine (strategy s) + 1) / 2) /\
  healingHistory engine1 =
    healingHistory engine ++
    [mkHistoryEntry t (strategy s) true (Some result)
                    (Some (default empty_context (res_context result)))].
Proof.
  intros Hr. cbv zeta. unfold recordSuccessfulHealing. repeat split.
  - destruct (updatePatterns_lookup s true
                (mkEngine
                   (healingHistory engine ++
                    [mkHistoryEntry t (strategy s) true (Some result)
                       (Some (default empty_context (res_context result)))])
                   (patterns engine)
                   (<[strategy s := (num_or (successRates engine !! strategy s) (1 # 2) + 1) / 2]>
                      (successRates engine))
                   (learningData engine)))
      as (p1 & H1 & H2 & H3 & H4).
    exists p1. cbn [patterns] in *. repeat split; auto.
  - rewrite updatePatterns_successRates. cbn [successRates].
    rewrite lookup_insert_eq. unfold historicalSuccessRate_spec.
    destruct (successRates engine !! strategy s) as [r|] eqn:E; [|reflexivity].
    now rewrite (num_or_nonzero r _ (Hr r eq_refl)).
  - now rewrite updatePatterns_healingHistory.
Qed.

Section Learning.
Context {World : Type} (C : Collaborators World).

(** C7 (as amended).  Recording a success for a strategy name adds one to
    both counters of its pattern and sets the pattern's rate to their ratio
    (the new total is positive whenever the old one was not negative), and
    moves the smoothed rate halfway to 1: [(old + 1) / 2], where [old] is the
    stored rate, or 0.5 when the table has no rate for the name or the stored
    rate is zero.  Neither table changes for another name.  For a fresh name
    one success gives counters 1, 1, ratio 1 and smoothed rate 0.75; a second
    gives 2, 2, 1 and 0.875.  A failure does not touch the smoothed rates:
    not in [updatePatterns] and not in a failed [applyHealing]. *)
Theorem recordSuccessfulHealing_learning_rules
        (s : Strategy) (result : HealResult) (t : Z) (engine : HealingEngine) :
  let engine1 := recordSuccessfulHealing s result t engine in
  (exists p1 r1 old,
      patterns engine1 !! strategy s = Some p1 /\
      successCount p1 = (from_option successCount 0 (patterns engine !! strategy s) + 1)%Z /\
      totalCount p1 = (from_option totalCount 0 (patterns engine !! strategy s) + 1)%Z /\
      ((forall p, patterns engine !! strategy s = Some p -> (0 <= totalCount p)%Z) ->
       (0 < totalCount p1)%Z) /\
      (totalCount p1 <> 0%Z ->
       successRate p1 == inject_Z (successCount p1) / inject_Z (totalCount p1)) /\
      successRates engine1 !! strategy s = Some r1 /\
      r1 == (old + 1) / 2 /\
      ((successRates engine !! strategy s = None \/
        exists r, successRates engine !! strategy s = Some r /\ r == 0) -> old = 1 # 2) /\
      (forall r, successRates engine !! strategy s = Some r -> ~ r == 0 -> old = r)) /\
  (forall other, other <> strategy s ->
      patterns engine1 !! other = patterns engine !! other /\
      successRates engine1 !! other = successRates engine !! other) /\
  (patterns engine !! strategy s = None ->
   successRates engine !! strategy s = None ->
   forall result2 t2,
     let engine2 := recordSuccessfulHealing s result2 t2 engine1 in
     exists p1 r1 p2 r2,
       patterns engine1 !! strategy s = Some p1 /\
       successCount p1 = 1%Z /\ totalCount p1 = 1%Z /\ successRate p1 == 1 /\
       successRates engine1 !! strategy s = Some r1 /\ r1 == 75 # 100 /\
       patterns engine2 !! strategy s = Some p2 /\
       successCount p2 = 2%Z /\ totalCount p2 = 2%Z /\ successRate p2 == 1 /\
       successRates engine2 !! strategy s = Some r2 /\ r2 == 875 # 1000) /\
  successRates (updatePatterns s false engine) = successRates engine /\
  (forall analysis testData context (sys : Sys World),
      success (fst (applyHealing C analysis testData context sys)) = false ->
      successRates (eng (snd (applyHealing C analysis testData context sys))) =
      successRates (eng sys)).
Proof.
  cbv zeta.
  assert (Hrates : forall m,
             successRates (recordSuccessfulHealing s result t engine) !! m =
             <[strategy s := (num_or (successRates engine !! strategy s) (1 # 2) + 1) / 2]>
               (successRates engine) !! m).
  { intros m. unfold recordSuccessfulHealing.
    now rewrite updatePatterns_successRates. }
  assert (Hpats : exists p1,
             patterns (recordSuccessfulHealing s result t engine) !! strategy s = Some p1 /\
             totalCount p1 = (from_option totalCount 0 (patterns engine !! strategy s) + 1)%Z /\
             successCount p1 =
               (from_option successCount 0 (patterns engine !! strategy s) + 1)%Z /\
             successRate p1 = inject_Z (successCount p1) / inject_Z (totalCount p1)).
  { unfold recordSuccessfulHealing.
    match goal with
    | |- context [updatePatterns s true ?e] =>
        destruct (updatePatterns_lookup s true e) as (p1 & H1 & H2 & H3 & H4)
    end.
    exists p1. cbn [patterns] in *. auto. }
  destruct Hpats as (p1 & Hp1 & Ht1 & Hs1 & Hq1).
  split; [|split; [|split; [|split]]].
  - exists p1, ((num_or (successRates engine !! strategy s) (1 # 2) + 1) / 2),
           (num_or (successRates engine !! strategy s) (1 # 2)).
    destruct (num_or_cases (successRates engine !! strategy s) (1 # 2)) as [Hr0 Hr1].
    split; [exact Hp1|]. split; [exact Hs1|]. split; [exact Ht1|].
    split; [|split; [|split; [|split; [|split]]]].
    + intros Htot. rewrite Ht1.
      destruct (patterns engine !! strategy s) as [p|] eqn:E; simpl.
      * specialize (Htot p eq_refl). lia.
      * lia.
    + intros _. now rewrite Hq1.
    + rewrite Hrates. apply lookup_insert_eq.
    + reflexivity.
    + exact Hr0.
    + exact Hr1.
  - intros other Hother. split.
    + unfold recordSuccessfulHealing. now rewrite updatePatterns_other.
    + rewrite Hrates. now apply lookup_insert_ne.
  - intros Hfresh Hnew result2 t2.
    assert (Hrate0 : forall r, successRates engine !! strategy s = Some r -> ~ r == 0)
      by (intros r Hr; congruence).
    destruct (recordSuccessfulHealing_once s result t engine Hrate0)
      as ((q1 & Hq1' & Hs1' & Ht1' & Hq1'') & Hr1 & _).
    rewrite Hfresh in Hs1', Ht1'. simpl in Hs1', Ht1'.
    unfold historicalSuccessRate_spec in Hr1. rewrite Hnew in Hr1.
    assert (Hrate1 : forall r,
               successRates (recordSuccessfulHealing s result t engine) !! strategy s = Some r ->
               ~ r == 0).
    { intros r Hr. rewrite Hr1 in Hr. injection Hr as <-. intros H. discriminate H. }
    destruct (recordSuccessfulHealing_once s result2 t2 _ Hrate1)
      as ((p2 & Hp2 & Hs2 & Ht2 & Hq2) & Hr2 & _).
    rewrite Hq1' in Hs2, Ht2. simpl in Hs2, Ht2.
    unfold historicalSuccessRate_spec in Hr2. rewrite Hr1 in Hr2.
    exists q1, (((1 # 2) + 1) / 2), p2, ((((1 # 2) + 1) / 2 + 1) / 2).
    split; [exact Hq1'|]. split; [lia|]. split; [lia|].
    split; [rewrite Hq1'', Hs1', Ht1'; reflexivity|].
    split; [exact Hr1|]. split; [reflexivity|].
    split; [exact Hp2|]. split; [lia|]. split; [lia|].
    split; [rewrite Hq2, Hs2, Ht2, Hs1', Ht1'; reflexivity|].
    split; [exact Hr2 | reflexivity].
  - apply updatePatterns_successRates.
  - intros analysis testData context sys Hs.
    destruct (applyHealing_failure C analysis testData context sys Hs) as (_ & He & _).
    now rewrite He.
Qed.

End Learning.

Lemma recordSuccessfulHealing_learning_rules_witness :
  let s := Demo.candidate "locator_healing" 80 in
  let engine1 := recordSuccessfulHealing s tryBasicWaitStrategies 1 new_engine in
  let engine2 := recordSuccessfulHealing s tryBasicWaitStrategies 2 engine1 in
  exists p2 r1 r2,
    patterns engine2 !! "locator_healing" = Some p2 /\
    successCount p2 = 2%Z /\ totalCount p2 = 2%Z /\ successRate p2 == 1 /\
    successRates engine1 !! "locator_healing" = Some r1 /\ r1 == 75 # 100 /\
    successRates engine2 !! "locator_healing" = Some r2 /\ r2 == 875 # 1000.
Proof.
  cbv zeta.
  destruct (recordSuccessfulHealing_learning_rules
              (Demo.collaborators Demo.ai_down Demo.not_json)
              (Demo.candidate "locator_healing" 80) tryBasicWaitStrategies 1 new_engine)
    as (_ & _ & Htwice & _).
  destruct (Htwice eq_refl eq_refl tryBasicWaitStrategies 2%Z)
    as (p1 & r1 & p2 & r2 & _ & _ & _ & _ & Hr1 & Hv1 & Hp2 & Hs2 & Ht2 & Hq2 & Hr2 & Hv2).
  exists p2, r1, r2. repeat split; assumption.
Defined.

(** C7 (as stated) fails for a name whose stored rate is 0 (a rate that a
    loaded file can hold): [(0 + 1) / 2] is 0.5, but the code reads the zero
    as a missing rate and stores [(0.5 + 1) / 2 = 0.75]. *)
Lemma smoothed_rate_of_zero_counterexample :
  let never_healed := mkEngine [] ∅ (<["wait_healing" := 0]> ∅) [] in
  let engine1 :=
    recordSuccessfulHealing (Demo.candidate "wait_healing" 70) tryBasicWaitStrategies 1
                            never_healed in
  successRates never_healed !! "wait_healing" = Some 0 /\
  exists r1,
    successRates engine1 !! "wait_healing" = Some r1 /\
    r1 == 3 # 4 /\
    ~ r1 == (0 + 1) / 2.
Proof.
  cbv zeta. split; [reflexivity|].
  eexists. split; [reflexivity|]. split; [reflexivity|].
  intros H. vm_compute in H. discriminate.
Qed.

(** ** UI executors without a page *)

Lemma generateAlternativeSelectors_nonempty (originalLocator : option string) :
  generateAlternativeSelectors originalLocator <> [] <->
  exists loc, originalLocator = Some loc /\
              (startsWith loc "#" = true \/ startsWith loc "." = true \/
               startsWith loc "[" = true).
Proof.
  unfold generateAlternativeSelectors. destruct originalLocator as [loc|].
  - destruct (str_truthy (Some loc)) eqn:Ht.
    + destruct (startsWith loc "#") eqn:E1; [split; [intros _; eauto | discriminate]|].
      destruct (startsWith loc ".") eqn:E2; [split; [intros _; eauto 6 | discriminate]|].
      destruct (startsWith loc "[") eqn:E3; [split; [intros _; eauto 6 | discriminate]|].
      split; [congruence|]. intros (l & [= <-] & [H | [H | H]]); congruence.
    + destruct loc; [|discriminate]. split; [congruence|].
      intros (l & [= <-] & [H | [H | H]]); discriminate.
  - split; [congruence|]. intros (l & H & _). discriminate.
Qed.

Section UiFallback.
Context {World : Type} (C : Collaborators World).

(** The basic locator strategies when the locator generator gives nothing. *)
Lemma tryBasicLocatorStrategies_without_ai (originalLocator : option string)
      (context : Context) (sys : Sys World) :
  (enableAILocatorGeneration (options (fwk sys)) = true ->
   match fst (generateLocators C
                ("Element with selector: " +:+ default "undefined" originalLocator)
                originalLocator (world sys)) with
   | Return (_ :: _) => False
   | _ => True
   end) ->
  fst (tryBasicLocatorStrategies C originalLocator context sys) =
  match generateAlternativeSelectors originalLocator with
  | first :: _ =>
      mkHealResult true None (Some "alternative_selector") None None
                   (Some first) (Some 60) None None None
  | [] => failure "No alternative locators found" "locator_healing"
  end.
Proof.
  intros Hai. unfold tryBasicLocatorStrategies, bind, get_framework, extern, ret.
  destruct (enableAILocatorGeneration (options (fwk sys))); [|reflexivity].
  specialize (Hai eq_refl).
  destruct (generateLocators C _ originalLocator (world sys)) as [[[|first rest]|e] w];
    simpl in Hai; [reflexivity | destruct Hai | reflexivity].
Qed.

(** C8 (as amended).  Without a page in the test data, the wait, the
    element-state and the navigation method return at once a result with
    [success: true] and one generic change description, and touch nothing.
    The locator method falls back to [tryBasicLocatorStrategies]: when the
    locator generator supplies no locator (it is disabled, it throws, or it
    returns none), the result is [success: true] with the first alternative
    selector and without a change description if the original locator starts
    with '#', '.' or '[', and it is the failure 'No alternative locators
    found' otherwise. *)
Theorem ui_heal_without_page (m : UiMethod) (s : Strategy) (testData : TestData)
        (context : Context) (sys : Sys World) :
  td_page testData = None ->
  let result := fst (ui_heal C m s testData context sys) in
  let sys' := snd (ui_heal C m s testData context sys) in
  let originalLocator :=
    str_or_undefined (td_element testData ≫= locator) (td_element testData ≫= selector) in
  match m with
  | WaitIssue =>
      success result = true /\ sys' = sys /\
      res_changes result = Some ["Applied basic wait strategy with 5s timeout"]
  | ElementStateIssue =>
      success result = true /\ sys' = sys /\
      res_changes result = Some ["Applied basic element state healing"]
  | NavigationIssue =>
      success result = true /\ sys' = sys /\
      res_changes result = Some ["Applied basic navigation healing"]
  | LocatorIssue =>
      (enableAILocatorGeneration (options (fwk sys)) = true ->
       match fst (generateLocators C
                    ("Element with selector: " +:+ default "undefined" originalLocator)
                    originalLocator (world sys)) with
       | Return (_ :: _) => False
       | _ => True
       end) ->
      match generateAlternativeSelectors originalLocator with
      | first :: _ =>
          success result = true /\ res_locator result = Some first /\
          res_changes result = None
      | [] => result = failure "No alternative locators found" "locator_healing"
      end /\
      (success result = true <->
       exists loc, originalLocator = Some loc /\
                   (startsWith loc "#" = true \/ startsWith loc "." = true \/
                    startsWith loc "[" = true))
  end.
Proof.
  intros Hpage. cbv zeta.
  destruct m; cbn [ui_heal]; unfold healLocatorIssue, healWaitIssue,
    healElementStateIssue, healNavigationIssue; rewrite Hpage.
  2-4: destruct sys; repeat split.
  intros Hai.
  rewrite (tryBasicLocatorStrategies_without_ai _ context sys Hai).
  pose proof (generateAlternativeSelectors_nonempty
                (str_or_undefined (td_element testData ≫= locator)
                                  (td_element testData ≫= selector))) as Hne.
  destruct (generateAlternativeSelectors _) as [|first rest].
  - split; [reflexivity|]. split; [intros H; cbn in H; discriminate H|].
    intros H. apply Hne in H. congruence.
  - split; [repeat split|]. split; [intros _|reflexivity].
    apply Hne. discriminate.
Qed.

End UiFallback.

Lemma ui_heal_without_page_witness :
  let C := Demo.collaborators Demo.ai_down Demo.not_json in
  let by_id := mkTestData (Some (mkElement None (Some "#login") None None)) None None in
  success (fst (ui_heal C WaitIssue (Demo.candidate "wait_healing" 70)
                  Demo.no_page empty_context (Demo.start None))) = true /\
  success (fst (ui_heal C LocatorIssue (Demo.candidate "locator_healing" 80)
                  by_id empty_context (Demo.start None))) = true.
Proof.
  cbv zeta. split.
  - apply (ui_heal_without_page (Demo.collaborators Demo.ai_down Demo.not_json)
             WaitIssue (Demo.candidate "wait_healing" 70) Demo.no_page empty_context
             (Demo.start None)).
    reflexivity.
  - apply (ui_heal_without_page (Demo.collaborators Demo.ai_down Demo.not_json)
             LocatorIssue (Demo.candidate "locator_healing" 80)
             (mkTestData (Some (mkElement None (Some "#login") None None)) None None)
             empty_context (Demo.start None)).
    + reflexivity.
    + intros _. exact I.
    + exists "#login". split; [reflexivity | left; reflexivity].
Defined.

(** C8 (as stated) fails for the locator method: without a page and with a
    selector that is neither an id, a class nor an attribute selector (or
    with no element at all), the fallback reports failure. *)
Lemma locator_fallback_fails_counterexample :
  let C := Demo.collaborators Demo.ai_down Demo.not_json in
  let by_tag := mkTestData (Some (mkElement None (Some "button") None None)) None None in
  td_page by_tag = None /\
  fst (ui_heal C LocatorIssue (Demo.candidate "locator_healing" 80)
         by_tag empty_context (Demo.start None))
  = failure "No alternative locators found" "locator_healing" /\
  success (fst (ui_heal C LocatorIssue (Demo.candidate "locator_healing" 80)
                  Demo.no_page empty_context (Demo.start None))) = false.
Proof. cbv zeta. repeat split. Qed.

(** ** Persistence *)

Lemma new_Map_snoc {V} (l : list (string * V)) (k : string) (v : V) :
  new_Map (l ++ [(k, v)]) = <[k := v]> (new_Map l).
Proof. unfold new_Map. now rewrite foldl_app. Qed.

Lemma new_Map_reverse {V} (l : list (string * V)) :
  new_Map l = list_to_map (reverse l).
Proof.
  induction l as [|[k v] l IH] using rev_ind; [reflexivity|].
  rewrite new_Map_snoc, reverse_snoc, IH. reflexivity.
Qed.

(** Rebuilding a map from its entries gives the map back. *)
Lemma new_Map_entries {V} (m : gmap string V) : new_Map (Map_entries m) = m.
Proof.
  unfold Map_entries. rewrite new_Map_reverse.
  rewrite <- (list_to_map_to_list m) at 2.
  apply list_to_map_proper.
  - rewrite fmap_reverse, reverse_Permutation. apply NoDup_fst_map_to_list.
  - apply reverse_Permutation.
Qed.

(** [slice(-n)] keeps a suffix, of length [min n (length l)]. *)
Lemma slice_last_suffix {A} (n : nat) (l : list A) :
  l = firstn (length l - n) l ++ slice_last n l /\
  length (slice_last n l) = Nat.min n (length l).
Proof.
  unfold slice_last. split.
  - symmetry. apply firstn_skipn.
  - rewrite length_skipn. lia.
Qed.

(** Rebuilding a map from its entries, each value sent through [f]. *)
Lemma new_Map_entries_map {V} (f : V -> V) (m : gmap string V) :
  new_Map (List.map (fun kv => (kv.1, f kv.2)) (Map_entries m)) = f <$> m.
Proof.
  rewrite <- (new_Map_entries m) at 2.
  rewrite !new_Map_reverse.
  change (List.map (fun kv : string * V => (kv.1, f kv.2)) (Map_entries m))
    with (prod_map id f <$> Map_entries m).
  rewrite <- fmap_reverse. apply list_to_map_fmap.
Qed.

Lemma JSON_pattern_data (p : Pattern) :
  (forall ref, pat_implementation p <> ImplFunction ref) -> JSON_pattern p = p.
Proof.
  destruct p as [n d [ref|code|] sc tc sr]; cbn; intros H;
    [exfalso; now apply (H ref) | reflexivity | reflexivity].
Qed.

Section Persistence.
Context {World : Type} (C : Collaborators World).

(** C9 (as amended).  When the file system keeps the JSON text of what is
    written to it, and the last 1000 history entries are JSON data (none
    carries a live page), saving the learning state and loading it again
    (into any engine) gives back the success-rate table, the healing history
    cut down to its last 1000 entries, and the pattern table as JSON keeps
    it: the same names, descriptions, counters and rates, a string
    implementation as it was, and a function implementation dropped.  The
    pattern table comes back identical when no pattern holds a function.
    Saving itself does not change the state. *)
Theorem persistence_round_trip (sys : Sys World) (loader : HealingEngine) :
  JSON_file_store C ->
  forallb JSON_entry (slice_last 1000 (healingHistory (eng sys))) = true ->
  let saved := snd (saveHealingPatterns C sys) in
  let reloaded :=
    eng (snd (loadHealingPatterns C
                (mkSys loader (fwk saved) (world saved) (calls saved)))) in
  eng saved = eng sys /\
  patterns reloaded = JSON_pattern <$> patterns (eng sys) /\
  (forall key,
      match patterns (eng sys) !! key with
      | Some p =>
          exists p', patterns reloaded !! key = Some p' /\
                     name p' = name p /\ pat_description p' = pat_description p /\
                     successCount p' = successCount p /\ totalCount p' = totalCount p /\
                     successRate p' = successRate p /\
                     pat_implementation p' =
                       match pat_implementation p with
                       | ImplFunction _ => ImplOther
                       | ImplString code => ImplString code
                       | ImplOther => ImplOther
                       end
      | None => patterns reloaded !! key = None
      end) /\
  ((forall key p, patterns (eng sys) !! key = Some p ->
                  forall ref, pat_implementation p <> ImplFunction ref) ->
   patterns reloaded = patterns (eng sys)) /\
  successRates reloaded = successRates (eng sys) /\
  healingHistory reloaded = slice_last 1000 (healingHistory (eng sys)) /\
  (exists older, healingHistory (eng sys) = older ++ healingHistory reloaded) /\
  length (healingHistory reloaded) = Nat.min 1000 (length (healingHistory (eng sys))).
Proof.
  cbv zeta. intros Hstore Hjson.
  assert (Hsaved : eng (snd (saveHealingPatterns C sys)) = eng sys).
  { unfold saveHealingPatterns, bind, get_engine, now, extern, ret.
    destruct (fs_write C _ (world sys)); reflexivity. }
  assert (Hread :
            fst (fs_read C (world (snd (saveHealingPatterns C sys)))) =
            Return (Some (mkPersisted
                            (Some (List.map (fun kv => (kv.1, JSON_pattern kv.2))
                                            (Map_entries (patterns (eng sys)))))
                            (Some (Map_entries (successRates (eng sys))))
                            (Some (slice_last 1000 (healingHistory (eng sys))))
                            (Date_now C (world sys))))).
  { unfold saveHealingPatterns, bind, get_engine, now, extern, ret.
    match goal with
    | |- context [fs_write C ?data (world sys)] =>
        destruct (Hstore data (world sys) Hjson) as [_ Hr];
        destruct (fs_write C data (world sys)) as [completion w]
    end.
    cbn [snd world] in *. exact Hr. }
  assert (Hpat : patterns
                   (eng (snd (loadHealingPatterns C
                                (mkSys loader (fwk (snd (saveHealingPatterns C sys)))
                                       (world (snd (saveHealingPatterns C sys)))
                                       (calls (snd (saveHealingPatterns C sys)))))))
                 = JSON_pattern <$> patterns (eng sys) /\
                 successRates
                   (eng (snd (loadHealingPatterns C
                                (mkSys loader (fwk (snd (saveHealingPatterns C sys)))
                                       (world (snd (saveHealingPatterns C sys)))
                                       (calls (snd (saveHealingPatterns C sys)))))))
                 = successRates (eng sys) /\
                 healingHistory
                   (eng (snd (loadHealingPatterns C
                                (mkSys loader (fwk (snd (saveHealingPatterns C sys)))
                                       (world (snd (saveHealingPatterns C sys)))
                                       (calls (snd (saveHealingPatterns C sys)))))))
                 = slice_last 1000 (healingHistory (eng sys))).
  { unfold loadHealingPatterns, bind, extern. cbn [world eng].
    destruct (fs_read C (world (snd (saveHealingPatterns C sys)))) as [completion w] eqn:E.
    cbn [fst] in Hread. subst completion. cbn.
    rewrite new_Map_entries_map, new_Map_entries. auto. }
  destruct Hpat as (Hp & Hr & Hh).
  destruct (slice_last_suffix 1000 (healingHistory (eng sys))) as [Hsplit Hlen].
  split; [exact Hsaved|]. split; [exact Hp|].
  split; [|split; [|split; [exact Hr|split; [exact Hh|split]]]].
  - intros key. rewrite Hp, lookup_fmap.
    destruct (patterns (eng sys) !! key) as [p|]; [|reflexivity].
    exists (JSON_pattern p). cbn. repeat split.
  - intros Hdata. rewrite Hp. apply map_eq. intros key. rewrite lookup_fmap.
    destruct (patterns (eng sys) !! key) as [p|] eqn:E; [|reflexivity].
    cbn. f_equal. apply JSON_pattern_data. exact (Hdata key p E).
  - rewrite Hh. eexists. exact Hsplit.
  - rewrite Hh. exact Hlen.
Qed.

End Persistence.

Lemma persistence_round_trip_witness :
  let C := Demo.collaborators Demo.ai_down Demo.not_json in
  let engine :=
    recordSuccessfulHealing (Demo.candidate "wait_healing" 70) tryBasicWaitStrategies 7
                            new_engine in
  let sys := mkSys engine Demo.new_framework None [] in
  let saved := snd (saveHealingPatterns C sys) in
  let reloaded :=
    eng (snd (loadHealingPatterns C
                (mkSys new_engine (fwk saved) (world saved) (calls saved)))) in
  JSON_file_store C /\
  patterns reloaded = JSON_pattern <$> patterns engine /\
  successRates reloaded = successRates engine /\
  healingHistory reloaded = healingHistory engine.
Proof.
  cbv zeta.
  assert (Hstore : JSON_file_store (Demo.collaborators Demo.ai_down Demo.not_json)).
  { intros data w Hdata. cbn. rewrite Hdata. split; reflexivity. }
  split; [exact Hstore|].
  destruct (persistence_round_trip
              (Demo.collaborators Demo.ai_down Demo.not_json)
              (mkSys (recordSuccessfulHealing (Demo.candidate "wait_healing" 70)
                        tryBasicWaitStrategies 7 new_engine)
                     Demo.new_framework None [])
              new_engine)
    as (_ & Hp & _ & _ & Hr & Hh & _).
  - exact Hstore.
  - reflexivity.
  - split; [exact Hp | split; [exact Hr | rewrite Hh; reflexivity]].
Defined.

(** C9 (as stated) fails for a pattern learned from a strategy whose
    implementation is a function: the JSON text leaves the function out, and
    the pattern comes back without its implementation, so the reloaded
    pattern table is not the one that was saved. *)
Lemma function_pattern_lost_counterexample :
  let C := Demo.collaborators Demo.ai_down Demo.not_json in
  let retry := mkStrategy "custom_retry" None (ImplFunction 0) (Some 80) None None None in
  let engine := recordSuccessfulHealing retry tryBasicWaitStrategies 7 new_engine in
  let sys := mkSys engine Demo.new_framework None [] in
  let saved := snd (saveHealingPatterns C sys) in
  let reloaded :=
    eng (snd (loadHealingPatterns C
                (mkSys new_engine (fwk saved) (world saved) (calls saved)))) in
  pat_implementation <$> patterns engine !! "custom_retry" = Some (ImplFunction 0) /\
  pat_implementation <$> patterns reloaded !! "custom_retry" = Some ImplOther /\
  patterns reloaded <> patterns engine.
Proof.
  cbv zeta. split; [vm_compute; reflexivity|]. split; [vm_compute; reflexivity|].
  intros Heq.
  apply (f_equal (fun m : gmap string Pattern =>
                    pat_implementation <$> m !! "custom_retry")) in Heq.
  vm_compute in Heq. discriminate Heq.
Qed.

(** ** Strategy generation and analysis *)

Section Degrade.
Context {World : Type} (C : Collaborators World).

(** What [generateHealingStrategies] returns, from the model's answer. *)
Lemma generateHealingStrategies_value (error : JsError) (context : Context)
      (sys : Sys World) :
  fst (generateHealingStrategies C error context sys) =
  match fst (callAI C (HealingPrompt error context) (world sys)) with
  | Return response =>
      ai_rankStrategies (learningData (eng sys)) (parseHealingStrategies C response) context
  | Throw _ => []
  end.
Proof.
  unfold generateHealingStrategies, bind, trace, extern, get_engine, ret. cbn.
  destruct (callAI C _ (world sys)) as [[response|e] w]; reflexivity.
Qed.

Lemma parseHealingStrategies_basic (response : string) :
  JSON_parse C response = JsonSyntaxError ->
  (forall pattern, In pattern strategyPatterns -> regex_test pattern response = false) ->
  parseHealingStrategies C response = basic_strategies.
Proof.
  intros Hparse Hno. unfold parseHealingStrategies. rewrite Hparse.
  unfold strategyPatterns in *. cbn [flat_map].
  rewrite !Hno by (cbn; tauto). reflexivity.
Qed.

Lemma ai_rankStrategies_Permutation (data : list LearningEntry) (l : list Strategy)
      (context : Context) :
  Permutation (List.map (fun s => (strategy s, confidence s))
                        (ai_rankStrategies data l context))
              (List.map (fun s => (strategy s, confidence s)) l).
Proof.
  unfold ai_rankStrategies.
  rewrite (Permutation_map _ (Array_sort_Permutation by_score_desc _)).
  now rewrite List.map_map.
Qed.

(** [analyzeError] as a function of the state it starts from. *)
Lemma analyzeError_value (error : JsError) (context : Context) (sys : Sys World) :
  let analysis := fst (analyzeError C error context sys) in
  let sys' := snd (analyzeError C error context sys) in
  let generated := fst (generateHealingStrategies C error context sys) in
  errorType analysis = classifyError error /\
  an_context analysis = extractContextData context (Date_now C (world sys)) /\
  an_strategies analysis =
    rankStrategies (eng sys)
      (generated ++ getPatternBasedStrategies C (eng sys)
                      (classification_name (classifyError error))
                      (extractContextData context (Date_now C (world sys))))
      context /\
  eng sys' = eng sys /\ fwk sys' = fwk sys.
Proof.
  cbv zeta. rewrite generateHealingStrategies_value.
  unfold analyzeError, generateHealingStrategies, bind, trace, extern, get_engine, now, ret.
  cbn.
  destruct (callAI C _ (world sys)) as [[response|e] w]; cbn; repeat split.
Qed.

(** C2 (as amended).  When the language model throws, generation returns the
    empty list, and the analysis ranks the pattern-sourced candidates alone.
    When the model's answer is not JSON and matches none of the five textual
    patterns, generation returns the two basic candidates, [locator_healing]
    and [wait_healing] with confidence 60, ranked.  In every case
    [analyzeError] returns its result object (it is a total function): the
    classification, the extracted context, and the ranking of the generated
    candidates followed by the pattern-sourced ones; the learning state is
    untouched. *)
Theorem generation_degrades (error : JsError) (context : Context) (sys : Sys World) :
  let completion := fst (callAI C (HealingPrompt error context) (world sys)) in
  let generated := fst (generateHealingStrategies C error context sys) in
  let analysis := fst (analyzeError C error context sys) in
  let from_patterns :=
    getPatternBasedStrategies C (eng sys) (classification_name (classifyError error))
      (extractContextData context (Date_now C (world sys))) in
  (forall e, completion = Throw e ->
             generated = [] /\
             an_strategies analysis = rankStrategies (eng sys) from_patterns context) /\
  (forall response,
      completion = Return response ->
      JSON_parse C response = JsonSyntaxError ->
      (forall pattern, In pattern strategyPatterns -> regex_test pattern response = false) ->
      generated = ai_rankStrategies (learningData (eng sys)) basic_strategies context /\
      Permutation (List.map (fun s => (strategy s, confidence s)) generated)
                  [("locator_healing", Some 60); ("wait_healing", Some 60)]) /\
  errorType analysis = classifyError error /\
  an_context analysis = extractContextData context (Date_now C (world sys)) /\
  an_strategies analysis = rankStrategies (eng sys) (generated ++ from_patterns) context /\
  eng (snd (analyzeError C error context sys)) = eng sys.
Proof.
  cbv zeta.
  destruct (analyzeError_value error context sys) as (Ht & Hc & Hs & He & _).
  cbv zeta in *.
  pose proof (generateHealingStrategies_value error context sys) as Hg.
  split; [|split; [|repeat split; assumption]].
  - intros e Hthrow. rewrite Hthrow in Hg. split; [exact Hg|].
    rewrite Hs, Hg. reflexivity.
  - intros response Hret Hparse Hno. rewrite Hret in Hg.
    rewrite (parseHealingStrategies_basic response Hparse Hno) in Hg.
    split; [exact Hg|]. rewrite Hg. apply ai_rankStrategies_Permutation.
Qed.

End Degrade.

Lemma generation_degrades_witness :
  let down := Demo.collaborators Demo.ai_down Demo.not_json in
  let prose := Demo.collaborators (Demo.ai_prose "Sorry, I cannot help.") Demo.not_json in
  let error := Error "element not found" in
  an_strategies (fst (analyzeError down error empty_context (Demo.start None))) = [] /\
  Permutation
    (List.map (fun s => (strategy s, confidence s))
       (fst (generateHealingStrategies prose error empty_context (Demo.start None))))
    [("locator_healing", Some 60); ("wait_healing", Some 60)].
Proof.
  cbv zeta. split.
  - destruct (generation_degrades (Demo.collaborators Demo.ai_down Demo.not_json)
                (Error "element not found") empty_context (Demo.start None))
      as (Hthrow & _).
    destruct (Hthrow (Error "OpenAI client not initialized. Check your API key.") eq_refl)
      as (_ & Hs).
    rewrite Hs. reflexivity.
  - destruct (generation_degrades
                (Demo.collaborators (Demo.ai_prose "Sorry, I cannot help.") Demo.not_json)
                (Error "element not found") empty_context (Demo.start None))
      as (_ & Hprose & _).
    apply (Hprose "Sorry, I cannot help." eq_refl eq_refl).
    intros pattern Hin.
    repeat (destruct Hin as [<- | Hin]; [reflexivity|]). destruct Hin.
Defined.

(** C2 (as stated) fails: a throwing model does not yield the basic
    candidates but no candidate at all, which is not what an answer in prose
    yields; and an answer in prose that mentions one of the textual patterns
    yields a candidate of confidence 70 instead of the basic ones. *)
Lemma generation_on_throw_counterexample :
  let down := Demo.collaborators Demo.ai_down Demo.not_json in
  let prose := Demo.collaborators (Demo.ai_prose "Sorry, I cannot help.") Demo.not_json in
  let hint := Demo.collaborators (Demo.ai_prose "Try a locator based healing.") Demo.not_json in
  let error := Error "element not found" in
  fst (callAI down (HealingPrompt error empty_context) None)
  = Throw (Error "OpenAI client not initialized. Check your API key.") /\
  fst (generateHealingStrategies down error empty_context (Demo.start None)) = [] /\
  List.map (fun s => (strategy s, confidence s))
    (fst (generateHealingStrategies prose error empty_context (Demo.start None)))
  = [("locator_healing", Some 60); ("wait_healing", Some 60)] /\
  List.map (fun s => (strategy s, confidence s))
    (fst (generateHealingStrategies hint error empty_context (Demo.start None)))
  = [("generic_healing", Some 70)].
Proof. cbv zeta. repeat split. Qed.

(** ** The execution wrapper *)

Section Appends.
Context {World : Type} (C : Collaborators World).

Lemma appends_quiet {A} (m : M World A) : quiet m -> appends m.
Proof. intros H s. destruct (H s) as (_ & _ & evs & E & _). eauto. Qed.

Lemma appends_ret {A} (a : A) : appends (World := World) (ret a).
Proof. apply appends_quiet, quiet_ret. Qed.

Lemma appends_bind {A B} (m : M World A) (k : A -> M World B) :
  appends m -> (forall a, appends (k a)) -> appends (bind m k).
Proof.
  intros Hm Hk s. unfold bind. destruct (Hm s) as (evs & E).
  destruct (m s) as [a s1]. simpl in E.
  destruct (Hk a s1) as (evs' & E'). exists (evs ++ evs').
  now rewrite E', E, <- app_assoc.
Qed.

Lemma appends_trace (ev : Event) : appends (World := World) (trace ev).
Proof. intros s. exists [ev]. reflexivity. Qed.

Lemma appends_put_engine (e : HealingEngine) : appends (World := World) (put_engine e).
Proof. intros s. exists []. simpl. now rewrite app_nil_r. Qed.

Lemma appends_put_framework (f : BaseFramework) : appends (World := World) (put_framework f).
Proof. intros s. exists []. simpl. now rewrite app_nil_r. Qed.

End Appends.

Ltac appends_step :=
  first [ apply appends_bind; [|intros ?]
        | apply appends_ret
        | apply appends_trace
        | apply appends_put_engine
        | apply appends_put_framework
        | apply appends_quiet;
          first [ apply quiet_extern | apply quiet_get_engine
                | apply quiet_get_framework | apply quiet_now ]
        | match goal with
          | |- appends (match ?x with _ => _ end) => destruct x
          | |- appends (let _ := _ in _) => cbv zeta
          end ].

Section WrapperFacts.
Context {World : Type} (C : Collaborators World).

Lemma appends_executeHealingStrategy (s : Strategy) (testData : TestData) (context : Context) :
  appends (executeHealingStrategy C s testData context).
Proof.
  intros sys.
  destruct (executeHealingStrategy_spec C s testData context sys) as (_ & _ & _ & _ & _).
  unfold executeHealingStrategy, bind, trace, ret. cbv zeta.
  match goal with
  | |- context [dispatchStrategy _ _ _ _ _ ?s0] => set (sys0 := s0)
  end.
  assert (Hq : appends (dispatchStrategy C (toLowerCase (strategy s)) s testData context)).
  { unfold dispatchStrategy.
    repeat match goal with
           | |- appends (if ?b then _ else _) => destruct b
           end; apply appends_quiet;
      first [ apply quiet_run_api
            | apply quiet_executeCustomStrategy
            | apply quiet_bind;
              [ first [ exact (quiet_ui_heal C LocatorIssue s testData context)
                      | exact (quiet_ui_heal C WaitIssue s testData context)
                      | exact (quiet_ui_heal C ElementStateIssue s testData context)
                      | exact (quiet_ui_heal C NavigationIssue s testData context)
                      | apply quiet_healDataIssue ]
              | intros; apply quiet_ret ] ]. }
  destruct (Hq sys0) as (evs & E).
  destruct (dispatchStrategy _ _ _ _ _ sys0) as [result sys1]. simpl in *.
  subst sys0. simpl in E. rewrite E.
  exists ([CallExecuteStrategy s] ++ evs ++ [StrategyReturned s result]).
  now rewrite <- !app_assoc.
Qed.

Lemma appends_applyHealing_loop (l : list Strategy) (testData : TestData) (context : Context) :
  appends (applyHealing_loop C l testData context).
Proof.
  induction l as [|s rest IH]; cbn [applyHealing_loop].
  - apply appends_ret.
  - apply appends_bind; [apply appends_executeHealingStrategy|].
    intros [r|]; [|exact IH]. destruct (success r); [|exact IH].
    repeat appends_step.
Qed.

Lemma appends_applyHealing (analysis : Analysis) (testData : TestData) (context : Context) :
  appends (applyHealing C analysis testData context).
Proof.
  unfold applyHealing. apply appends_bind; [apply appends_trace|]. intros _. cbv zeta.
  apply appends_bind; [apply appends_applyHealing_loop|].
  intros [r|]; apply appends_ret.
Qed.

(** [analyzeError] puts its own call on the trace first. *)
Lemma analyzeError_calls (error : JsError) (context : Context) (sys : Sys World) :
  exists evs,
    calls (snd (analyzeError C error context sys)) =
    calls sys ++ CallAnalyzeError error :: evs.
Proof.
  unfold analyzeError. unfold bind at 1, trace at 1. cbv beta iota zeta.
  match goal with
  | |- context [bind ?m ?k ?s0] =>
      assert (Ha : appends (bind m k))
  end.
  { apply appends_bind; [apply appends_quiet, quiet_now|]. intros t0.
    apply appends_bind; [apply appends_quiet, quiet_generateHealingStrategies|].
    intros ai. repeat appends_step. }
  match goal with
  | |- context [bind ?m ?k ?s0] => destruct (Ha s0) as (evs & E)
  end.
  exists evs. rewrite E. simpl. now rewrite <- app_assoc.
Qed.

Lemma appends_analyzeError (error : JsError) (context : Context) :
  appends (analyzeError C error context).
Proof. intros s. destruct (analyzeError_calls error context s) as (evs & E). eauto. Qed.

Lemma appends_attemptHealing_loop (todo attempt : nat) (error : JsError)
      (testData : TestData) (context : Context) (done : list AttemptRecord) :
  appends (attemptHealing_loop C todo attempt error testData context done).
Proof.
  revert attempt done. induction todo as [|todo IH]; intros attempt done;
    cbn [attemptHealing_loop].
  - repeat appends_step.
  - apply appends_bind; [apply appends_analyzeError|]. intros analysis.
    apply appends_bind; [apply appends_applyHealing|]. intros r.
    destruct (success r); [repeat appends_step | apply IH].
Qed.

Lemma preTestAnalysis_state (testData : TestData) (sys : Sys World) :
  exists w, preTestAnalysis C testData sys = (tt, mkSys (eng sys) (fwk sys) w (calls sys)).
Proof.
  unfold preTestAnalysis, bind, get_framework, extern, ret.
  destruct (enableAI _).
  - destruct (analyzeTest C testData (world sys)) as [c w]. exists w. reflexivity.
  - exists (world sys). destruct sys. reflexivity.
Qed.

Lemma executeWithHealing_throw (testFunction : TestFunction) (testData : TestData)
      (error : JsError) (sys : Sys World) :
  (forall w, fst (testFunction testData w) = Throw error) ->
  exists w,
    executeWithHealing testFunction testData sys =
    (Throw (if isHealableError error then HealableError error else error),
     mkSys (eng sys) (fwk sys) w (calls sys)).
Proof.
  intros Hthrow. unfold executeWithHealing, bind, extern, ret.
  specialize (Hthrow (world sys)).
  destruct (testFunction testData (world sys)) as [completion w]. simpl in Hthrow.
  subst completion. exists w. destruct (isHealableError error); reflexivity.
Qed.

Lemma attemptHealing_calls (error : JsError) (testData : TestData) (context : Context)
      (sys : Sys World) (n : nat) :
  maxHealingAttempts (options (fwk sys)) = S n ->
  exists evs,
    calls (snd (attemptHealing C error testData context sys)) =
    calls sys ++ CallAnalyzeError error :: evs.
Proof.
  intros Hmax. unfold attemptHealing, bind at 1, get_framework. rewrite Hmax.
  cbn [attemptHealing_loop]. unfold bind at 1.
  match goal with
  | |- context [analyzeError C error ?ctx sys] =>
      destruct (analyzeError_calls error ctx sys) as (evs & E);
      destruct (analyzeError C error ctx sys) as [analysis s1]
  end.
  simpl in E.
  match goal with
  | |- context [bind ?m ?k s1] => assert (Hrest : appends (bind m k))
  end.
  { apply appends_bind; [apply appends_applyHealing|]. intros r.
    destruct (success r); [repeat appends_step | apply appends_attemptHealing_loop]. }
  destruct (Hrest s1) as (evs' & E').
  rewrite E', E. exists (evs ++ evs'). now rewrite <- app_assoc.
Qed.

Lemma finally_updateMetrics_calls {A} (t : Z) (a : A) (sys : Sys World) :
  calls (snd (finally_updateMetrics C t a sys)) = calls sys.
Proof. reflexivity. Qed.

(** Whatever the message, an error thrown by the test function reaches
    [analyzeError] as soon as healing is enabled and one attempt is allowed:
    the allow-list decides the wrapping of the error, not the healing. *)
Lemma executeTest_always_attempts_healing
      (testFunction : TestFunction) (testData : TestData) (sys : Sys World)
      (error : JsError) (n : nat) :
  enableHealing (options (fwk sys)) = true ->
  maxHealingAttempts (options (fwk sys)) = S n ->
  (forall w, fst (testFunction testData w) = Throw error) ->
  exists evs,
    calls (snd (executeTest C testFunction testData sys)) =
    calls sys ++
    CallAnalyzeError (if isHealableError error then HealableError error else error) :: evs.
Proof.
  intros Hon Hmax Hthrow.
  unfold executeTest, bind, now, get_framework, put_framework. cbn [fwk eng world calls].
  match goal with
  | |- context [preTestAnalysis C testData ?s0] =>
      destruct (preTestAnalysis_state testData s0) as (w1 & ->)
  end.
  cbn [fwk eng world calls].
  match goal with
  | |- context [executeWithHealing testFunction testData ?s0] =>
      destruct (executeWithHealing_throw testFunction testData error s0 Hthrow) as (w2 & ->)
  end.
  cbn [fwk eng world calls options set_metrics]. rewrite Hon.
  match goal with
  | |- context [attemptHealing C ?e testData ?ctx ?s0] =>
      destruct (attemptHealing_calls e testData ctx s0 n Hmax) as (evs & E);
      destruct (attemptHealing C e testData ctx s0) as [[r|attempts] s3]
  end; simpl in E; rewrite finally_updateMetrics_calls; cbn [calls]; eauto.
Qed.

End WrapperFacts.

(** C1 (the code at a failing input).  The test function throws "unrelated
    syntax problem", which [isHealableError] rejects.  [executeTest] hands
    the error to the orchestrator all the same: with an unreachable language
    model it runs three analyze-and-apply cycles before it re-throws the
    error; with a model that answers in prose, the basic [wait_healing]
    candidate "succeeds" without a page, the error is swallowed, a healed
    result is returned and [healedTests] goes from 0 to 1. *)
Theorem executeTest_heals_unhealable_error :
  let error := Error "unrelated syntax problem" in
  let test := Demo.failing_test "unrelated syntax problem" in
  let down := executeTest (Demo.collaborators Demo.ai_down Demo.not_json)
                          test Demo.no_page (Demo.start None) in
  let prose := executeTest (Demo.collaborators (Demo.ai_prose "Sorry, I cannot help.")
                                               Demo.not_json)
                           test Demo.no_page (Demo.start None) in
  isHealableError error = false /\
  fst down = Throw error /\
  List.map (fun ev => match ev with
                      | CallAnalyzeError e => Some (message e)
                      | _ => None
                      end)
           (orchestrator_calls (calls (snd down)))
  = [Some "unrelated syntax problem"; None;
     Some "unrelated syntax problem"; None;
     Some "unrelated syntax problem"; None] /\
  healedTests (metrics (fwk (snd down))) = 0%Z /\
  fst prose = Return (Healed tryBasicWaitStrategies) /\
  length (orchestrator_calls (calls (snd prose))) = 2%nat /\
  List.map strategy (executed (calls (snd prose))) = ["locator_healing"; "wait_healing"] /\
  healedTests (metrics (fwk (snd prose))) = 1%Z.
Proof. cbv zeta. repeat split. Qed.

(** * Further properties of the code *)

(** ** The allow-list of healable errors *)

Lemma string_app_assoc (a b c : string) : (a +:+ b) +:+ c = a +:+ b +:+ c.
Proof.
  induction a as [|x a IH]; [reflexivity|].
  change (String x ((a +:+ b) +:+ c) = String x (a +:+ b +:+ c)). now f_equal.
Qed.

Lemma includes_trans (s p q : string) :
  includes s p = true -> includes p q = true -> includes s q = true.
Proof.
  rewrite !includes_spec. intros (a & b & ->) (c & d & ->).
  exists (a +:+ c), (d +:+ b).
  rewrite !string_app_assoc. reflexivity.
Qed.

Lemma healablePatterns_folded (p : string) :
  In p healablePatterns -> toLowerCase p = p.
Proof.
  intros H. repeat (destruct H as [<- | H]; [reflexivity|]). destruct H.
Qed.

(** X1.  [isHealableError] accepts exactly the errors whose message contains,
    in any letter case, one of the seven patterns of the allow-list. *)
Theorem isHealableError_spec (error : JsError) :
  isHealableError error = true <->
  exists pattern, In pattern healablePatterns /\ contains_ci (message error) pattern.
Proof.
  unfold isHealableError. rewrite existsb_exists. split.
  - intros (p & Hin & H). exists p. split; [exact Hin|].
    apply includes_fold. now rewrite (healablePatterns_folded p Hin).
  - intros (p & Hin & H). exists p. split; [exact Hin|].
    apply includes_fold in H. now rewrite (healablePatterns_folded p Hin) in H.
Qed.

Lemma classifyError_unknown (error : JsError) :
  classifyError error = unknown_failure ->
  forall keyword,
    In keyword ["element not found"; "selector"; "timeout"; "wait"; "not visible";
                "not clickable"; "navigation"; "page not found"; "api"; "endpoint";
                "assertion"; "expect"; "network"; "connection"] ->
    includes (toLowerCase (message error)) keyword = false.
Proof.
  unfold classifyError. intros H keyword Hin.
  repeat match type of H with
         | (if ?a || ?b then _ else _) = _ =>
             let Ea := fresh "E" in let Eb := fresh "E" in
             destruct a eqn:Ea; [discriminate H|];
             destruct b eqn:Eb; [discriminate H|]; cbn [orb] in H
         end.
  repeat (destruct Hin as [<- | Hin]; [assumption|]). destruct Hin.
Qed.

(** X2.  The allow-list and the classifier agree: an error that
    [isHealableError] accepts is never classified [unknown_failure]; wrapping
    it as a [HealableError] changes neither verdict. *)
Theorem healable_errors_are_classified (error : JsError) :
  isHealableError error = true ->
  classifyError error <> unknown_failure /\
  isHealableError (HealableError error) = true /\
  classifyError (HealableError error) = classifyError error.
Proof.
  intros H. split; [|split; [exact H | reflexivity]].
  intros Hu. pose proof (classifyError_unknown error Hu) as Hno.
  unfold isHealableError in H. apply existsb_exists in H as (p & Hin & Hp).
  assert (Hsub : exists keyword,
             In keyword ["element not found"; "selector"; "timeout"; "wait"; "not visible";
                         "not clickable"; "navigation"; "page not found"; "api"; "endpoint";
                         "assertion"; "expect"; "network"; "connection"] /\
             includes p keyword = true).
  { cbn in Hin.
    destruct Hin as [<- | [<- | [<- | [<- | [<- | [<- | [<- | []]]]]]]].
    - exists "element not found". split; [cbn; tauto | reflexivity].
    - exists "timeout". split; [cbn; tauto | reflexivity].
    - exists "selector". split; [cbn; tauto | reflexivity].
    - exists "network". split; [cbn; tauto | reflexivity].
    - exists "assertion". split; [cbn; tauto | reflexivity].
    - exists "not visible". split; [cbn; tauto | reflexivity].
    - exists "not clickable". split; [cbn; tauto | reflexivity]. }
  destruct Hsub as (keyword & Hk & Hinc).
  specialize (Hno keyword Hk).
  rewrite (includes_trans _ _ _ Hp Hinc) in Hno. discriminate.
Qed.

Lemma healable_errors_are_classified_witness :
  classifyError (Error "Selector not found: #login") <> unknown_failure.
Proof.
  apply (healable_errors_are_classified (Error "Selector not found: #login")).
  reflexivity.
Defined.

(** ** One cycle of the wrapper: analyze, then apply *)

Section Cycles.
Context {World : Type} (C : Collaborators World).

(** [analyzeError] changes nothing and is one call into the orchestrator. *)
Lemma analyzeError_effect (error : JsError) (context : Context) (sys : Sys World) :
  let sys' := snd (analyzeError C error context sys) in
  eng sys' = eng sys /\ fwk sys' = fwk sys /\
  orchestrator_calls (calls sys') = orchestrator_calls (calls sys) ++ [CallAnalyzeError error].
Proof.
  cbv zeta.
  destruct (analyzeError_value C error context sys) as (_ & _ & _ & He & Hf).
  cbv zeta in He, Hf. split; [exact He|]. split; [exact Hf|].
  unfold analyzeError. unfold bind at 1, trace at 1. cbv beta iota zeta.
  match goal with
  | |- context [bind ?m ?k ?s0] => assert (Hq : quiet (bind m k))
  end.
  { apply quiet_bind; [apply quiet_now|]. intros t0.
    apply quiet_bind; [apply quiet_generateHealingStrategies|]. intros ai.
    quiet_auto. }
  match goal with
  | |- context [bind ?m ?k ?s0] => destruct (Hq s0) as (_ & _ & evs & E & Hall)
  end.
  rewrite E. cbn [calls].
  destruct (ai_calls_invisible evs Hall) as (_ & _ & E3).
  rewrite !orchestrator_calls_app, E3, app_nil_r. reflexivity.
Qed.

(** [applyHealing] leaves the wrapper alone and is one call into the
    orchestrator. *)
Lemma applyHealing_effect (analysis : Analysis) (testData : TestData)
      (context : Context) (sys : Sys World) :
  let sys' := snd (applyHealing C analysis testData context sys) in
  fwk sys' = fwk sys /\
  orchestrator_calls (calls sys') =
    orchestrator_calls (calls sys) ++ [CallApplyHealing analysis].
Proof.
  cbv zeta. rewrite applyHealing_unfold.
  match goal with
  | |- context [applyHealing_loop C ?l testData context ?s0] =>
      pose proof (applyHealing_loop_spec C l testData context s0) as H
  end.
  cbv zeta in H.
  destruct (applyHealing_loop C _ testData context _) as [[r|] sys1]; simpl in H;
    destruct H as (Hf & Hoc & _); cbn [fst snd]; rewrite Hoc, orchestrator_calls_app;
    split; auto.
Qed.

Lemma attemptHealing_loop_cons (todo k : nat) (error : JsError) (testData : TestData)
      (context : Context) (done : list AttemptRecord) (sys : Sys World) :
  attemptHealing_loop C (S todo) k error testData context done sys =
  let (analysis, s1) := analyzeError C error context sys in
  let (result, s2) := applyHealing C analysis testData context s1 in
  if success result
  then (HealingSucceeded result,
        mkSys (eng s2)
              (push_history (fwk s2)
                 (HealedEntry (Date_now C (world s2)) (message error) analysis k))
              (world s2) (calls s2))
  else attemptHealing_loop C todo (S k) error testData context
         (done ++ [mkAttempt k (Some analysis) (res_error result)]) s2.
Proof.
  cbn [attemptHealing_loop]. unfold bind at 1.
  destruct (analyzeError C error context sys) as [analysis s1].
  unfold bind at 1.
  destruct (applyHealing C analysis testData context s1) as [result s2].
  destruct (success result); reflexivity.
Qed.

(** The cycles of [attemptHealing]: at most [todo] of them, each an
    [analyzeError] followed by an [applyHealing]; the wrapper's history gains
    one entry; giving up means that all [todo] cycles ran and failed, which
    leaves the engine as it was. *)
Lemma attemptHealing_loop_spec (todo k : nat) (error : JsError) (testData : TestData)
      (context : Context) (done : list AttemptRecord) (sys : Sys World) :
  exists out sys' analyses entry,
    attemptHealing_loop C todo k error testData context done sys = (out, sys') /\
    options (fwk sys') = options (fwk sys) /\
    metrics (fwk sys') = metrics (fwk sys) /\
    testContext (fwk sys') = testContext (fwk sys) /\
    fw_healingHistory (fwk sys') = fw_healingHistory (fwk sys) ++ [entry] /\
    (length analyses <= todo)%nat /\
    orchestrator_calls (calls sys') =
      orchestrator_calls (calls sys) ++
      flat_map (fun a => [CallAnalyzeError error; CallApplyHealing a]) analyses /\
    match out with
    | HealingSucceeded r =>
        success r = true /\ entry_success entry = true /\ analyses <> []
    | HealingGaveUp attempts =>
        length analyses = todo /\ entry_success entry = false /\
        eng sys' = eng sys /\
        List.map at_strategy attempts =
          List.map at_strategy done ++ List.map Some analyses /\
        List.map attempt attempts = List.map attempt done ++ seq k todo
    end.
Proof.
  revert k done sys. induction todo as [|todo IH]; intros k done sys.
  - eexists _, _, [], _. split; [reflexivity|].
    cbn [fwk calls eng push_history options metrics testContext fw_healingHistory
         flat_map length entry_success List.map seq].
    rewrite !app_nil_r. repeat split; auto.
  - rewrite attemptHealing_loop_cons.
    destruct (analyzeError_effect error context sys) as (He1 & Hf1 & Hc1).
    pose proof (analyzeError_value C error context sys) as _.
    destruct (analyzeError C error context sys) as [analysis s1]. cbn [snd] in *.
    destruct (applyHealing_effect analysis testData context s1) as (Hf2 & Hc2).
    pose proof (applyHealing_failure C analysis testData context s1) as Hfail.
    destruct (applyHealing C analysis testData context s1) as [result s2].
    cbn [fst snd] in *.
    destruct (success result) eqn:Hs.
    + eexists _, _, [analysis], _. split; [reflexivity|].
      cbn [fwk calls eng push_history options metrics testContext fw_healingHistory
           flat_map length entry_success].
      rewrite Hf2, Hf1, Hc2, Hc1, <- app_assoc, app_nil_r.
      repeat split; auto; try lia.
    + destruct (Hfail eq_refl) as (_ & He2 & _).
      destruct (IH (S k)
                   (done ++ [mkAttempt k (Some analysis) (res_error result)]) s2)
        as (out & sys' & analyses & entry & E & Ho & Hm & Ht & Hh & Hlen & Hoc & Hout).
      exists out, sys', (analysis :: analyses), entry. split; [exact E|].
      rewrite Ho, Hm, Ht, Hh, Hoc, Hf2, Hf1, Hc2, Hc1. cbn [flat_map length].
      rewrite <- !app_assoc. repeat split; auto; try lia.
      destruct out as [r|attempts].
      * destruct Hout as (H1 & H2 & _). repeat split; auto.
      * destruct Hout as (H1 & H2 & H3 & H4 & H5).
        rewrite H3, He2, He1, H4, H5, !List.map_app. cbn.
        rewrite <- !app_assoc. repeat split; auto; lia.
Qed.

End Cycles.

(** ** One test through the wrapper *)

Section OneTest.
Context {World : Type} (C : Collaborators World).

Lemma executeWithHealing_state (testFunction : TestFunction) (testData : TestData)
      (sys : Sys World) :
  exists completion w,
    testFunction testData (world sys) = (completion, w) /\
    executeWithHealing testFunction testData sys =
    (match completion with
     | Return r => Return r
     | Throw e => Throw (if isHealableError e then HealableError e else e)
     end,
     mkSys (eng sys) (fwk sys) w (calls sys)).
Proof.
  unfold executeWithHealing, bind, extern, ret.
  destruct (testFunction testData (world sys)) as [[r|e] w].
  - exists (Return r), w. split; reflexivity.
  - exists (Throw e), w. split; [reflexivity|]. destruct (isHealableError e); reflexivity.
Qed.

Lemma postTestAnalysis_state (result : TestResult) (sys : Sys World) :
  exists engine' w,
    postTestAnalysis C result sys = (tt, mkSys engine' (fwk sys) w (calls sys)) /\
    (engine' = eng sys \/
     exists s, tr_as_strategy result = Some s /\ engine' = updatePatterns s true (eng sys)) /\
    (enableAI (options (fwk sys)) = false -> engine' = eng sys /\ w = world sys).
Proof.
  unfold postTestAnalysis, bind, get_framework, extern, ret.
  destruct (enableAI (options (fwk sys))).
  - destruct (learnFromTest C result (testContext (fwk sys)) (world sys)) as [[[]|e] w].
    + destruct (tr_as_strategy result) as [s|] eqn:E.
      * eexists _, _. split; [reflexivity|]. split; [right; eauto | discriminate].
      * eexists _, _. split; [reflexivity|]. split; [left; reflexivity | discriminate].
    + eexists _, _. split; [reflexivity|]. split; [left; reflexivity | discriminate].
  - exists (eng sys), (world sys). destruct sys. cbn. auto.
Qed.

Lemma attemptHealing_spec (error : JsError) (testData : TestData) (context : Context)
      (sys : Sys World) :
  exists out sys' analyses entry,
    attemptHealing C error testData context sys = (out, sys') /\
    options (fwk sys') = options (fwk sys) /\
    metrics (fwk sys') = metrics (fwk sys) /\
    testContext (fwk sys') = testContext (fwk sys) /\
    fw_healingHistory (fwk sys') = fw_healingHistory (fwk sys) ++ [entry] /\
    (length analyses <= maxHealingAttempts (options (fwk sys)))%nat /\
    orchestrator_calls (calls sys') =
      orchestrator_calls (calls sys) ++
      flat_map (fun a => [CallAnalyzeError error; CallApplyHealing a]) analyses /\
    match out with
    | HealingSucceeded r =>
        success r = true /\ entry_success entry = true /\ analyses <> []
    | HealingGaveUp attempts =>
        length analyses = maxHealingAttempts (options (fwk sys)) /\
        entry_success entry = false /\
        eng sys' = eng sys /\
        List.map at_strategy attempts = List.map Some analyses /\
        List.map attempt attempts = seq 1 (maxHealingAttempts (options (fwk sys)))
    end.
Proof.
  unfold attemptHealing, bind, get_framework.
  apply (attemptHealing_loop_spec C (maxHealingAttempts (options (fwk sys))) 1 error
           testData (merge_context (testContext (fwk sys)) context) [] sys).
Qed.

(** Everything [executeTest] does, by what the test function did.  [w1] is
    the world in which the test function ran. *)
Lemma executeTest_spec (testFunction : TestFunction) (testData : TestData)
      (sys : Sys World) :
  exists w1 completion w2 out sys',
    testFunction testData w1 = (completion, w2) /\
    executeTest C testFunction testData sys = (out, sys') /\
    options (fwk sys') = options (fwk sys) /\
    testContext (fwk sys') = testContext (fwk sys) /\
    totalTests (metrics (fwk sys')) = (totalTests (metrics (fwk sys)) + 1)%Z /\
    healingSuccessRate (metrics (fwk sys')) =
      inject_Z (healedTests (metrics (fwk sys'))) /
      inject_Z (totalTests (metrics (fwk sys'))) * 100 /\
    match completion with
    | Return result =>
        out = Return (Passed result) /\
        healedTests (metrics (fwk sys')) = healedTests (metrics (fwk sys)) /\
        fw_healingHistory (fwk sys') = fw_healingHistory (fwk sys) /\
        calls sys' = calls sys /\
        (eng sys' = eng sys \/
         exists s, tr_as_strategy result = Some s /\
                   eng sys' = updatePatterns s true (eng sys)) /\
        (enableAI (options (fwk sys)) = false -> eng sys' = eng sys)
    | Throw e =>
        let caught := if isHealableError e then HealableError e else e in
        if enableHealing (options (fwk sys)) then
          exists analyses entry,
            (length analyses <= maxHealingAttempts (options (fwk sys)))%nat /\
            orchestrator_calls (calls sys') =
              orchestrator_calls (calls sys) ++
              flat_map (fun a => [CallAnalyzeError caught; CallApplyHealing a]) analyses /\
            fw_healingHistory (fwk sys') = fw_healingHistory (fwk sys) ++ [entry] /\
            ((exists r, out = Return (Healed r) /\ success r = true /\
                        analyses <> [] /\ entry_success entry = true /\
                        healedTests (metrics (fwk sys')) =
                          (healedTests (metrics (fwk sys)) + 1)%Z) \/
             (out = Throw caught /\
              length analyses = maxHealingAttempts (options (fwk sys)) /\
              entry_success entry = false /\
              eng sys' = eng sys /\
              healedTests (metrics (fwk sys')) = healedTests (metrics (fwk sys))))
        else
          out = Throw caught /\
          healedTests (metrics (fwk sys')) = healedTests (metrics (fwk sys)) /\
          fw_healingHistory (fwk sys') = fw_healingHistory (fwk sys) /\
          calls sys' = calls sys /\ eng sys' = eng sys
    end.
Proof.
  unfold executeTest, bind, now, get_framework, put_framework. cbn [fwk eng world calls].
  match goal with
  | |- context [preTestAnalysis C testData ?s0] =>
      destruct (preTestAnalysis_state C testData s0) as (w1 & ->)
  end.
  cbn [fwk eng world calls].
  match goal with
  | |- context [executeWithHealing testFunction testData ?s0] =>
      destruct (executeWithHealing_state testFunction testData s0)
        as (completion & w2 & Htf & ->)
  end.
  cbn [world] in Htf. exists w1, completion, w2.
  destruct completion as [result|e]; cbv iota.
  - match goal with
    | |- context [postTestAnalysis C result ?s0] =>
        destruct (postTestAnalysis_state result s0) as (engine' & w3 & -> & Hpat & Hoff)
    end.
    cbn [fwk eng world calls options set_metrics] in *.
    eexists _, _. split; [exact Htf|]. split; [reflexivity|].
    cbn. repeat split; auto. intros Hai. now destruct (Hoff Hai).
  - cbn [fwk options set_metrics].
    destruct (enableHealing (options (fwk sys))) eqn:Hon.
    + match goal with
      | |- context [attemptHealing C ?err testData ?ctx ?s0] =>
          destruct (attemptHealing_spec err testData ctx s0)
            as (o & s3 & analyses & entry & -> & Ho & Hm & Ht & Hh & Hlen & Hoc & Hout)
      end.
      cbn [fwk eng world calls options set_metrics metrics testContext fw_healingHistory] in *.
      destruct o as [r|attempts].
      * destruct Hout as (Hs & Hentry & Hne).
        eexists _, _. split; [exact Htf|]. split; [reflexivity|].
        cbn. rewrite Ho, Ht, Hm. cbn. repeat split; auto.
        exists analyses, entry. repeat split; auto.
        left. exists r. repeat split; auto.
      * destruct Hout as (Hall & Hentry & He & _).
        eexists _, _. split; [exact Htf|]. split; [reflexivity|].
        cbn. rewrite Ho, Ht, Hm. cbn. repeat split; auto.
        exists analyses, entry. repeat split; auto.
        right. repeat split; auto.
    + eexists _, _. split; [exact Htf|]. split; [reflexivity|].
      cbn. repeat split; auto.
Qed.

End OneTest.

Lemma ratio_bounds (a b : Z) :
  (0 <= a <= b)%Z -> (0 < b)%Z ->
  0 <= inject_Z a / inject_Z b /\ inject_Z a / inject_Z b <= 1.
Proof.
  intros [Ha Hab] Hb.
  assert (Hb' : 0 < inject_Z b) by (change 0 with (inject_Z 0); now rewrite <- Zlt_Qlt).
  split.
  - apply Qle_shift_div_l; [exact Hb'|]. rewrite Qmult_0_l.
    change 0 with (inject_Z 0). now rewrite <- Zle_Qle.
  - apply Qle_shift_div_r; [exact Hb'|]. rewrite Qmult_1_l. now rewrite <- Zle_Qle.
Qed.

(** ** The cycles of [attemptHealing], event by event *)

Lemma Forall_combine_snd {A B} (P : B -> Prop) (l : list A) (k : list B) :
  Forall P k -> Forall (fun x => P (snd x)) (combine l k).
Proof.
  intros H. revert l. induction H as [|y k Hy _ IH]; intros [|x l]; cbn; constructor; auto.
Qed.

Section CycleTraces.
Context {World : Type} (C : Collaborators World).

Lemma quiet_dispatchStrategy (s : Strategy) (testData : TestData) (context : Context) :
  quiet (dispatchStrategy C (toLowerCase (strategy s)) s testData context).
Proof.
  unfold dispatchStrategy.
  repeat match goal with
         | |- quiet (if ?b then _ else _) => destruct b
         end;
    first [ apply quiet_run_api
          | apply quiet_executeCustomStrategy
          | apply quiet_bind;
            [ first [ exact (quiet_ui_heal C LocatorIssue s testData context)
                    | exact (quiet_ui_heal C WaitIssue s testData context)
                    | exact (quiet_ui_heal C ElementStateIssue s testData context)
                    | exact (quiet_ui_heal C NavigationIssue s testData context)
                    | apply quiet_healDataIssue ]
            | intros; apply quiet_ret ] ].
Qed.

(** One execution on the trace: the call, calls to the language model, and
    what came back. *)
Lemma executeHealingStrategy_trace (s : Strategy) (testData : TestData)
      (context : Context) (sys : Sys World) :
  exists evs,
    calls (snd (executeHealingStrategy C s testData context sys)) =
      calls sys ++ CallExecuteStrategy s :: evs ++
      [StrategyReturned s (fst (executeHealingStrategy C s testData context sys))] /\
    Forall is_ai_call evs.
Proof.
  unfold executeHealingStrategy, bind, trace, ret. cbv zeta.
  match goal with
  | |- context [dispatchStrategy _ _ _ _ _ ?s0] => set (sys0 := s0)
  end.
  destruct (quiet_dispatchStrategy s testData context sys0) as (_ & _ & evs & E & Hall).
  destruct (dispatchStrategy _ _ _ _ _ sys0) as [result sys1]. cbn [fst snd calls] in *.
  exists evs. split; [|exact Hall]. rewrite E. subst sys0. cbn [calls].
  now rewrite <- !app_assoc.
Qed.

(** A loop that heals ends with the healing execution coming back. *)
Lemma applyHealing_loop_last (strategies : list Strategy) (testData : TestData)
      (context : Context) (sys : Sys World) (r : HealResult) :
  fst (applyHealing_loop C strategies testData context sys) = Some r ->
  exists evs sk,
    calls (snd (applyHealing_loop C strategies testData context sys)) =
    calls sys ++ evs ++ [StrategyReturned sk (Some r)].
Proof.
  revert sys. induction strategies as [|s rest IH]; intros sys; [discriminate|].
  rewrite applyHealing_loop_cons.
  destruct (executeHealingStrategy_trace s testData context sys) as (evs & E & _).
  destruct (executeHealingStrategy C s testData context sys) as [result sys1].
  cbn [fst snd] in E.
  assert (Hnext :
            fst (applyHealing_loop C rest testData context sys1) = Some r ->
            exists evs' sk,
              calls (snd (applyHealing_loop C rest testData context sys1)) =
              calls sys ++ evs' ++ [StrategyReturned sk (Some r)]).
  { intros H. destruct (IH sys1 H) as (evs' & sk & E').
    exists ((CallExecuteStrategy s :: evs ++ [StrategyReturned s result]) ++ evs'), sk.
    rewrite E', E. now rewrite <- !app_assoc. }
  destruct result as [r0|]; [|exact Hnext].
  destruct (success r0) eqn:Hs; [|exact Hnext].
  cbn [fst snd calls]. intros [= <-].
  exists (CallExecuteStrategy s :: evs), s. rewrite E. reflexivity.
Qed.

(** One call to [applyHealing], by its result. *)
Lemma applyHealing_cycle (analysis : Analysis) (testData : TestData)
      (context : Context) (sys : Sys World) :
  let result := fst (applyHealing C analysis testData context sys) in
  let sys' := snd (applyHealing C analysis testData context sys) in
  fwk sys' = fwk sys /\
  orchestrator_calls (calls sys') =
    orchestrator_calls (calls sys) ++ [CallApplyHealing analysis] /\
  exists added evs,
    executions (calls sys') = executions (calls sys) ++ added /\
    calls sys' = calls sys ++ evs /\
    if success result then
      exists failed sk evs' t,
        In sk (an_strategies analysis) /\
        added = failed ++ [(sk, Some result)] /\
        Forall (fun x => not_healed (snd x)) failed /\
        evs = evs' ++ [StrategyReturned sk (Some result)] /\
        eng sys' = recordSuccessfulHealing sk result t (eng sys)
    else
      result = all_failed (an_strategies analysis) /\
      Forall (fun x => not_healed (snd x)) added /\
      List.map fst added = an_strategies analysis /\
      eng sys' = eng sys.
Proof.
  cbv zeta.
  destruct (applyHealing_effect C analysis testData context sys) as (Hf & Hoc).
  split; [exact Hf|]. split; [exact Hoc|]. clear Hf Hoc.
  rewrite applyHealing_unfold.
  match goal with
  | |- context [applyHealing_loop C ?l testData context ?s0] =>
      pose proof (applyHealing_loop_spec C l testData context s0) as H;
      pose proof (applyHealing_loop_last l testData context s0) as Hlast;
      destruct (appends_applyHealing_loop C l testData context s0) as (evs0 & Hraw)
  end.
  cbv zeta in H.
  destruct (applyHealing_loop C _ testData context _) as [[r|] sys1];
    cbn [fst snd eng calls] in *; destruct H as (_ & _ & H).
  - destruct H as (Hs & pre & sk & post & results & Hsplit & Hlen & Hall & _ & E2 & t & E3).
    destruct (Hlast r eq_refl) as (evs & sk' & Hc).
    rewrite Hs.
    assert (Hex : executions evs ++ [(sk', Some r)] = combine pre results ++ [(sk, Some r)]).
    { pose proof E2 as E2'. rewrite Hc in E2'. rewrite !executions_app in E2'.
      cbn [executions flat_map app] in E2'.
      now apply app_inv_head in E2'. }
    apply app_inj_tail in Hex as [_ Hsk]. injection Hsk as ->.
    exists (combine pre results ++ [(sk, Some r)]),
           (CallApplyHealing analysis :: evs ++ [StrategyReturned sk (Some r)]).
    split; [|split].
    + rewrite E2, executions_app. cbn [executions flat_map app]. now rewrite app_nil_r.
    + rewrite Hc. now rewrite <- app_assoc.
    + exists (combine pre results), sk, (CallApplyHealing analysis :: evs), t.
      split; [rewrite Hsplit; apply in_or_app; right; now left|].
      split; [reflexivity|].
      split; [now apply Forall_combine_snd|].
      split; [reflexivity | exact E3].
  - destruct H as (results & Hlen & Hall & _ & E2 & E3).
    cbn [all_failed success].
    exists (combine (an_strategies analysis) results), (CallApplyHealing analysis :: evs0).
    split; [|split].
    + rewrite E2, executions_app. cbn [executions flat_map app]. now rewrite app_nil_r.
    + rewrite Hraw. now rewrite <- app_assoc.
    + split; [reflexivity|]. split; [now apply Forall_combine_snd|].
      split; [now apply map_fst_combine | exact E3].
Qed.

(** [analyzeError] on the trace: its own call and calls to the language
    model. *)
Lemma analyzeError_trace (error : JsError) (context : Context) (sys : Sys World) :
  let sys' := snd (analyzeError C error context sys) in
  eng sys' = eng sys /\ fwk sys' = fwk sys /\
  executions (calls sys') = executions (calls sys) /\
  exists evs, calls sys' = calls sys ++ evs.
Proof.
  cbv zeta.
  destruct (analyzeError_effect C error context sys) as (He & Hf & _).
  split; [exact He|]. split; [exact Hf|].
  split; [|destruct (analyzeError_calls C error context sys) as (evs0 & Hraw); eauto].
  unfold analyzeError. unfold bind at 1, trace at 1. cbv beta iota zeta.
  match goal with
  | |- context [bind ?m ?k ?s0] => assert (Hq : quiet (bind m k))
  end.
  { apply quiet_bind; [apply quiet_now|]. intros t0.
    apply quiet_bind; [apply quiet_generateHealingStrategies|]. intros ai.
    quiet_auto. }
  match goal with
  | |- context [bind ?m ?k ?s0] => destruct (Hq s0) as (_ & _ & evs & E & Hall)
  end.
  rewrite E. cbn [calls].
  destruct (ai_calls_invisible evs Hall) as (_ & E2 & _).
  rewrite !executions_app, E2. cbn. now rewrite !app_nil_r.
Qed.

(** The cycles of [attemptHealing], with what each of them executed. *)
Lemma attemptHealing_loop_outcome (todo k : nat) (error : JsError) (testData : TestData)
      (context : Context) (done : list AttemptRecord) (sys : Sys World) :
  exists out sys' analyses added,
    attemptHealing_loop C todo k error testData context done sys = (out, sys') /\
    metrics (fwk sys') = metrics (fwk sys) /\
    (length analyses <= todo)%nat /\
    orchestrator_calls (calls sys') =
      orchestrator_calls (calls sys) ++
      flat_map (fun a => [CallAnalyzeError error; CallApplyHealing a]) analyses /\
    executions (calls sys') = executions (calls sys) ++ added /\
    match out with
    | HealingSucceeded r =>
        success r = true /\
        exists earlier a failed sk evs t t',
          analyses = earlier ++ [a] /\
          In sk (an_strategies a) /\
          added = failed ++ [(sk, Some r)] /\
          Forall (fun x => not_healed (snd x)) failed /\
          calls sys' = calls sys ++ evs ++ [StrategyReturned sk (Some r)] /\
          eng sys' = recordSuccessfulHealing sk r t (eng sys) /\
          fw_healingHistory (fwk sys') =
            fw_healingHistory (fwk sys) ++
            [HealedEntry t' (message error) a (k + length earlier)]
    | HealingGaveUp attempts =>
        length analyses = todo /\
        eng sys' = eng sys /\
        Forall (fun x => not_healed (snd x)) added /\
        List.map fst added = flat_map an_strategies analyses /\
        List.map attempt attempts = List.map attempt done ++ seq k todo /\
        List.map at_strategy attempts =
          List.map at_strategy done ++ List.map Some analyses /\
        List.map at_error attempts =
          List.map at_error done ++
          List.map (fun _ => Some "All healing strategies failed") analyses /\
        exists t',
          fw_healingHistory (fwk sys') =
            fw_healingHistory (fwk sys) ++ [FailedEntry t' (message error) attempts]
    end.
Proof.
  revert k done sys. induction todo as [|todo IH]; intros k done sys.
  - eexists _, _, [], []. split; [reflexivity|].
    cbn [fwk calls eng push_history options metrics testContext fw_healingHistory
         flat_map length List.map seq].
    rewrite !app_nil_r. repeat split; auto. eexists. reflexivity.
  - rewrite attemptHealing_loop_cons.
    destruct (analyzeError_effect C error context sys) as (_ & _ & Hc1).
    destruct (analyzeError_trace error context sys) as (He1 & Hf1 & Hx1 & evs1 & Hr1).
    destruct (analyzeError C error context sys) as [analysis s1]. cbn [snd] in *.
    destruct (applyHealing_cycle analysis testData context s1)
      as (Hf2 & Hc2 & added2 & evs2 & Hx2 & Hr2 & Hcase).
    destruct (applyHealing C analysis testData context s1) as [result s2].
    cbn [fst snd] in *.
    destruct (success result) eqn:Hs.
    + destruct Hcase as (failed & sk & evs' & t & Hin & -> & Hall & -> & He2).
      eexists _, _, [analysis], _. split; [reflexivity|].
      cbn [fwk calls eng push_history options metrics testContext fw_healingHistory
           flat_map length].
      rewrite Hf2, Hf1, Hc2, Hc1, Hx2, Hx1, <- app_assoc, app_nil_r.
      split; [reflexivity|]. split; [lia|]. split; [reflexivity|]. split; [reflexivity|].
      split; [exact Hs|].
      exists [], analysis, failed, sk, (evs1 ++ evs'), t, (Date_now C (world s2)).
      cbn [app length]. rewrite Nat.add_0_r.
      split; [reflexivity|]. split; [exact Hin|]. split; [reflexivity|].
      split; [exact Hall|].
      split; [rewrite Hr2, Hr1; now rewrite <- !app_assoc|].
      split; [now rewrite He2, He1 | reflexivity].
    + destruct Hcase as (Hres & Hall2 & Hfst2 & He2).
      destruct (IH (S k)
                   (done ++ [mkAttempt k (Some analysis) (res_error result)]) s2)
        as (out & sys' & analyses & added & E & Hm & Hlen & Hoc & Hx & Hout).
      exists out, sys', (analysis :: analyses), (added2 ++ added).
      split; [exact E|].
      rewrite Hm, Hoc, Hx, Hf2, Hf1, Hc2, Hc1, Hx2, Hx1. cbn [flat_map length].
      rewrite <- !app_assoc.
      split; [reflexivity|]. split; [lia|]. split; [reflexivity|]. split; [reflexivity|].
      destruct out as [r|attempts].
      * destruct Hout as (Hr & earlier & a & failed & sk & evs & t & t' &
                          -> & Hin & -> & Hall & Hraw & He & Hh).
        split; [exact Hr|].
        exists (analysis :: earlier), a, (added2 ++ failed), sk,
               (evs1 ++ evs2 ++ evs), t, t'.
        split; [reflexivity|]. split; [exact Hin|].
        split; [now rewrite <- app_assoc|].
        split; [apply Forall_app; split; assumption|].
        split; [rewrite Hraw, Hr2, Hr1; now rewrite <- !app_assoc|].
        split; [now rewrite He, He2, He1|].
        rewrite Hh, Hf2, Hf1. cbn [length].
        replace (S k + length earlier)%nat with (k + S (length earlier))%nat by lia.
        reflexivity.
      * destruct Hout as (Hall & He & Hnh & Hfst & Hnum & Hstr & Herr & t' & Hh).
        split; [lia|]. split; [now rewrite He, He2, He1|].
        split; [apply Forall_app; split; assumption|].
        split; [rewrite List.map_app, Hfst, Hfst2; reflexivity|].
        split; [rewrite Hnum, List.map_app; cbn; now rewrite <- app_assoc|].
        split; [rewrite Hstr, List.map_app; cbn; now rewrite <- app_assoc|].
        split; [rewrite Herr, List.map_app, Hres; cbn; now rewrite <- app_assoc|].
        exists t'. now rewrite Hh, Hf2, Hf1.
Qed.

End CycleTraces.

Section WrapperProperties.
Context {World : Type} (C : Collaborators World).

(** X3.  When the test function throws, [executeTest] counts the test and
    then either returns a healing result whose [success] is true (only with
    healing enabled), counting one more healed test, or throws and leaves the
    healed count alone.  What it throws has the message and the stack of the
    test's error; it is the test's error itself when the error is not
    healable, and an error named [HealableError] when it is. *)
Theorem executeTest_on_a_throwing_test
        (testFunction : TestFunction) (testData : TestData) (sys : Sys World)
        (error : JsError) :
  (forall w, fst (testFunction testData w) = Throw error) ->
  let out := fst (executeTest C testFunction testData sys) in
  let after := metrics (fwk (snd (executeTest C testFunction testData sys))) in
  let caught := if isHealableError error then HealableError error else error in
  totalTests after = (totalTests (metrics (fwk sys)) + 1)%Z /\
  ((exists r, out = Return (Healed r) /\ success r = true /\
              enableHealing (options (fwk sys)) = true /\
              healedTests after = (healedTests (metrics (fwk sys)) + 1)%Z) \/
   (out = Throw caught /\ healedTests after = healedTests (metrics (fwk sys)))) /\
  message caught = message error /\ stack caught = stack error /\
  (isHealableError error = false -> caught = error) /\
  (isHealableError error = true -> err_name caught = "HealableError").
Proof.
  intros Hthrow. cbv zeta.
  destruct (executeTest_spec C testFunction testData sys)
    as (w1 & completion & w2 & out & sys' & Htf & -> & _ & _ & Htot & _ & Hcase).
  specialize (Hthrow w1). rewrite Htf in Hthrow. cbn [fst snd] in *. subst completion.
  cbv zeta in Hcase. split; [exact Htot|]. split.
  - destruct (enableHealing (options (fwk sys))).
    + destruct Hcase as (analyses & entry & _ & _ & _ & [(r & -> & Hs & _ & _ & Hh) | (-> & _ & _ & _ & Hh)]).
      * left. exists r. auto.
      * right. auto.
    + destruct Hcase as (-> & Hh & _). right. auto.
  - destruct (isHealableError error); repeat split; auto; discriminate.
Qed.

(** X4.  With healing disabled, a throwing test is counted and its error is
    thrown on; the orchestrator is not called, the engine and the wrapper's
    history are untouched and no test is counted as healed. *)
Theorem executeTest_with_healing_disabled
        (testFunction : TestFunction) (testData : TestData) (sys : Sys World)
        (error : JsError) :
  enableHealing (options (fwk sys)) = false ->
  (forall w, fst (testFunction testData w) = Throw error) ->
  let out := fst (executeTest C testFunction testData sys) in
  let sys' := snd (executeTest C testFunction testData sys) in
  out = Throw (if isHealableError error then HealableError error else error) /\
  calls sys' = calls sys /\
  eng sys' = eng sys /\
  fw_healingHistory (fwk sys') = fw_healingHistory (fwk sys) /\
  healedTests (metrics (fwk sys')) = healedTests (metrics (fwk sys)) /\
  totalTests (metrics (fwk sys')) = (totalTests (metrics (fwk sys)) + 1)%Z.
Proof.
  intros Hoff Hthrow. cbv zeta.
  destruct (executeTest_spec C testFunction testData sys)
    as (w1 & completion & w2 & out & sys' & Htf & -> & _ & _ & Htot & _ & Hcase).
  specialize (Hthrow w1). rewrite Htf in Hthrow. cbn [fst snd] in *. subst completion.
  cbv zeta in Hcase. rewrite Hoff in Hcase.
  destruct Hcase as (-> & Hh & Hhist & Hc & He). auto 10.
Qed.

(** X5.  When the test function returns, [executeTest] returns that result
    and counts the test; the orchestrator is not called, no test is counted as
    healed, the wrapper's history, the success rates and the healing history
    are untouched, and with the AI switched off so is the whole engine. *)
Theorem executeTest_on_a_passing_test
        (testFunction : TestFunction) (testData : TestData) (sys : Sys World)
        (result : TestResult) :
  (forall w, fst (testFunction testData w) = Return result) ->
  let out := fst (executeTest C testFunction testData sys) in
  let sys' := snd (executeTest C testFunction testData sys) in
  out = Return (Passed result) /\
  calls sys' = calls sys /\
  totalTests (metrics (fwk sys')) = (totalTests (metrics (fwk sys)) + 1)%Z /\
  healedTests (metrics (fwk sys')) = healedTests (metrics (fwk sys)) /\
  fw_healingHistory (fwk sys') = fw_healingHistory (fwk sys) /\
  successRates (eng sys') = successRates (eng sys) /\
  healingHistory (eng sys') = healingHistory (eng sys) /\
  (enableAI (options (fwk sys)) = false -> eng sys' = eng sys).
Proof.
  intros Hret. cbv zeta.
  destruct (executeTest_spec C testFunction testData sys)
    as (w1 & completion & w2 & out & sys' & Htf & -> & _ & _ & Htot & _ & Hcase).
  specialize (Hret w1). rewrite Htf in Hret. cbn [fst snd] in *. subst completion.
  destruct Hcase as (-> & Hh & Hhist & Hc & Hpat & Hoff).
  repeat split; auto.
  - destruct Hpat as [-> | (s & _ & ->)]; [reflexivity|].
    apply updatePatterns_successRates.
  - destruct Hpat as [-> | (s & _ & ->)]; [reflexivity|].
    apply updatePatterns_healingHistory.
Qed.

(** X6.  [attemptHealing] runs at most [maxHealingAttempts] cycles, each one
    [analyzeError] followed by one [applyHealing] on the same error, and adds
    exactly one entry to the wrapper's history.  It stops at the first cycle
    whose result has [success] true: every execution before the healing one
    came back without success, the healing execution is the last event of the
    trace and its result, from a strategy of the last analysis, is what is
    returned; that one success is recorded in the engine, and the history
    entry carries the last analysis and the number of the cycle.  When it
    gives up, all [maxHealingAttempts] cycles have run, each executed all the
    strategies of its analysis without success and is recorded with the error
    'All healing strategies failed', the attempts are numbered 1, 2, ... and
    the engine is as before.  With [maxHealingAttempts] 0 it gives up without
    calling the orchestrator. *)
Theorem attemptHealing_cycles
        (error : JsError) (testData : TestData) (context : Context) (sys : Sys World) :
  let out := fst (attemptHealing C error testData context sys) in
  let sys' := snd (attemptHealing C error testData context sys) in
  let limit := maxHealingAttempts (options (fwk sys)) in
  exists analyses,
    (length analyses <= limit)%nat /\
    orchestrator_calls (calls sys') =
      orchestrator_calls (calls sys) ++
      flat_map (fun a => [CallAnalyzeError error; CallApplyHealing a]) analyses /\
    length (fw_healingHistory (fwk sys')) = S (length (fw_healingHistory (fwk sys))) /\
    metrics (fwk sys') = metrics (fwk sys) /\
    match out with
    | HealingSucceeded r =>
        success r = true /\ analyses <> [] /\
        exists earlier a failed sk evs t t',
          analyses = earlier ++ [a] /\
          In sk (an_strategies a) /\
          executions (calls sys') = executions (calls sys) ++ failed ++ [(sk, Some r)] /\
          Forall (fun x => not_healed (snd x)) failed /\
          calls sys' = calls sys ++ evs ++ [StrategyReturned sk (Some r)] /\
          eng sys' = recordSuccessfulHealing sk r t (eng sys) /\
          fw_healingHistory (fwk sys') =
            fw_healingHistory (fwk sys) ++
            [HealedEntry t' (message error) a (length analyses)]
    | HealingGaveUp attempts =>
        length analyses = limit /\ eng sys' = eng sys /\
        List.map attempt attempts = seq 1 limit /\
        List.map at_strategy attempts = List.map Some analyses /\
        Forall (fun a => at_error a = Some "All healing strategies failed") attempts /\
        exists added t',
          executions (calls sys') = executions (calls sys) ++ added /\
          Forall (fun x => not_healed (snd x)) added /\
          List.map fst added = flat_map an_strategies analyses /\
          fw_healingHistory (fwk sys') =
            fw_healingHistory (fwk sys) ++ [FailedEntry t' (message error) attempts]
    end.
Proof.
  cbv zeta. unfold attemptHealing, bind, get_framework.
  destruct (attemptHealing_loop_outcome C (maxHealingAttempts (options (fwk sys))) 1 error
              testData (merge_context (testContext (fwk sys)) context) [] sys)
    as (out & sys' & analyses & added & -> & Hm & Hlen & Hoc & Hx & Hout).
  cbn [fst snd]. exists analyses.
  split; [exact Hlen|]. split; [exact Hoc|].
  destruct out as [r|attempts].
  - destruct Hout as (Hs & earlier & a & failed & sk & evs & t & t' &
                      -> & Hin & -> & Hall & Hraw & He & Hh).
    split; [rewrite Hh, length_app; cbn [length]; lia|]. split; [exact Hm|].
    split; [exact Hs|]. split; [now destruct earlier|].
    exists earlier, a, failed, sk, evs, t, t'.
    repeat split; auto.
    rewrite Hh, length_app. cbn [length].
    replace (length earlier + 1)%nat with (1 + length earlier)%nat by lia. reflexivity.
  - destruct Hout as (Hall & He & Hnh & Hfst & Hnum & Hstr & Herr & t' & Hh).
    split; [rewrite Hh, length_app; cbn [length]; lia|]. split; [exact Hm|].
    split; [exact Hall|]. split; [exact He|]. split; [exact Hnum|]. split; [exact Hstr|].
    split.
    + cbn [List.map app] in Herr. clear - Herr.
      revert analyses Herr. induction attempts as [|x attempts IH]; intros [|a analyses] H;
        try discriminate; constructor.
      * now injection H.
      * injection H as _ H. now apply (IH analyses).
    + exists added, t'. repeat split; auto.
Qed.

(** X7.  [executeTest] keeps the metrics consistent, whatever the test
    function does: if the healed tests are the healed entries of the
    wrapper's history and no more than the tests, this still holds afterwards;
    the success rate it stores is healed / total * 100, between 0 and 100;
    and [getMetrics] reports as many successful healings as healed tests. *)
Theorem executeTest_keeps_metrics_consistent
        (testFunction : TestFunction) (testData : TestData) (sys : Sys World) :
  wrapper_ok (fwk sys) ->
  let after := fwk (snd (executeTest C testFunction testData sys)) in
  wrapper_ok after /\
  (0 < totalTests (metrics after))%Z /\
  healingSuccessRate (metrics after) ==
    inject_Z (healedTests (metrics after)) / inject_Z (totalTests (metrics after)) * 100 /\
  0 <= healingSuccessRate (metrics after) /\ healingSuccessRate (metrics after) <= 100 /\
  Z.of_nat (rep_successfulHealings (getMetrics after)) = healedTests (metrics after).
Proof.
  intros [Hcount Hle]. cbv zeta.
  destruct (executeTest_spec C testFunction testData sys)
    as (w1 & completion & w2 & out & sys' & _ & -> & _ & _ & Htot & Hrate & Hcase).
  cbn [fst snd].
  assert (Hok : healedTests (metrics (fwk sys')) =
                  Z.of_nat (length (List.filter entry_success (fw_healingHistory (fwk sys'))))
                /\ (healedTests (metrics (fwk sys')) <= totalTests (metrics (fwk sys')))%Z).
  { destruct completion as [result|e].
    - destruct Hcase as (_ & Hh & Hhist & _). rewrite Hh, Hhist, Htot. split; [exact Hcount | lia].
    - cbv zeta in Hcase. destruct (enableHealing (options (fwk sys))).
      + destruct Hcase as (analyses & entry & _ & _ & Hhist &
                           [(r & _ & _ & _ & Hentry & Hh) | (_ & _ & Hentry & _ & Hh)]);
          rewrite Hh, Hhist, Htot, List.filter_app, length_app; cbn [List.filter];
          rewrite Hentry; cbn [length]; split; lia.
      + destruct Hcase as (_ & Hh & Hhist & _). rewrite Hh, Hhist, Htot.
        split; [exact Hcount | lia]. }
  destruct Hok as [Hcount' Hle'].
  assert (Hpos : (0 < totalTests (metrics (fwk sys')))%Z) by lia.
  assert (Hnn : (0 <= healedTests (metrics (fwk sys')))%Z) by lia.
  destruct (ratio_bounds _ _ (conj Hnn Hle') Hpos) as [H0 H1].
  split; [split; assumption|]. split; [exact Hpos|].
  rewrite Hrate. split; [reflexivity|].
  split; [|split].
  - apply Qmult_le_0_compat; [exact H0 | discriminate].
  - apply Qle_trans with (1 * 100); [|discriminate].
    apply Qmult_le_compat_r; [exact H1 | discriminate].
  - cbn [getMetrics rep_successfulHealings]. now rewrite Hcount'.
Qed.

End WrapperProperties.

Lemma executeTest_on_a_throwing_test_witness :
  totalTests (metrics (fwk (snd (executeTest Samples.collaborators
                                   (Demo.failing_test "timeout after 30s") Demo.no_page
                                   (Demo.start None))))) = 1%Z.
Proof.
  apply (executeTest_on_a_throwing_test Samples.collaborators
           (Demo.failing_test "timeout after 30s") Demo.no_page (Demo.start None)
           (Error "timeout after 30s")).
  intros w. reflexivity.
Defined.

Lemma executeTest_with_healing_disabled_witness :
  calls (snd (executeTest Samples.collaborators (Demo.failing_test "timeout after 30s")
                Demo.no_page Samples.healing_off)) = [].
Proof.
  apply (executeTest_with_healing_disabled Samples.collaborators
           (Demo.failing_test "timeout after 30s") Demo.no_page Samples.healing_off
           (Error "timeout after 30s")).
  - reflexivity.
  - intros w. reflexivity.
Defined.

Lemma executeTest_on_a_passing_test_witness :
  fst (executeTest Samples.collaborators Samples.passing_test Demo.no_page (Demo.start None))
  = Return (Passed (mkTestResult true None)).
Proof.
  apply (executeTest_on_a_passing_test Samples.collaborators Samples.passing_test
           Demo.no_page (Demo.start None) (mkTestResult true None)).
  intros w. reflexivity.
Defined.

Lemma executeTest_keeps_metrics_consistent_witness :
  wrapper_ok (fwk (snd (executeTest
                          (Demo.collaborators (Demo.ai_prose "Sorry, I cannot help.")
                                              Demo.not_json)
                          (Demo.failing_test "timeout after 30s") Demo.no_page
                          (Demo.start None)))).
Proof.
  apply (executeTest_keeps_metrics_consistent
           (Demo.collaborators (Demo.ai_prose "Sorry, I cannot help.") Demo.not_json)
           (Demo.failing_test "timeout after 30s") Demo.no_page (Demo.start None)).
  split; [reflexivity | cbn; lia].
Defined.

(** ** The learning state stays well formed *)

Lemma learned_ok_new_engine : learned_ok new_engine.
Proof.
  split; [|split].
  - intros key p H. cbn [patterns new_engine] in H. rewrite lookup_empty in H. discriminate.
  - intros key r H. cbn [successRates new_engine] in H. rewrite lookup_empty in H.
    discriminate.
  - constructor.
Qed.

(** The entry of an updated pattern, spelled out. *)
Lemma updatePatterns_entry (s : Strategy) (b : bool) (engine : HealingEngine) :
  let before :=
    default (mkPattern (strategy s) (description s) (implementation s) 0 0 (1 # 2))
            (patterns engine !! strategy s) in
  let total := (totalCount before + 1)%Z in
  let succ := (if b then successCount before + 1 else successCount before)%Z in
  patterns (updatePatterns s b engine) !! strategy s =
  Some (mkPattern (name before) (pat_description before) (pat_implementation before)
                  succ total (inject_Z succ / inject_Z total)).
Proof.
  cbv zeta. unfold updatePatterns.
  destruct (patterns engine !! strategy s) as [p|] eqn:E; cbv zeta.
  - rewrite E. cbn [patterns]. now rewrite lookup_insert_eq.
  - rewrite lookup_insert_eq. cbn [patterns]. now rewrite lookup_insert_eq.
Qed.

Lemma learned_ok_updatePatterns (s : Strategy) (b : bool) (engine : HealingEngine) :
  learned_ok engine -> learned_ok (updatePatterns s b engine).
Proof.
  intros (Hpat & Hrate & Hhist). split; [|split].
  - intros key p Hkey. destruct (String.eqb_spec key (strategy s)) as [-> | Hne].
    + rewrite updatePatterns_entry in Hkey. injection Hkey as <-.
      destruct (patterns engine !! strategy s) as [p0|] eqn:E; cbn.
      * destruct (Hpat _ _ E) as (Hn & Hc & Ht & _).
        unfold pattern_ok.
        destruct b; cbn; (split; [exact Hn|]; split; [lia|]; split; [lia | reflexivity]).
      * unfold pattern_ok.
        destruct b; cbn; (split; [reflexivity|]; split; [lia|]; split; [lia | reflexivity]).
    + rewrite updatePatterns_other in Hkey by exact Hne. eauto.
  - rewrite updatePatterns_successRates. exact Hrate.
  - rewrite updatePatterns_healingHistory. exact Hhist.
Qed.

Lemma learned_ok_recordSuccessfulHealing (s : Strategy) (result : HealResult) (t : Z)
      (engine : HealingEngine) :
  learned_ok engine -> learned_ok (recordSuccessfulHealing s result t engine).
Proof.
  intros (Hpat & Hrate & Hhist). unfold recordSuccessfulHealing.
  apply learned_ok_updatePatterns. split; [exact Hpat|]. split.
  - cbn [successRates]. intros key r Hkey.
    destruct (String.eqb_spec key (strategy s)) as [-> | Hne].
    + rewrite lookup_insert_eq in Hkey. injection Hkey as <-.
      destruct (successRates engine !! strategy s) as [r0|] eqn:E.
      * destruct (Hrate _ _ E) as [H0 H1].
        rewrite (num_or_pos r0 _ H0). split.
        -- apply Qlt_shift_div_l; [reflexivity | lra].
        -- apply Qle_shift_div_r; [reflexivity | lra].
      * split; [reflexivity | discriminate].
    + rewrite lookup_insert_ne in Hkey by congruence. eauto.
  - cbn [healingHistory]. apply Forall_app. split; [exact Hhist|]. now constructor.
Qed.

Section LearningInvariant.
Context {World : Type} (C : Collaborators World).

(** X8.  The engine keeps its learning state well formed: if every pattern
    is filed under its own name with 0 <= successCount <= totalCount,
    totalCount >= 1 and successRate = successCount / totalCount, every
    smoothed rate lies in (0, 1] and every history entry is a success, then
    the same holds after [updatePatterns] (with either outcome), after
    [recordSuccessfulHealing] and after [applyHealing]; and every pattern's
    success rate lies in [0, 1]. *)
Theorem learning_state_stays_well_formed
        (analysis : Analysis) (testData : TestData) (context : Context) (sys : Sys World)
        (s : Strategy) (outcome : bool) (result : HealResult) (t : Z) :
  learned_ok (eng sys) ->
  learned_ok (updatePatterns s outcome (eng sys)) /\
  learned_ok (recordSuccessfulHealing s result t (eng sys)) /\
  learned_ok (eng (snd (applyHealing C analysis testData context sys))) /\
  (forall key p, patterns (eng sys) !! key = Some p ->
                 0 <= successRate p /\ successRate p <= 1).
Proof.
  intros Hok. split; [now apply learned_ok_updatePatterns|].
  split; [now apply learned_ok_recordSuccessfulHealing|]. split.
  - destruct (success (fst (applyHealing C analysis testData context sys))) eqn:Hs.
    + destruct (applyHealing_success C analysis testData context sys Hs) as (sk & t' & _ & ->).
      now apply learned_ok_recordSuccessfulHealing.
    + destruct (applyHealing_failure C analysis testData context sys Hs) as (_ & -> & _).
      exact Hok.
  - intros key p Hkey. destruct Hok as (Hpat & _).
    destruct (Hpat _ _ Hkey) as (_ & Hc & Ht & Hq).
    rewrite Hq. apply ratio_bounds; assumption.
Qed.

(** The candidate that [getPatternBasedStrategies] builds from a pattern. *)
Lemma getPatternBasedStrategies_In (engine : HealingEngine) (errorType : string)
      (context : ContextData) (s : Strategy) :
  In s (getPatternBasedStrategies C engine errorType context) <->
  exists key p,
    In key (findMatchingPatterns C errorType context) /\
    patterns engine !! key = Some p /\
    s = mkStrategy (name p) (pat_description p) (pat_implementation p)
                   (Some (successRate p * 100)) (Some "pattern") None None.
Proof.
  unfold getPatternBasedStrategies. rewrite in_flat_map. split.
  - intros (key & Hkey & Hs).
    destruct (patterns engine !! key) as [p|] eqn:E; [|destruct Hs].
    destruct Hs as [<- | []]. exists key, p. auto.
  - intros (key & p & Hkey & E & ->). exists key. split; [exact Hkey|].
    rewrite E. now left.
Qed.

(** The keys under which [findMatchingPatterns] looks. *)
Lemma findMatchingPatterns_keys (errorType : string) (context : ContextData) (key : string) :
  In key (findMatchingPatterns C errorType context) ->
  (key = errorType \/
   (cd_testType context = "ui" /\ key = "ui_" +:+ errorType) \/
   (cd_testType context = "api" /\ key = "api_" +:+ errorType) \/
   (cd_pageUrl context <> "" /\
    key = extractDomain C (cd_pageUrl context) +:+ "_" +:+ errorType)) /\
  ends_with key errorType.
Proof.
  unfold findMatchingPatterns. rewrite !in_app_iff. intros [H | [H | H]].
  - destruct H as [<- | []]. split; [now left | exists ""; reflexivity].
  - destruct (String.eqb_spec (cd_testType context) "ui") as [Eui | _].
    + destruct H as [<- | []]. split; [right; left; auto | eexists; reflexivity].
    + destruct (String.eqb_spec (cd_testType context) "api") as [Eapi | _]; [|destruct H].
      destruct H as [<- | []]. split; [right; right; left; auto | eexists; reflexivity].
  - destruct (cd_pageUrl context) as [|c url] eqn:E; [destruct H|].
    destruct H as [<- | []]. split.
    + right; right; right. split; [discriminate | reflexivity].
    + exists (extractDomain C (String c url) +:+ "_"). now rewrite string_app_assoc.
Qed.


(** X10.  A stored pattern is offered as a candidate only through a lookup
    key under which it is filed, and every lookup key ends with the error
    type that is looked up (the keys are the error type, [ui_] or [api_] plus
    the error type, and a host name plus [_] plus the error type): each
    candidate is built from a pattern whose own key is one of these.  The
    engine files its patterns under strategy names, so a table whose keys do
    not end with the error type yields no candidate. *)
Theorem learned_patterns_need_a_matching_key
        (engine : HealingEngine) (errorType : string) (context : ContextData) :
  let candidates := getPatternBasedStrategies C engine errorType context in
  (forall s, In s candidates ->
     exists key p,
       patterns engine !! key = Some p /\
       ends_with key errorType /\
       (key = errorType \/
        (cd_testType context = "ui" /\ key = "ui_" +:+ errorType) \/
        (cd_testType context = "api" /\ key = "api_" +:+ errorType) \/
        (cd_pageUrl context <> "" /\
         key = extractDomain C (cd_pageUrl context) +:+ "_" +:+ errorType)) /\
       s = mkStrategy (name p) (pat_description p) (pat_implementation p)
                      (Some (successRate p * 100)) (Some "pattern") None None) /\
  ((forall key p, patterns engine !! key = Some p -> ~ ends_with key errorType) ->
   candidates = []).
Proof.
  cbv zeta.
  assert (Hsound : forall s,
             In s (getPatternBasedStrategies C engine errorType context) ->
             exists key p,
               patterns engine !! key = Some p /\
               ends_with key errorType /\
               (key = errorType \/
                (cd_testType context = "ui" /\ key = "ui_" +:+ errorType) \/
                (cd_testType context = "api" /\ key = "api_" +:+ errorType) \/
                (cd_pageUrl context <> "" /\
                 key = extractDomain C (cd_pageUrl context) +:+ "_" +:+ errorType)) /\
               s = mkStrategy (name p) (pat_description p) (pat_implementation p)
                              (Some (successRate p * 100)) (Some "pattern") None None).
  { intros s Hin.
    apply getPatternBasedStrategies_In in Hin as (key & p & Hkey & E & ->).
    destruct (findMatchingPatterns_keys errorType context key Hkey) as [Hform Hend].
    exists key, p. auto. }
  split; [exact Hsound|].
  intros Hno.
  destruct (getPatternBasedStrategies C engine errorType context) as [|s rest]; [reflexivity|].
  exfalso. destruct (Hsound s (or_introl eq_refl)) as (key & p & E & Hend & _).
  exact (Hno key p E Hend).
Qed.

End LearningInvariant.

Lemma learning_state_stays_well_formed_witness :
  learned_ok (eng (snd (applyHealing Samples.collaborators
                          (Demo.analysis_of [Demo.candidate "wait_healing" 70])
                          Demo.no_page empty_context (Demo.start None)))).
Proof.
  apply (learning_state_stays_well_formed Samples.collaborators
           (Demo.analysis_of [Demo.candidate "wait_healing" 70])
           Demo.no_page empty_context (Demo.start None)
           (Demo.candidate "wait_healing" 70) true tryBasicWaitStrategies 0).
  apply learned_ok_new_engine.
Defined.


Lemma string_length_app (a b : string) :
  String.length (a +:+ b) = (String.length a + String.length b)%nat.
Proof.
  induction a as [|x a IH]; [reflexivity|].
  change (S (String.length (a +:+ b)) = S (String.length a + String.length b)).
  now f_equal.
Qed.

Lemma learned_patterns_need_a_matching_key_witness :
  getPatternBasedStrategies Samples.collaborators Samples.healed_once
    "wait_failure" (extractContextData empty_context 0) = [].
Proof.
  apply (learned_patterns_need_a_matching_key Samples.collaborators Samples.healed_once
           "wait_failure" (extractContextData empty_context 0)).
  intros key p Hkey (front & Hfront).
  assert (Hk : key = "wait_healing").
  { destruct (String.eqb_spec key "wait_healing") as [E | Hne]; [exact E|].
    unfold Samples.healed_once, recordSuccessfulHealing in Hkey.
    rewrite updatePatterns_other in Hkey by exact Hne.
    cbn [patterns new_engine] in Hkey. rewrite lookup_empty in Hkey. discriminate. }
  rewrite Hk in Hfront. pose proof (f_equal String.length Hfront) as Hlen.
  rewrite string_length_app in Hlen. cbn in Hlen.
  destruct front; [discriminate Hfront | cbn in Hlen; lia].
Defined.

(** ** More on ranking *)

Lemma Array_sort_of_sorted (l : list Strategy) :
  StronglySorted score_ge l -> Array_sort by_score_desc l = l.
Proof.
  induction 1 as [|x l Hl IH Hx]; [reflexivity|].
  cbn [Array_sort]. rewrite IH. destruct l as [|y l]; [reflexivity|].
  cbn [sort_insert]. inversion Hx as [|? ? Hxy _]; subst.
  apply by_score_desc_le in Hxy. now rewrite Hxy.
Qed.

Lemma Math_min_le_100 (x : Q) : Math_min 100 x <= 100.
Proof.
  unfold Math_min. destruct (Qle_bool 100 x) eqn:E; [apply Qle_refl|].
  destruct (Qlt_le_dec x 100) as [H|H]; [now apply Qlt_le_weak|].
  apply Qle_bool_iff in H. congruence.
Qed.

Lemma Math_min_monotone (x y : Q) : x <= y -> Math_min 100 x <= Math_min 100 y.
Proof.
  intros H. unfold Math_min.
  destruct (Qle_bool 100 x) eqn:Ex, (Qle_bool 100 y) eqn:Ey;
    try apply Qle_bool_iff in Ex; try apply Qle_bool_iff in Ey.
  - apply Qle_refl.
  - lra.
  - destruct (Qlt_le_dec x 100) as [Hx|Hx]; [now apply Qlt_le_weak|].
    apply Qle_bool_iff in Hx. congruence.
  - exact H.
Qed.

(** X11.  Ranking keeps the number of candidates and gives each a score of
    at most 100; ranking a ranked list again (same engine, same context)
    changes nothing. *)
Theorem rankStrategies_idempotent
        (engine : HealingEngine) (strategies : list Strategy) (context : Context) :
  let ranked := rankStrategies engine strategies context in
  rankStrategies engine ranked context = ranked /\
  length ranked = length strategies /\
  Forall (fun s => exists q, score s = Some q /\ q <= 100) ranked.
Proof.
  cbv zeta.
  assert (Hin : forall x, In x (rankStrategies engine strategies context) ->
                          exists s, x = with_score s (calculateStrategyScore engine s context)).
  { intros x Hx. unfold rankStrategies in Hx.
    apply (Permutation_in _ (Array_sort_Permutation by_score_desc _)) in Hx.
    apply in_map_iff in Hx as (s & <- & _). eauto. }
  split; [|split].
  - unfold rankStrategies at 1.
    rewrite (map_ext_in _ (fun x => x)).
    + rewrite List.map_id. apply Array_sort_of_sorted. apply Array_sort_sorted.
    + intros x Hx. destruct (Hin x Hx) as (s & ->). reflexivity.
  - unfold rankStrategies. now rewrite Array_sort_length, length_map.
  - apply List.Forall_forall. intros x Hx. destruct (Hin x Hx) as (s & ->).
    eexists. split; [reflexivity|]. apply Math_min_le_100.
Qed.

(** X12.  Among candidates of one name, a higher positive confidence never
    scores lower. *)
Theorem calculateStrategyScore_monotone
        (engine : HealingEngine) (a b : Strategy) (context : Context) (ca cb : Q) :
  strategy a = strategy b ->
  confidence a = Some ca -> confidence b = Some cb ->
  0 < ca -> ca <= cb ->
  calculateStrategyScore engine a context <= calculateStrategyScore engine b context.
Proof.
  intros Hname Ha Hb Hpos Hle. unfold calculateStrategyScore.
  rewrite Ha, Hb, Hname, (num_or_pos ca _ Hpos).
  assert (Hpos' : 0 < cb) by lra. rewrite (num_or_pos cb _ Hpos').
  apply Math_min_monotone. lra.
Qed.

Lemma calculateStrategyScore_monotone_witness :
  calculateStrategyScore new_engine (Demo.candidate "wait_healing" 10) empty_context <=
  calculateStrategyScore new_engine (Demo.candidate "wait_healing" 60) empty_context.
Proof.
  apply (calculateStrategyScore_monotone new_engine
           (Demo.candidate "wait_healing" 10) (Demo.candidate "wait_healing" 60)
           empty_context 10 60); [reflexivity | reflexivity | reflexivity | reflexivity |].
  discriminate.
Defined.

(** ** Strategies that cannot fail *)

Section SureHealers.
Context {World : Type} (C : Collaborators World).

(** What [data_healing] returns: a failure when the test data cannot be
    written as JSON, and otherwise a success that carries the data the model
    proposed, or the test data itself when the model throws or its answer
    does not parse. *)
Lemma dispatchStrategy_data (s : Strategy) (testData : TestData) (context : Context)
      (sys : Sys World) :
  toLowerCase (strategy s) = "data_healing" ->
  fst (dispatchStrategy C (toLowerCase (strategy s)) s testData context sys) =
  match JSON_stringify_error C testData with
  | Some e => Some (failure (message e) (strategy s))
  | None =>
      Some (mkHealResult true None (Some (strategy s)) (Some (default [] (changes s)))
              (Some match fst (callAI C (TestDataPrompt testData s) (world sys)) with
                    | Return response => default testData (JSON_parse_testData C response)
                    | Throw _ => testData
                    end)
              None None None None None)
  end.
Proof.
  intros Hdata. unfold dispatchStrategy. rewrite Hdata.
  cbn [String.eqb Ascii.eqb Bool.eqb andb].
  unfold healDataIssue, healTestData.
  destruct (JSON_stringify_error C testData) as [e|]; [reflexivity|].
  unfold bind, trace, extern, ret. cbn [world].
  destruct (callAI C (TestDataPrompt testData s) (world sys)) as [[response|e] w];
    cbn [fst]; [destruct (JSON_parse_testData C response)|]; reflexivity.
Qed.

Lemma dispatchStrategy_sure (s : Strategy) (testData : TestData) (context : Context)
      (sys : Sys World) :
  (toLowerCase (strategy s) = "data_healing" /\ JSON_stringify_error C testData = None) \/
  (td_page testData = None /\ heals_without_page s = true) ->
  exists r,
    fst (dispatchStrategy C (toLowerCase (strategy s)) s testData context sys) = Some r /\
    success r = true.
Proof.
  intros [[Hdata Hjson] | [Hpage Hname]].
  - rewrite (dispatchStrategy_data s testData context sys Hdata), Hjson.
    eexists. split; reflexivity.
  - unfold dispatchStrategy.
    unfold heals_without_page in Hname. cbv zeta in Hname.
    apply orb_true_iff in Hname as [Hname | Hname];
      [apply orb_true_iff in Hname as [Hname | Hname]|];
      apply String.eqb_eq in Hname; rewrite Hname;
      cbn [String.eqb Ascii.eqb Bool.eqb andb];
      unfold bind, healWaitIssue, healElementStateIssue, healNavigationIssue, ret;
      rewrite Hpage; eexists; split; reflexivity.
Qed.

Lemma executeHealingStrategy_value (s : Strategy) (testData : TestData) (context : Context)
      (sys : Sys World) :
  fst (executeHealingStrategy C s testData context sys) =
  fst (dispatchStrategy C (toLowerCase (strategy s)) s testData context
         (mkSys (eng sys) (fwk sys) (world sys) (calls sys ++ [CallExecuteStrategy s]))).
Proof.
  unfold executeHealingStrategy, bind, trace, ret. cbv zeta.
  destruct (dispatchStrategy C _ s testData context _) as [result s1]. reflexivity.
Qed.

Lemma executeHealingStrategy_sure (s : Strategy) (testData : TestData) (context : Context)
      (sys : Sys World) :
  (toLowerCase (strategy s) = "data_healing" /\ JSON_stringify_error C testData = None) \/
  (td_page testData = None /\ heals_without_page s = true) ->
  exists r, fst (executeHealingStrategy C s testData context sys) = Some r /\
            success r = true.
Proof.
  intros Hsure. rewrite executeHealingStrategy_value.
  now apply dispatchStrategy_sure.
Qed.

Lemma applyHealing_loop_sure (strategies : list Strategy) (s : Strategy)
      (testData : TestData) (context : Context) (sys : Sys World) :
  In s strategies ->
  (toLowerCase (strategy s) = "data_healing" /\ JSON_stringify_error C testData = None) \/
  (td_page testData = None /\ heals_without_page s = true) ->
  exists r, fst (applyHealing_loop C strategies testData context sys) = Some r /\
            success r = true.
Proof.
  intros Hin Hsure. revert sys.
  induction strategies as [|x rest IH]; intros sys; [destruct Hin|].
  rewrite applyHealing_loop_cons.
  destruct (executeHealingStrategy C x testData context sys) as [result sys1] eqn:E.
  destruct Hin as [-> | Hin].
  - destruct (executeHealingStrategy_sure s testData context sys Hsure) as (r & Hr & Hs).
    rewrite E in Hr. cbn [fst] in Hr. subst result. rewrite Hs. eauto.
  - destruct result as [r|]; [|now apply IH].
    destruct (success r) eqn:Hs; [eauto | now apply IH].
Qed.

(** X13.  [applyHealing] reports success whenever the ranked list holds a
    strategy that cannot fail: [data_healing] when the test data can be
    written as JSON, or, for test data without a page, [wait_healing],
    [element_state_healing] or [navigation_healing]; the names count in any
    letter case.  A [data_healing] strategy returns a failure with the
    message of the error when [JSON.stringify(testData)] throws; otherwise it
    returns [success: true] with healed data, which are the test data
    unchanged when the language model throws or its answer does not parse,
    and the parsed answer otherwise. *)
Theorem applyHealing_succeeds_with_a_sure_strategy
        (analysis : Analysis) (testData : TestData) (context : Context) (sys : Sys World)
        (s : Strategy) :
  let data_strategy := toLowerCase (strategy s) = "data_healing" in
  (In s (an_strategies analysis) ->
   (data_strategy /\ JSON_stringify_error C testData = None) \/
   (td_page testData = None /\ heals_without_page s = true) ->
   success (fst (applyHealing C analysis testData context sys)) = true) /\
  (data_strategy ->
   let result := fst (executeHealingStrategy C s testData context sys) in
   match JSON_stringify_error C testData with
   | Some e => result = Some (failure (message e) (strategy s))
   | None =>
       exists r d,
         result = Some r /\ success r = true /\ healedData r = Some d /\
         res_strategy r = Some (strategy s) /\
         match fst (callAI C (TestDataPrompt testData s) (world sys)) with
         | Return response =>
             match JSON_parse_testData C response with
             | Some parsed => d = parsed
             | None => d = testData
             end
         | Throw _ => d = testData
         end
   end).
Proof.
  cbv zeta. split.
  - intros Hin Hsure. rewrite applyHealing_unfold.
    match goal with
    | |- context [applyHealing_loop C ?l testData context ?s0] =>
        destruct (applyHealing_loop_sure l s testData context s0 Hin Hsure) as (r & Hr & Hs);
        destruct (applyHealing_loop C l testData context s0) as [found sys1]
    end.
    cbn [fst] in *. subst found. exact Hs.
  - intros Hdata. rewrite executeHealingStrategy_value, dispatchStrategy_data by exact Hdata.
    cbn [world].
    destruct (JSON_stringify_error C testData) as [e|]; [reflexivity|].
    eexists _, _. split; [reflexivity|]. cbn [success healedData res_strategy].
    repeat split.
    destruct (fst (callAI C (TestDataPrompt testData s) (world sys))) as [response|e];
      [destruct (JSON_parse_testData C response)|]; reflexivity.
Qed.

End SureHealers.

Lemma applyHealing_succeeds_with_a_sure_strategy_witness :
  let with_page := mkTestData None (Some 0%nat) None in
  success (fst (applyHealing Samples.collaborators
                  (Demo.analysis_of [Demo.candidate "locator_healing" 90;
                                     Demo.candidate "Data_Healing" 10])
                  Demo.no_page empty_context (Demo.start None))) = true /\
  fst (executeHealingStrategy Samples.collaborators (Demo.candidate "Data_Healing" 10)
         with_page empty_context (Demo.start None))
  = Some (failure "Converting circular structure to JSON" "Data_Healing").
Proof.
  cbv zeta. split.
  - apply (applyHealing_succeeds_with_a_sure_strategy Samples.collaborators
             (Demo.analysis_of [Demo.candidate "locator_healing" 90;
                                Demo.candidate "Data_Healing" 10])
             Demo.no_page empty_context (Demo.start None)
             (Demo.candidate "Data_Healing" 10)).
    + right. left. reflexivity.
    + left. split; reflexivity.
  - apply (applyHealing_succeeds_with_a_sure_strategy Samples.collaborators
             (Demo.analysis_of []) (mkTestData None (Some 0%nat) None) empty_context
             (Demo.start None) (Demo.candidate "Data_Healing" 10)).
    reflexivity.
Defined.

(** ** Statistics *)

Lemma filter_length_bound {A} (f : A -> bool) (l : list A) :
  (length (List.filter f l) <= length l)%nat.
Proof.
  induction l as [|x l IH]; [reflexivity|]. cbn. destruct (f x); cbn; lia.
Qed.

Lemma filter_all {A} (f : A -> bool) (l : list A) :
  Forall (fun x => f x = true) l -> List.filter f l = l.
Proof.
  induction 1 as [|x l Hx _ IH]; [reflexivity|]. cbn. now rewrite Hx, IH.
Qed.

(** X14.  [getStatistics] never reports more successful healings than
    attempts, and a success rate between 0 and 100: 0 for an empty history,
    and 100 for a non-empty history of successes, which is the only kind of
    history the engine itself builds.  [strategyStats] has one property per
    name of the success-rate table other than [__proto__], with the rate in
    percent and the number of history entries of that name, and no property
    for [__proto__] or for a name that the table does not have; each recorded
    success adds one attempt. *)
Theorem getStatistics_bounds (engine : HealingEngine) :
  let st := getStatistics engine in
  (st_successfulHealings st <= st_totalAttempts st)%nat /\
  0 <= st_successRate st /\ st_successRate st <= 100 /\
  (healingHistory engine = [] -> st_successRate st = 0) /\
  (healingHistory engine <> [] ->
   Forall (fun h => h_success h = true) (healingHistory engine) ->
   st_successRate st == 100) /\
  (forall n,
      st_strategyStats st !! n =
      if String.eqb n "__proto__" then None
      else (fun rate : Q =>
              (rate * 100,
               length (List.filter (fun h => String.eqb (h_strategy h) n)
                                   (healingHistory engine))))
             <$> successRates engine !! n) /\
  (forall s r t,
      st_totalAttempts (getStatistics (recordSuccessfulHealing s r t engine)) =
      S (st_totalAttempts st)).
Proof.
  cbv zeta. unfold getStatistics. cbn [st_successfulHealings st_totalAttempts st_successRate
                                      st_strategyStats].
  pose proof (filter_length_bound h_success (healingHistory engine)) as Hle.
  split; [exact Hle|].
  assert (Hrate : 0 <= (if (0 <? length (healingHistory engine))%nat
                        then inject_Z (Z.of_nat (length (List.filter h_success
                                                           (healingHistory engine)))) /
                             inject_Z (Z.of_nat (length (healingHistory engine))) * 100
                        else 0) <= 100).
  { destruct (0 <? length (healingHistory engine))%nat eqn:E; [|split; discriminate].
    apply Nat.ltb_lt in E.
    destruct (ratio_bounds (Z.of_nat (length (List.filter h_success (healingHistory engine))))
                           (Z.of_nat (length (healingHistory engine))))
      as [H0 H1]; [lia | lia |].
    split.
    - apply Qmult_le_0_compat; [exact H0 | discriminate].
    - apply Qle_trans with (1 * 100); [|discriminate].
      apply Qmult_le_compat_r; [exact H1 | discriminate]. }
  split; [apply Hrate|]. split; [apply Hrate|]. split; [|split; [|split]].
  - intros ->. reflexivity.
  - intros Hne Hall. rewrite (filter_all _ _ Hall).
    destruct (healingHistory engine) as [|h l]; [congruence|].
    cbn [length Nat.ltb Nat.leb].
    assert (Hnz : ~ inject_Z (Z.of_nat (S (length l))) == 0).
    { intros H. unfold Qeq in H. cbn [Qnum Qden inject_Z] in H. lia. }
    field. exact Hnz.
  - intros n. rewrite map_lookup_imap.
    destruct (successRates engine !! n); cbn; destruct (String.eqb n "__proto__"); reflexivity.
  - intros s r t. unfold recordSuccessfulHealing.
    rewrite updatePatterns_healingHistory. cbn [healingHistory].
    rewrite length_app. cbn. lia.
Qed.

(** ** Persistence at the edges *)

Section PersistenceEdges.
Context {World : Type} (C : Collaborators World).

(** X15.  Saving never changes the engine, the wrapper or the trace, whether
    the write succeeds or throws.  Loading when the file is missing, or when
    the read throws, leaves everything but the world as it was; loading a
    record replaces exactly the parts that the record carries, and never the
    learning data of the language-model integration. *)
Theorem persistence_never_disturbs_the_engine (sys : Sys World) :
  let saved := snd (saveHealingPatterns C sys) in
  let loaded := snd (loadHealingPatterns C sys) in
  eng saved = eng sys /\ fwk saved = fwk sys /\ calls saved = calls sys /\
  fwk loaded = fwk sys /\ calls loaded = calls sys /\
  learningData (eng loaded) = learningData (eng sys) /\
  match fst (fs_read C (world sys)) with
  | Return (Some data) =>
      (p_patterns data = None -> patterns (eng loaded) = patterns (eng sys)) /\
      (p_successRates data = None -> successRates (eng loaded) = successRates (eng sys)) /\
      (p_healingHistory data = None ->
       healingHistory (eng loaded) = healingHistory (eng sys)) /\
      (forall h, p_healingHistory data = Some h -> healingHistory (eng loaded) = h)
  | _ => eng loaded = eng sys
  end.
Proof.
  cbv zeta. unfold saveHealingPatterns, loadHealingPatterns, bind, get_engine, now,
    extern, put_engine, ret.
  destruct (fs_write C _ (world sys)) as [cw ww]. cbn [snd eng fwk calls].
  destruct (fs_read C (world sys)) as [[[data|]|e] wr]; cbn.
  - repeat split; auto; try (intros ->; reflexivity). intros h ->. reflexivity.
  - repeat split.
  - repeat split.
Qed.

End PersistenceEdges.

(** X16.  [new Map(entries)], as used when loading: a key that occurs twice
    keeps its last value, and a key that does not occur is absent. *)
Theorem new_Map_last_entry_wins {V} (front back : list (string * V)) (k : string) (v : V) :
  (~ In k (List.map fst back) -> new_Map (front ++ (k, v) :: back) !! k = Some v) /\
  (~ In k (List.map fst front) -> new_Map front !! k = None).
Proof.
  split.
  - induction back as [|[k' v'] back IH] using rev_ind; intros Hk.
    + now rewrite new_Map_snoc, lookup_insert_eq.
    + rewrite List.map_app, in_app_iff in Hk. cbn in Hk.
      change (front ++ (k, v) :: back ++ [(k', v')])
        with (front ++ ((k, v) :: back) ++ [(k', v')]).
      rewrite app_assoc, new_Map_snoc, lookup_insert_ne by tauto.
      apply IH. tauto.
  - induction front as [|[k' v'] front IH] using rev_ind; intros Hk.
    + apply lookup_empty.
    + rewrite List.map_app, in_app_iff in Hk. cbn in Hk.
      rewrite new_Map_snoc, lookup_insert_ne by tauto. apply IH. tauto.
Qed.

Lemma new_Map_last_entry_wins_witness :
  new_Map [("wait_healing", 1 # 2); ("locator_healing", 3 # 4); ("wait_healing", 7 # 8)]
  !! "wait_healing" = Some (7 # 8).
Proof.
  apply (new_Map_last_entry_wins
           [("wait_healing", 1 # 2); ("locator_healing", 3 # 4)] [] "wait_healing" (7 # 8)).
  intros [].
Defined.

(** ** Candidates read from the model's answer *)

Lemma flat_map_length_le {A B} (f : A -> list B) (l : list A) :
  (forall x, (length (f x) <= 1)%nat) -> (length (flat_map f l) <= length l)%nat.
Proof.
  intros Hf. induction l as [|x l IH]; [reflexivity|].
  cbn [flat_map]. rewrite length_app. specialize (Hf x). cbn [length]. lia.
Qed.

(** None of the five expressions matches one of the five single words, so the
    name is always the last one of [extractStrategyName], and the code the
    last one of [generateBasicImplementation]. *)
Lemma strategyPatterns_match_no_keyword (response : string) :
  Forall (fun pattern =>
            extractStrategyName response pattern = "generic_healing" /\
            generateBasicImplementation pattern = "return { success: true };")
         strategyPatterns.
Proof. repeat constructor. Qed.

Section TextFallback.
Context {World : Type} (C : Collaborators World).

(** X17.  When the model's answer is not JSON, [parseHealingStrategies] never
    returns an empty list.  If none of the five expressions matches the answer
    the result is the two basic candidates; otherwise it is one candidate per
    matching expression (at most five), every one of them named
    [generic_healing], with the code [return { success: true };] and
    confidence 70: the name and the code are chosen by testing the expression
    against a single word, which a two-word expression never matches. *)
Theorem parseHealingStrategies_text_fallback (response : string) :
  JSON_parse C response = JsonSyntaxError ->
  let found := parseHealingStrategies C response in
  found <> [] /\
  ((forall pattern, In pattern strategyPatterns -> regex_test pattern response = false) ->
   found = basic_strategies) /\
  ((exists pattern, In pattern strategyPatterns /\ regex_test pattern response = true) ->
   (1 <= length found <= 5)%nat /\
   length found = length (List.filter (fun pattern => regex_test pattern response)
                                      strategyPatterns) /\
   Forall (fun s => strategy s = "generic_healing" /\
                    implementation s = ImplString "return { success: true };" /\
                    confidence s = Some 70 /\ score s = None) found).
Proof.
  intros Hparse. cbv zeta. unfold parseHealingStrategies. rewrite Hparse.
  set (push := fun pattern : string * string =>
                 if regex_test pattern response
                 then [ mkStrategy (extractStrategyName response pattern)
                          (Some (extractDescription response pattern))
                          (ImplString (generateBasicImplementation pattern))
                          (Some 70) None None None ]
                 else []).
  assert (Hlen : forall l, length (flat_map push l) =
                           length (List.filter (fun pattern => regex_test pattern response) l)).
  { induction l as [|p l IH]; [reflexivity|].
    cbn [flat_map List.filter]. rewrite length_app, IH. unfold push.
    destruct (regex_test p response); reflexivity. }
  assert (Hle : (length (flat_map push strategyPatterns) <= 5)%nat).
  { apply (flat_map_length_le push strategyPatterns).
    intros p. unfold push. destruct (regex_test p response); cbn; lia. }
  assert (Hall : Forall (fun s => strategy s = "generic_healing" /\
                                  implementation s = ImplString "return { success: true };" /\
                                  confidence s = Some 70 /\ score s = None)
                        (flat_map push strategyPatterns)).
  { apply Forall_flat_map.
    eapply List.Forall_impl; [|apply (strategyPatterns_match_no_keyword response)].
    intros p [Hn Hi]. unfold push. destruct (regex_test p response); [|constructor].
    constructor; [|constructor]. cbn. rewrite Hn, Hi. auto. }
  split; [|split].
  - destruct (flat_map push strategyPatterns); cbn; discriminate.
  - intros Hno. rewrite (proj2 (Nat.eqb_eq _ _)); [reflexivity|].
    rewrite Hlen. clear - Hno.
    induction strategyPatterns as [|p l IH]; [reflexivity|].
    cbn [List.filter]. rewrite (Hno p (or_introl eq_refl)). apply IH.
    intros q Hq. apply Hno. now right.
  - intros (p & Hin & Hp).
    assert (Hpos : (1 <= length (flat_map push strategyPatterns))%nat).
    { rewrite Hlen. clear - Hin Hp.
      induction strategyPatterns as [|q l IH]; [destruct Hin|].
      cbn [List.filter]. destruct Hin as [-> | Hin].
      - rewrite Hp. cbn. lia.
      - destruct (regex_test q response); cbn; [lia | now apply IH]. }
    destruct (length (flat_map push strategyPatterns) =? 0)%nat eqn:E.
    + apply Nat.eqb_eq in E. lia.
    + split; [lia|]. split; [apply Hlen | exact Hall].
Qed.

(** X18.  When the model answers, [generateHealingStrategies] calls it exactly
    once and touches neither the learning state nor the wrapper.  An answer
    that is JSON but not an array gives no candidate.  An array is taken as it
    is: the result holds the same candidates, each with a score of at most
    100 computed by the integration's own formula, in descending order of
    that score. *)
Theorem generateHealingStrategies_on_an_answer
        (error : JsError) (context : Context) (sys : Sys World) (response : string) :
  fst (callAI C (HealingPrompt error context) (world sys)) = Return response ->
  let generated := fst (generateHealingStrategies C error context sys) in
  let sys' := snd (generateHealingStrategies C error context sys) in
  let unscored := fun s => with_score s 0 in
  eng sys' = eng sys /\ fwk sys' = fwk sys /\
  calls sys' = calls sys ++ [CallAI (HealingPrompt error context)] /\
  (JSON_parse C response = JsonOther -> generated = []) /\
  (forall parsed,
      JSON_parse C response = JsonArray parsed ->
      Permutation (List.map unscored generated) (List.map unscored parsed) /\
      StronglySorted score_ge generated /\
      Forall (fun s => exists s0, In s0 parsed /\
                         score s = Some (ai_calculateStrategyScore
                                           (learningData (eng sys)) s0 context) /\
                         score_num s <= 100)
             generated).
Proof.
  intros Hcall. cbv zeta.
  pose proof (generateHealingStrategies_value C error context sys) as Hv.
  rewrite Hcall in Hv. rewrite Hv.
  split; [|split; [|split; [|split]]].
  - unfold generateHealingStrategies, bind, trace, extern, get_engine, ret. cbn.
    destruct (callAI C _ (world sys)) as [[r|e] w]; reflexivity.
  - unfold generateHealingStrategies, bind, trace, extern, get_engine, ret. cbn.
    destruct (callAI C _ (world sys)) as [[r|e] w]; reflexivity.
  - unfold generateHealingStrategies, bind, trace, extern, get_engine, ret. cbn.
    destruct (callAI C _ (world sys)) as [[r|e] w]; reflexivity.
  - intros Hp. unfold parseHealingStrategies. rewrite Hp. reflexivity.
  - intros parsed Hp. unfold parseHealingStrategies. rewrite Hp.
    unfold ai_rankStrategies. split; [|split].
    + rewrite (Permutation_map _ (Array_sort_Permutation by_score_desc _)).
      rewrite List.map_map. reflexivity.
    + apply Array_sort_sorted.
    + eapply Permutation_Forall; [symmetry; apply Array_sort_Permutation|].
      apply List.Forall_forall. intros s Hs. apply in_map_iff in Hs as (s0 & <- & Hin).
      exists s0. split; [exact Hin|]. split; [reflexivity|].
      unfold score_num, with_score. cbn [score].
      unfold ai_calculateStrategyScore. apply Math_min_le_100.
Qed.

End TextFallback.

Lemma parseHealingStrategies_text_fallback_witness :
  let C := Demo.collaborators (Demo.ai_prose "Try a locator based healing.") Demo.not_json in
  JSON_parse C "Try a locator based healing." = JsonSyntaxError /\
  parseHealingStrategies C "Try a locator based healing." <> [].
Proof.
  cbv zeta. split; [reflexivity|].
  apply (parseHealingStrategies_text_fallback
           (Demo.collaborators (Demo.ai_prose "Try a locator based healing.") Demo.not_json)
           "Try a locator based healing." eq_refl).
Defined.

Lemma generateHealingStrategies_on_an_answer_witness :
  let C := Demo.collaborators (Demo.ai_prose "Try a locator based healing.") Demo.not_json in
  calls (snd (generateHealingStrategies C (Error "element not found") empty_context
                (Demo.start None)))
  = [CallAI (HealingPrompt (Error "element not found") empty_context)].
Proof.
  cbv zeta.
  apply (generateHealingStrategies_on_an_answer
           (Demo.collaborators (Demo.ai_prose "Try a locator based healing.") Demo.not_json)
           (Error "element not found") empty_context (Demo.start None)
           "Try a locator based healing." eq_refl).
Defined.

(** ** Alternative selectors *)

Lemma replace_first_without (s : string) :
  includes s "=" = false -> replace_first s "=" "*=" = s.
Proof.
  induction s as [|c s IH]; [reflexivity|].
  cbn [includes]. intros H. apply orb_false_iff in H as [H1 H2].
  cbn [replace_first]. rewrite H1, (IH H2). reflexivity.
Qed.

Lemma replace_first_grows (s : string) :
  includes s "=" = true ->
  String.length (replace_first s "=" "*=") = S (String.length s).
Proof.
  induction s as [|c s IH]; [discriminate|].
  cbn [includes]. intros H. cbn [replace_first].
  destruct (startsWith (String c s) "=") eqn:E.
  - reflexivity.
  - cbn [orb] in H. cbn [String.length]. now rewrite (IH H).
Qed.

Lemma startsWith_char (s : string) (a : ascii) :
  startsWith s (String a EmptyString) = true -> exists t, s = String a t.
Proof. intros H. apply startsWith_spec in H as [t ->]. now exists t. Qed.

(** X19.  [generateAlternativeSelectors] proposes at most three selectors.  A
    proposal repeats the original selector only when that is an attribute
    selector without an equals sign, in which case the one proposal is the
    original itself; a selector that is not an id, a class or an attribute
    selector gets no proposal. *)
Theorem generateAlternativeSelectors_are_new (loc : string) :
  let alternatives := generateAlternativeSelectors (Some loc) in
  (length alternatives <= 3)%nat /\
  (In loc alternatives <-> startsWith loc "[" = true /\ includes loc "=" = false) /\
  (startsWith loc "[" = true -> includes loc "=" = false -> alternatives = [loc]) /\
  (startsWith loc "#" = false -> startsWith loc "." = false ->
   startsWith loc "[" = false -> alternatives = []).
Proof.
  cbv zeta. unfold generateAlternativeSelectors, str_truthy.
  destruct loc as [|c loc].
  { cbn. split; [lia|]. split; [split; [intros [] | intros [H _]; discriminate]|].
    split; [discriminate | reflexivity]. }
  destruct (startsWith (String c loc) "#") eqn:Eh.
  { apply startsWith_char in Eh as [t Ht]. injection Ht as -> ->.
    split; [cbn; lia|]. split; [|split; discriminate].
    split; [|intros [H _]; discriminate].
    cbn [In substring1]. intros [H | [H | [H | []]]]; discriminate. }
  destruct (startsWith (String c loc) ".") eqn:Ed.
  { apply startsWith_char in Ed as [t Ht]. injection Ht as -> ->.
    split; [cbn; lia|]. split; [|split; discriminate].
    split; [|intros [H _]; discriminate].
    cbn [In substring1]. intros [H | [H | []]]; discriminate. }
  destruct (startsWith (String c loc) "[") eqn:Eb.
  - split; [cbn; lia|]. split; [|split].
    + cbn [In]. split.
      * intros [H | []]. split; [reflexivity|].
        destruct (includes (String c loc) "=") eqn:Ei; [|reflexivity].
        apply replace_first_grows in Ei. rewrite H in Ei. lia.
      * intros [_ Hi]. left. now apply replace_first_without.
    + intros _ Hi. now rewrite replace_first_without.
    + discriminate.
  - cbn [In length]. split; [lia|].
    split; [split; [intros [] | intros [H _]; discriminate]|].
    split; [discriminate | reflexivity].
Qed.

Lemma generateAlternativeSelectors_are_new_witness :
  generateAlternativeSelectors (Some "[disabled]") = ["[disabled]"].
Proof.
  destruct (generateAlternativeSelectors_are_new "[disabled]") as (_ & _ & H & _).
  apply H; reflexivity.
Defined.

Lemma getStatistics_bounds_witness :
  st_successRate (getStatistics Samples.healed_once) == 100.
Proof.
  destruct (getStatistics_bounds Samples.healed_once) as (_ & _ & _ & _ & H & _).
  apply H.
  - discriminate.
  - repeat constructor.
Defined.

Lemma persistence_never_disturbs_the_engine_witness :
  eng (snd (loadHealingPatterns Samples.collaborators (Demo.start None)))
  = eng (Demo.start None).
Proof.
  destruct (persistence_never_disturbs_the_engine Samples.collaborators (Demo.start None))
    as (_ & _ & _ & _ & _ & _ & H).
  exact H.
Defined.
